(** * visualize_ecosystem.py: a shallow embedding and its verified properties

    The script loads a CSV table of per-timestep population counts into a
    pandas DataFrame, prints summary statistics and renders two charts with
    matplotlib.  The embedding below follows the script function by function.

    - A DataFrame is an ordered list of named columns over a row index; the
      script receives it by reference, so frames live in a heap of the
      [world] and the functions take a reference.
    - Console output, the pyplot figure stack, the file system and the wall
      clock are the other components of the [world]; every function of the
      script is a computation in a state-and-exception monad over it.
    - Counts are the 64-bit integers of a pandas integer column: values are
      kept as [Z], integer sums wrap around as numpy's int64 does, and the
      mean is an IEEE 754 binary64 number computed with the operations of
      the Standard Library's [SpecFloat].
    - f-strings are kept as their pieces (literal text and formatted fields
      with their format specification); [text] renders a line as Python
      prints it. *)

From Stdlib Require Import ZArith QArith List String Ascii Lia SpecFloat.
From stdpp Require Import base option list strings gmap pretty.

Local Open Scope string_scope.
Local Open Scope list_scope.
Local Open Scope stdpp_scope.
Local Open Scope Z_scope.

(** ** Data model *)

(** A pandas Series of integer counts (dtype int64), positions 0 .. n-1;
    the values are kept as [Z]. *)
Abbreviation Series := (list Z).

(** numpy's [int64]: the result of an addition or a subtraction is taken
    modulo 2^64 into the range from -2^63 to 2^63 - 1. *)
Definition wrap64 (z : Z) : Z := (z + 2 ^ 63) mod 2 ^ 64 - 2 ^ 63.

(** numpy's [float64], which is Python's [float]: an IEEE 754 binary64
    number, with the operations the Standard Library specifies (53 digits,
    round to nearest, ties to even). *)
Definition float64 : Type := spec_float.

(** The conversion of an integer to the nearest float. *)
Definition float_of_int (z : Z) : float64 := binary_normalize 53 1024 z 0 false.

Definition float_add (x y : float64) : float64 := SFadd 53 1024 x y.
Definition float_div (x y : float64) : float64 := SFdiv 53 1024 x y.

Definition nan : float64 := S754_nan.

(** What a reduction over a Series returns: an integer or a float. *)
Inductive scalar :=
| SInt (z : Z)
| SFloat (x : float64).

(** A DataFrame: the length of its row index and its columns in insertion
    order. *)
Record DataFrame := mkDataFrame {
  df_len : nat;
  df_cols : list (string * Series)
}.

(** The exceptions the script can end with.  [ReferenceError] stands for
    the use of a reference to no frame; Python has no such state, and no
    function of the script reaches it from a reference it was given by
    [load_data]. *)
Inductive exn :=
| SystemExit (code : Z)
| KeyError (key : string)
| IndexError
| FileNotFoundError (path : string)
| ParserError
| ReferenceError.

Inductive outcome (A : Type) :=
| Ok (a : A)
| Raise (e : exn).
Arguments Ok {A} a.
Arguments Raise {A} e.

(** An f-string after evaluation of its fields, before rendering. *)
Inductive value :=
| VStr (s : string)
| VNum (x : scalar).

Inductive piece :=
| Lit (s : string)
| Fmt (v : value) (spec : string).

Definition fstring := list piece.

(** matplotlib state: a line of a plot, an axes, a figure. *)
Record line2d := mkLine {
  ln_x : Series;
  ln_y : Series;
  ln_label : string;
  ln_width : Z
}.

Record axes := mkAxes {
  ax_lines : list line2d;
  ax_title : option string;
  ax_xlabel : option string;
  ax_ylabel : option string;
  ax_legend : option string;
  ax_grid : bool
}.

Record figure := mkFigure {
  fig_size : Q * Q;
  fig_axes : list axes
}.

Inductive file :=
| TextFile (content : string)
| ImageFile (fig : figure) (dpi : Z).

Definition ref := nat.

(** The state of the process and of its environment.  [figures] is the
    pyplot figure stack, the current figure first. *)
Record world := mkWorld {
  heap : list DataFrame;
  stdout : list fstring;
  figures : list figure;
  files : gmap string file;
  clock : Q
}.

(** ** The state-and-exception monad *)

Definition M (A : Type) : Type := world -> outcome A * world.

Definition ret {A} (a : A) : M A := fun w => (Ok a, w).

Definition bind {A B} (m : M A) (k : A -> M B) : M B :=
  fun w =>
    match m w with
    | (Ok a, w') => k a w'
    | (Raise e, w') => (Raise e, w')
    end.

Definition raise {A} (e : exn) : M A := fun w => (Raise e, w).

Definition lift {A} (o : outcome A) : M A := fun w => (o, w).

Declare Scope py_scope.
Delimit Scope py_scope with py.
Notation "x <- m ;; k" := (bind m (fun x => k))
  (at level 100, m at next level, right associativity) : py_scope.
Notation "m1 ;;; m2" := (bind m1 (fun _ => m2))
  (at level 100, right associativity) : py_scope.
Local Open Scope py_scope.

(** [for x in l: body x] *)
Fixpoint for_ {A} (l : list A) (body : A -> M unit) : M unit :=
  match l with
  | [] => ret tt
  | x :: l' => body x ;;; for_ l' body
  end.

Definition exec {A} (m : M A) (w : world) : world := snd (m w).
Definition result {A} (m : M A) (w : world) : outcome A := fst (m w).

(** ** Strings *)

Definition nl : string := String (ascii_of_nat 10) EmptyString.

(** [s * n] *)
Fixpoint str_mul (s : string) (n : nat) : string :=
  match n with
  | O => ""
  | S n' => s +:+ str_mul s n'
  end.

(** [str(z)] for an integer. *)
Definition str_of_int (z : Z) : string := pretty z.

(** ** Formatting *)

(** [s.rjust(n, fill)] and [s.ljust(n, fill)] for a one-character [fill]. *)
Definition rjust (n : nat) (fill s : string) : string :=
  str_mul fill (n - String.length s) +:+ s.

Definition ljust (n : nat) (fill s : string) : string :=
  s +:+ str_mul fill (n - String.length s).

(** The integer nearest to [num / den], for [den > 0]; of two nearest ones
    the even one. *)
Definition round_half_even (num den : Z) : Z :=
  let q := num / den in
  match 2 * (num mod den) ?= den with
  | Lt => q
  | Eq => if Z.even q then q else q + 1
  | Gt => q + 1
  end.

(** The decimal notation of [n / 10 ^ digits] with [digits] decimals, for a
    natural number [n]. *)
Definition fixed (digits : nat) (n : Z) : string :=
  let p := 10 ^ Z.of_nat digits in
  pretty (n / p) +:+
  match digits with
  | O => ""
  | S _ => "." +:+ rjust digits "0" (pretty (n mod p))
  end.

Definition sign (s : bool) : string := if s then "-" else "".

(** [format(x, '.<digits>f')] for a float [x]: the decimal with [digits]
    decimals nearest to the exact value of [x], of two nearest ones the even
    one; the sign is that of [x]. *)
Definition format_f (digits : nat) (x : float64) : string :=
  match x with
  | S754_nan => "nan"
  | S754_infinity s => sign s +:+ "inf"
  | S754_zero s => sign s +:+ fixed digits 0
  | S754_finite s m e =>
      sign s +:+
      fixed digits (round_half_even (Z.pos m * 10 ^ Z.of_nat digits * 2 ^ Z.max e 0)
                                    (2 ^ Z.max (- e) 0))
  end.

(** The format specifications of the script: an optional [<], an optional
    width, and an optional precision with the type [f]. *)
Record format_spec := mkSpec {
  spec_left : bool;
  spec_width : nat;
  spec_precision : option nat
}.

Definition digit_of (a : ascii) : option nat :=
  let n := nat_of_ascii a in
  if (48 <=? n)%nat && (n <=? 57)%nat then Some (n - 48)%nat else None.

Fixpoint read_digits (s : string) (acc : nat) : nat * string :=
  match s with
  | String a s' =>
      match digit_of a with
      | Some d => read_digits s' (10 * acc + d)%nat
      | None => (acc, s)
      end
  | EmptyString => (acc, s)
  end.

Definition starts_with_digit (s : string) : bool :=
  match s with
  | String a _ => bool_decide (is_Some (digit_of a))
  | EmptyString => false
  end.

(** [None] for a specification outside this grammar; a width with a leading
    zero, which asks for zero padding, is outside. *)
Definition parse_spec (spec : string) : option format_spec :=
  let '(at_left, s) := match spec with
                       | String "<" s => (true, s)
                       | _ => (false, spec)
                       end in
  match s with
  | String "0" _ => None
  | _ =>
      let '(width, s) := read_digits s 0 in
      match s with
      | EmptyString => Some (mkSpec at_left width None)
      | String "." s =>
          let '(precision, rest) := read_digits s 0 in
          if starts_with_digit s && String.eqb rest "f"
          then Some (mkSpec at_left width (Some precision))
          else None
      | _ => None
      end
  end.

(** [format(v, spec)].  Text is padded on the right; a number is padded on
    the right under [<] and on the left without.  An integer under [f] is
    converted to a float first.  [None] where Python raises an error (text
    under [f]) and where the script never goes: a finite float other than 0
    without a precision, which Python writes in its shortest notation. *)
Definition format (v : value) (spec : string) : option string :=
  fs ← parse_spec spec;
  let pad := if spec_left fs then ljust (spec_width fs) " " else rjust (spec_width fs) " " in
  match spec_precision fs, v with
  | Some digits, VNum (SInt z) => Some (pad (format_f digits (float_of_int z)))
  | Some digits, VNum (SFloat x) => Some (pad (format_f digits x))
  | Some _, VStr _ => None
  | None, VStr s => Some (ljust (spec_width fs) " " s)
  | None, VNum (SInt z) => Some (pad (pretty z))
  | None, VNum (SFloat x) =>
      match x with
      | S754_finite _ _ _ => None
      | S754_zero s => Some (pad (sign s +:+ "0.0"))
      | _ => Some (pad (format_f 0 x))
      end
  end.

Definition render (p : piece) : option string :=
  match p with
  | Lit s => Some s
  | Fmt v spec => format v spec
  end.

(** The text of a line, as [print] writes it (without the newline that ends
    it). *)
Definition text (l : fstring) : option string :=
  String.concat "" <$> mapM render l.

(** ** Series operations *)

(** [s.iloc[i]]: positional access, negative positions count from the end. *)
Definition iloc (s : Series) (i : Z) : outcome Z :=
  let n := Z.of_nat (length s) in
  let j := if i <? 0 then i + n else i in
  if (j <? 0) || (n <=? j) then Raise IndexError
  else match s !! Z.to_nat j with
       | Some v => Ok v
       | None => Raise IndexError
       end.

(** [s.sum()] of an integer Series: an int64 sum. *)
Definition series_sum (s : Series) : Z := fold_left (fun a x => wrap64 (a + x)) s 0.

(** The sum of an integer Series in double precision: every value is
    converted to a float and added to the sum so far.  (This is the order of
    bottleneck, and of numpy for fewer than 8 values; numpy adds longer
    arrays pairwise in blocks.  The orders agree whenever no addition
    rounds; see [float_sum_of].) *)
Definition float_sum (s : Series) : float64 :=
  fold_left (fun a x => float_add a (float_of_int x)) s (S754_zero false).

(** [s.mean()] of an integer Series: the sum in double precision divided by
    the number of values as a float; NaN for no value. *)
Definition series_mean (s : Series) : scalar :=
  match s with
  | [] => SFloat nan
  | _ :: _ => SFloat (float_div (float_sum s) (float_of_int (Z.of_nat (length s))))
  end.

Definition series_max (s : Series) : scalar :=
  match s with
  | [] => SFloat nan
  | x :: xs => SInt (fold_left Z.max xs x)
  end.

Definition series_min (s : Series) : scalar :=
  match s with
  | [] => SFloat nan
  | x :: xs => SInt (fold_left Z.min xs x)
  end.

(** ** DataFrame operations *)

Fixpoint lookup_col (c : string) (cols : list (string * Series)) : option Series :=
  match cols with
  | [] => None
  | (c', s) :: cols' => if String.eqb c c' then Some s else lookup_col c cols'
  end.

Definition col_names (t : DataFrame) : list string := map fst (df_cols t).

(** The row at position [j], one value per column. *)
Definition row_at (j : nat) (t : DataFrame) : option Series :=
  mapM (fun c : string * Series => snd c !! j) (df_cols t).

Definition get_frame (data : ref) : M DataFrame :=
  fun w =>
    match heap w !! data with
    | Some t => (Ok t, w)
    | None => (Raise ReferenceError, w)
    end.

(** [data.columns] *)
Definition columns (data : ref) : M (list string) :=
  t <- get_frame data ;; ret (col_names t).

(** [len(data)] *)
Definition len (data : ref) : M Z :=
  t <- get_frame data ;; ret (Z.of_nat (df_len t)).

(** [data[c]] *)
Definition getitem (data : ref) (c : string) : M Series :=
  t <- get_frame data ;;
  match lookup_col c (df_cols t) with
  | Some s => ret s
  | None => raise (KeyError c)
  end.

(** [data.iloc[i]] *)
Definition iloc_row (data : ref) (i : Z) : M Series :=
  t <- get_frame data ;;
  let n := Z.of_nat (df_len t) in
  let j := if i <? 0 then i + n else i in
  if (j <? 0) || (n <=? j) then raise IndexError
  else match row_at (Z.to_nat j) t with
       | Some r => ret r
       | None => raise IndexError
       end.

(** ** Console *)

(** [print(f"...")]: one line (one call) is added to the console. *)
Definition print (l : fstring) : M unit :=
  fun w => (Ok tt, mkWorld (heap w) (stdout w ++ [l]) (figures w) (files w) (clock w)).

(** ** The reporter *)

Definition report_header : fstring :=
  [Lit nl; Fmt (VStr "Species") "<20"; Lit " "; Fmt (VStr "Initial") "<10"; Lit " ";
   Fmt (VStr "Final") "<10"; Lit " "; Fmt (VStr "Mean") "<10"; Lit " ";
   Fmt (VStr "Max") "<10"; Lit " "; Fmt (VStr "Min") "<10"].

Definition species_line (column : string) (initial final : Z)
    (mean maximum minimum : scalar) : fstring :=
  [Fmt (VStr column) "<20"; Lit " "; Fmt (VNum (SInt initial)) "<10"; Lit " ";
   Fmt (VNum (SInt final)) "<10"; Lit " "; Fmt (VNum mean) "<10.1f"; Lit " ";
   Fmt (VNum maximum) "<10"; Lit " "; Fmt (VNum minimum) "<10"].

(** The body of the loop of [print_statistics] over [data.columns]. *)
Definition report_column (data : ref) (column : string) : M unit :=
  if negb (String.eqb column "TimeStep") then
    s <- getitem data column ;;
    initial <- lift (iloc s 0) ;;
    s <- getitem data column ;;
    final <- lift (iloc s (-1)) ;;
    s <- getitem data column ;;
    let mean := series_mean s in
    s <- getitem data column ;;
    let maximum := series_max s in
    s <- getitem data column ;;
    let minimum := series_min s in
    print (species_line column initial final mean maximum minimum)
  else ret tt.

(** [print_statistics(data)] *)
Definition print_statistics (data : ref) : M unit :=
  print [Lit (nl +:+ str_mul "=" 80)] ;;;
  print [Lit "ECOSYSTEM STATISTICS SUMMARY"] ;;;
  print [Lit (str_mul "=" 80)] ;;;
  print report_header ;;;
  print [Lit (str_mul "-" 80)] ;;;
  cols <- columns data ;;
  for_ cols (report_column data) ;;;
  print [Lit (nl +:+ str_mul "=" 80)] ;;;
  n <- len data ;;
  print [Lit "Total timesteps: "; Fmt (VNum (SInt n)) ""] ;;;
  r <- iloc_row data 0 ;;
  ts <- getitem data "TimeStep" ;;
  t0 <- lift (iloc ts 0) ;;
  print [Lit "Initial total population: ";
         Fmt (VNum (SInt (wrap64 (series_sum r - t0)))) ".0f"] ;;;
  r <- iloc_row data (-1) ;;
  ts <- getitem data "TimeStep" ;;
  t1 <- lift (iloc ts (-1)) ;;
  print [Lit "Final total population: ";
         Fmt (VNum (SInt (wrap64 (series_sum r - t1)))) ".0f"] ;;;
  print [Lit (str_mul "=" 80 +:+ nl)].

(** ** pyplot *)

Definition set_figures (figs : list figure) (w : world) : world :=
  mkWorld (heap w) (stdout w) figs (files w) (clock w).

Definition empty_axes : axes := mkAxes [] None None None None false.

(** The figure pyplot makes when none is open. *)
Definition default_figure : figure := mkFigure (64 # 10, 48 # 10)%Q [].

(** [plt.close('all')] *)
Definition plt_close_all : M unit :=
  fun w => (Ok tt, set_figures [] w).

(** [plt.close()] closes the current figure. *)
Definition plt_close : M unit :=
  fun w => (Ok tt, set_figures (tail (figures w)) w).

(** [plt.figure(figsize=...)] opens a figure and makes it current. *)
Definition plt_figure (figsize : Q * Q) : M unit :=
  fun w => (Ok tt, set_figures (mkFigure figsize [] :: figures w) w).

(** [plt.subplots(nrows, 1, figsize=...)] opens a figure with [nrows] axes
    and returns the handles of the axes, here their positions in the figure. *)
Definition plt_subplots (nrows : nat) (figsize : Q * Q) : M (list nat) :=
  fun w => (Ok (seq 0 nrows),
            set_figures (mkFigure figsize (replicate nrows empty_axes) :: figures w) w).

(** [axes[i]] *)
Definition index {A} (l : list A) (i : nat) : outcome A :=
  match l !! i with
  | Some a => Ok a
  | None => Raise IndexError
  end.

(** A method of the axes [ax] of the current figure. *)
Definition ax_update (ax : nat) (f : axes -> axes) : M unit :=
  fun w =>
    match figures w with
    | [] => (Ok tt, w)
    | fig :: figs =>
        (Ok tt, set_figures (mkFigure (fig_size fig) (alter f ax (fig_axes fig)) :: figs) w)
    end.

(** The current axes of the pyplot interface: the last axes of the current
    figure; a figure and an axes are made when there is none. *)
Definition gca_update (f : axes -> axes) : M unit :=
  fun w =>
    let '(fig, figs) := match figures w with
                        | [] => (default_figure, [])
                        | fig :: figs => (fig, figs)
                        end in
    let axs := match fig_axes fig with
               | [] => [empty_axes]
               | _ :: _ => fig_axes fig
               end in
    (Ok tt, set_figures (mkFigure (fig_size fig) (alter f (Nat.pred (length axs)) axs) :: figs) w).

Definition add_line (x y : Series) (label : string) (linewidth : Z) (a : axes) : axes :=
  mkAxes (ax_lines a ++ [mkLine x y label linewidth])
         (ax_title a) (ax_xlabel a) (ax_ylabel a) (ax_legend a) (ax_grid a).

Definition set_title (s : string) (a : axes) : axes :=
  mkAxes (ax_lines a) (Some s) (ax_xlabel a) (ax_ylabel a) (ax_legend a) (ax_grid a).

Definition set_xlabel (s : string) (a : axes) : axes :=
  mkAxes (ax_lines a) (ax_title a) (Some s) (ax_ylabel a) (ax_legend a) (ax_grid a).

Definition set_ylabel (s : string) (a : axes) : axes :=
  mkAxes (ax_lines a) (ax_title a) (ax_xlabel a) (Some s) (ax_legend a) (ax_grid a).

Definition set_legend (loc : string) (a : axes) : axes :=
  mkAxes (ax_lines a) (ax_title a) (ax_xlabel a) (ax_ylabel a) (Some loc) (ax_grid a).

Definition set_grid (b : bool) (a : axes) : axes :=
  mkAxes (ax_lines a) (ax_title a) (ax_xlabel a) (ax_ylabel a) (ax_legend a) b.

(** The labels matplotlib puts in a legend: those that are not empty and do
    not start with an underscore. *)
Definition in_legend (label : string) : bool :=
  match label with
  | EmptyString => false
  | String "_" _ => false
  | String _ _ => true
  end.

(** The entries of the legend of an axes, once the legend has been asked
    for: the labels of its lines that matplotlib puts in a legend. *)
Definition legend_entries (a : axes) : list string :=
  match ax_legend a with
  | Some _ => List.filter in_legend (map ln_label (ax_lines a))
  | None => []
  end.

Definition plt_plot (x y : Series) (label : string) (linewidth : Z) : M unit :=
  gca_update (add_line x y label linewidth).
Definition plt_title (s : string) : M unit := gca_update (set_title s).
Definition plt_xlabel (s : string) : M unit := gca_update (set_xlabel s).
Definition plt_ylabel (s : string) : M unit := gca_update (set_ylabel s).
Definition plt_legend (loc : string) : M unit := gca_update (set_legend loc).
Definition plt_grid (b : bool) : M unit := gca_update (set_grid b).
Definition plt_tight_layout : M unit := ret tt.

(** [plt.savefig(output, dpi=...)] writes the current figure. *)
Definition plt_savefig (output : string) (dpi : Z) : M unit :=
  fun w =>
    let '(fig, figs) := match figures w with
                        | [] => (default_figure, [default_figure])
                        | fig :: _ => (fig, figures w)
                        end in
    (Ok tt, mkWorld (heap w) (stdout w) figs (<[output := ImageFile fig dpi]> (files w)) (clock w)).

(** ** The plotter *)

(** The body of the loop of [plot_all_populations] over [data.columns]. *)
Definition plot_column (data : ref) (column : string) : M unit :=
  if negb (String.eqb column "TimeStep") then
    x <- getitem data "TimeStep" ;;
    y <- getitem data column ;;
    plt_plot x y column 2
  else ret tt.

(** [plot_all_populations(data, output='population_dynamics.png')]; the
    caller passes [output]. *)
Definition plot_all_populations (data : ref) (output : string) : M unit :=
  plt_close_all ;;;
  plt_figure (14 # 1, 8 # 1)%Q ;;;
  cols <- columns data ;;
  for_ cols (plot_column data) ;;;
  plt_title "Ecosystem Population Dynamics (All Species)" ;;;
  plt_xlabel "Time Step" ;;;
  plt_ylabel "Population Count" ;;;
  plt_legend "upper left" ;;;
  plt_grid true ;;;
  plt_tight_layout ;;;
  plt_savefig output 150 ;;;
  plt_close ;;;
  print [Lit "Saved: "; Fmt (VStr output) ""].

Definition producers : list string := ["Wildflowers"; "Berries"; "Aspen"; "Spruce"].
Definition herbivores : list string :=
  ["Deer"; "Bunny"; "FieldMouse"; "GroundSquirrel"; "Chipmunk"].
Definition predators : list string := ["Fox"; "Coyote"; "BlackBear"].

(** [name in data.columns] *)
Definition in_columns (data : ref) (name : string) : M bool :=
  cols <- columns data ;; ret (existsb (String.eqb name) cols).

(** The three loops of [plot_trophic_levels] have one shape: over the fixed
    list [group], each name found among the columns is drawn on [axes[i]].
    [plot_member] is the body of such a loop. *)
Definition plot_member (data : ref) (axs : list nat) (i : nat) (name : string) : M unit :=
  present <- in_columns data name ;;
  if present then
    ax <- lift (index axs i) ;;
    x <- getitem data "TimeStep" ;;
    y <- getitem data name ;;
    ax_update ax (add_line x y name 2)
  else ret tt.

Definition plot_group (data : ref) (axs : list nat) (i : nat) (group : list string) : M unit :=
  for_ group (plot_member data axs i).

(** [plot_trophic_levels(data, output='trophic_levels.png')] *)
Definition plot_trophic_levels (data : ref) (output : string) : M unit :=
  plt_close_all ;;;
  axs <- plt_subplots 3 (12 # 1, 10 # 1)%Q ;;
  plot_group data axs 0 producers ;;;
  (ax <- lift (index axs 0) ;; ax_update ax (set_title "Producers (Plants)")) ;;;
  (ax <- lift (index axs 0) ;; ax_update ax (set_ylabel "Population")) ;;;
  (ax <- lift (index axs 0) ;; ax_update ax (set_legend "upper left")) ;;;
  (ax <- lift (index axs 0) ;; ax_update ax (set_grid true)) ;;;
  plot_group data axs 1 herbivores ;;;
  (ax <- lift (index axs 1) ;; ax_update ax (set_title "Primary Consumers (Herbivores)")) ;;;
  (ax <- lift (index axs 1) ;; ax_update ax (set_ylabel "Population")) ;;;
  (ax <- lift (index axs 1) ;; ax_update ax (set_legend "upper left")) ;;;
  (ax <- lift (index axs 1) ;; ax_update ax (set_grid true)) ;;;
  plot_group data axs 2 predators ;;;
  (ax <- lift (index axs 2) ;; ax_update ax (set_title "Predators (Carnivores & Omnivores)")) ;;;
  (ax <- lift (index axs 2) ;; ax_update ax (set_xlabel "Time Step")) ;;;
  (ax <- lift (index axs 2) ;; ax_update ax (set_ylabel "Population")) ;;;
  (ax <- lift (index axs 2) ;; ax_update ax (set_legend "upper left")) ;;;
  (ax <- lift (index axs 2) ;; ax_update ax (set_grid true)) ;;;
  plt_tight_layout ;;;
  plt_savefig output 150 ;;;
  plt_close ;;;
  print [Lit "Saved: "; Fmt (VStr output) ""].

(** ** The loader and the main program *)

(** [os.path.exists(filename)] *)
Definition os_path_exists (filename : string) : M bool :=
  fun w => (Ok (bool_decide (is_Some (files w !! filename))), w).

(** [sys.exit(code)] *)
Definition sys_exit {A} (code : Z) : M A := raise (SystemExit code).

(** [time.time()] *)
Definition time_time : M Q := fun w => (Ok (clock w), w).

(** [int(x)] of a float: truncation towards zero. *)
Definition int_of_float (x : Q) : Z := Z.quot (Qnum x) (Z.pos (Qden x)).

(** The exit status of the process for the outcome of the script. *)
Definition exit_code {A} (o : outcome A) : Z :=
  match o with
  | Ok _ => 0
  | Raise (SystemExit code) => code
  | Raise _ => 1
  end.

Section Script.

(** The CSV parser of pandas, from the text of a file to a table; [None]
    when the text is rejected. *)
Variable parse_csv : string -> option DataFrame.

(** [pd.read_csv(filename)] reads and parses the file and allocates the
    frame. *)
Definition pd_read_csv (filename : string) : M ref :=
  fun w =>
    match files w !! filename with
    | None => (Raise (FileNotFoundError filename), w)
    | Some (ImageFile _ _) => (Raise ParserError, w)
    | Some (TextFile text) =>
        match parse_csv text with
        | None => (Raise ParserError, w)
        | Some t =>
            (Ok (length (heap w)),
             mkWorld (heap w ++ [t]) (stdout w) (figures w) (files w) (clock w))
        end
    end.

(** [load_data(filename='ecosystem_data.csv')] *)
Definition load_data (filename : string) : M ref :=
  found <- os_path_exists filename ;;
  (if negb found then
     print [Lit "Error: "; Fmt (VStr filename) ""; Lit " not found"] ;;;
     sys_exit 1
   else ret tt) ;;;
  data <- pd_read_csv filename ;;
  n <- len data ;;
  cols <- columns data ;;
  print [Lit "Loaded "; Fmt (VNum (SInt n)) ""; Lit " timesteps with ";
         Fmt (VNum (SInt (Z.of_nat (length cols) - 1))) ""; Lit " species"] ;;;
  ret data.

(** [f'population_dynamics_{timestamp}.png'] and
    [f'trophic_levels_{timestamp}.png'], rendered. *)
Definition population_dynamics_png (timestamp : Z) : string :=
  "population_dynamics_" +:+ str_of_int timestamp +:+ ".png".

Definition trophic_levels_png (timestamp : Z) : string :=
  "trophic_levels_" +:+ str_of_int timestamp +:+ ".png".

(** [main()]; the clock is read once, after the report. *)
Definition main : M unit :=
  print [Lit "Ecosystem Data Visualization Tool"] ;;;
  print [Lit (str_mul "=" 50)] ;;;
  data <- load_data "ecosystem_data.csv" ;;
  print_statistics data ;;;
  now <- time_time ;;
  let timestamp := int_of_float now in
  print [Lit "Generating visualizations..."] ;;;
  plot_all_populations data (population_dynamics_png timestamp) ;;;
  plot_trophic_levels data (trophic_levels_png timestamp) ;;;
  print [Lit (nl +:+ "Visualization complete!")] ;;;
  print [Lit "Check the generated PNG files for plots."].

End Script.

(** ** The vocabulary of the specification *)

(** A table as the loader delivers it: pandas keeps column names distinct
    and every column as long as the row index. *)
Definition loaded (t : DataFrame) : Prop :=
  NoDup (col_names t) /\ Forall (fun c => length (snd c) = df_len t) (df_cols t).

#[global] Instance loaded_dec t : Decision (loaded t).
Proof. unfold loaded. apply _. Defined.

Definition has_column (t : DataFrame) (c : string) : Prop := In c (col_names t).

#[global] Instance has_column_dec t c : Decision (has_column t c) :=
  in_dec String.string_dec c (col_names t).

(** The columns other than the time column, in table order. *)
Definition species_columns (t : DataFrame) : list (string * Series) :=
  filter (fun c => fst c <> "TimeStep") (df_cols t).

(** The columns of the table named in [names], in the order of [names]. *)
Definition members (t : DataFrame) (names : list string) : list (string * Series) :=
  omap (fun name => pair name <$> lookup_col name (df_cols t)) names.

(** The values of the columns [cols] at row [j]. *)
Definition values_at (j : nat) (cols : list (string * Series)) (vs : list Z) : Prop :=
  Forall2 (fun c v => snd c !! j = Some v) cols vs.

(** A table of 64-bit counts, the integer columns of pandas. *)
Definition int64_table (t : DataFrame) : Prop :=
  Forall (fun c : string * Series => Forall (fun v => - 2 ^ 63 <= v < 2 ^ 63) (snd c))
         (df_cols t).

#[global] Instance int64_table_dec t : Decision (int64_table t).
Proof. unfold int64_table. apply _. Defined.

(** The float of a positive integer below 2^53: the integer shifted to 53
    digits. *)
Definition canonical (s : bool) (c : positive) : float64 :=
  S754_finite s (Z.to_pos (Z.pos c * 2 ^ (53 - Z.pos (Pos.size c))))
              (Z.pos (Pos.size c) - 53).

(** The sum, the mean, the maximum and the minimum of a column, stated
    without reference to the way the code computes them. *)
Definition total (s : Series) : Z := fold_right Z.add 0 s.

(** The sum of the absolute values of a column. *)
Definition magnitude (s : Series) : Z := total (map Z.abs s).

(** The sums of a column in double precision: its values are converted to
    floats and added two by two, in any order and grouping, from a zero of
    either sign.  numpy's pairwise sum and bottleneck's running sum are both
    such sums. *)
Inductive float_sum_of : Series -> float64 -> Prop :=
| sum_nil z : float_sum_of [] (S754_zero z)
| sum_one x : float_sum_of [x] (float_of_int x)
| sum_add s s1 s2 a b :
    Permutation s (s1 ++ s2) -> float_sum_of s1 a -> float_sum_of s2 b ->
    float_sum_of s (float_add a b).

(** A mean of a column in double precision: one of its sums divided by its
    length. *)
Definition is_mean (m : float64) (s : Series) : Prop :=
  exists a, float_sum_of s a /\ m = float_div a (float_of_int (Z.of_nat (length s))).

(** The IEEE quotient of the exact sum of a column by its length, both
    converted to floats.  When the sum is below 2^53 in absolute value the
    conversions are exact, and the quotient is the float that IEEE 754
    division gives for the arithmetic mean. *)
Definition double_mean (s : Series) : float64 :=
  float_div (float_of_int (total s)) (float_of_int (Z.of_nat (length s))).

(** The arithmetic mean of a column of natural numbers to one decimal
    place, in exact arithmetic: the words of the specification. *)
Definition decimal_mean (s : Series) : string :=
  fixed 1 (round_half_even (10 * total s) (Z.of_nat (length s))).

Definition is_maximum (m : Z) (s : Series) : Prop :=
  In m s /\ Forall (fun v => v <= m) s.

Definition is_minimum (m : Z) (s : Series) : Prop :=
  In m s /\ Forall (fun v => m <= v) s.

(** *** The console *)

(** Console output is appended. *)
Definition out (ls : list fstring) (w : world) : world :=
  mkWorld (heap w) (stdout w ++ ls) (figures w) (files w) (clock w).

(** What a computation printed: the lines added to the console. *)
Definition printed {A} (m : M A) (w : world) : list fstring :=
  drop (length (stdout w)) (stdout (exec m w)).

(** The shape of a per-species line of the report. *)
Definition is_species_line (l : fstring) : bool :=
  match l with
  | [Fmt (VStr _) f0; Lit _; Fmt (VNum _) f1; Lit _; Fmt (VNum _) f2; Lit _;
     Fmt (VNum _) f3; Lit _; Fmt (VNum _) f4; Lit _; Fmt (VNum _) f5] =>
      String.eqb f0 "<20" && String.eqb f1 "<10" && String.eqb f2 "<10" &&
      String.eqb f3 "<10.1f" && String.eqb f4 "<10" && String.eqb f5 "<10"
  | _ => false
  end.

Definition species_lines (ls : list fstring) : list fstring :=
  List.filter is_species_line ls.

(** The name a line of the report starts with. *)
Definition line_name (l : fstring) : option string :=
  match l with
  | Fmt (VStr c) _ :: _ => Some c
  | _ => None
  end.

(** The text of a per-species line: the name in a field of 20 characters,
    the five figures in fields of 10, each padded on the right and followed
    by a space but the last, the mean with one decimal. *)
Definition species_text (name : string) (initial final : Z) (mean : float64)
    (maximum minimum : Z) : string :=
  ljust 20 " " name +:+ " " +:+
  ljust 10 " " (pretty initial) +:+ " " +:+
  ljust 10 " " (pretty final) +:+ " " +:+
  ljust 10 " " (format_f 1 mean) +:+ " " +:+
  ljust 10 " " (pretty maximum) +:+ " " +:+
  ljust 10 " " (pretty minimum).

(** Line [l] reports column [c]: its name, its first and last values, a
    mean of it in double precision with one decimal, its maximum and its
    minimum, as pieces and as text. *)
Definition reports (c : string * Series) (l : fstring) : Prop :=
  exists initial final mean maximum minimum,
    l = [Fmt (VStr (fst c)) "<20"; Lit " ";
         Fmt (VNum (SInt initial)) "<10"; Lit " ";
         Fmt (VNum (SInt final)) "<10"; Lit " ";
         Fmt (VNum (SFloat mean)) "<10.1f"; Lit " ";
         Fmt (VNum (SInt maximum)) "<10"; Lit " ";
         Fmt (VNum (SInt minimum)) "<10"] /\
    text l = Some (species_text (fst c) initial final mean maximum minimum) /\
    snd c !! 0%nat = Some initial /\
    last (snd c) = Some final /\
    is_mean mean (snd c) /\
    is_maximum maximum (snd c) /\
    is_minimum minimum (snd c).

(** The line of the report that shows the figure [x] after [label], with no
    decimals. *)
Definition total_line (label : string) (x : Z) : fstring :=
  [Lit label; Fmt (VNum (SInt x)) ".0f"].

Definition starts_with (label : string) (l : fstring) : bool :=
  match l with
  | Lit s :: _ => String.eqb s label
  | _ => false
  end.

(** The lines of the report around the per-species lines. *)
Definition report_banner : list fstring :=
  [[Lit (nl +:+ str_mul "=" 80)]; [Lit "ECOSYSTEM STATISTICS SUMMARY"];
   [Lit (str_mul "=" 80)]; report_header; [Lit (str_mul "-" 80)]].

Definition report_rule : fstring := [Lit (nl +:+ str_mul "=" 80)].

Definition report_count (n : nat) : fstring :=
  [Lit "Total timesteps: "; Fmt (VNum (SInt (Z.of_nat n))) ""].

Definition report_end : fstring := [Lit (str_mul "=" 80 +:+ nl)].

(** *** The charts *)

(** The series drawn for a column: the time values on the x-axis, the
    column on the y-axis, the column name as label. *)
Definition series_of (ts : Series) (c : string * Series) : line2d :=
  mkLine ts (snd c) (fst c) 2.

(** The labels of the series of an axes, in drawing order. *)
Definition labels (a : axes) : list string := map ln_label (ax_lines a).

Definition add_lines (ls : list line2d) (a : axes) : axes :=
  mkAxes (ax_lines a ++ ls)
         (ax_title a) (ax_xlabel a) (ax_ylabel a) (ax_legend a) (ax_grid a).

(** The current axes of a figure with at most one axes. *)
Definition cur (fig : figure) : axes := hd empty_axes (fig_axes fig).

(** *** Frames and triples *)

(** A computation that leaves a component of the world as it was. *)
Definition preserves {X A} (proj : world -> X) (m : M A) : Prop :=
  forall w, proj (exec m w) = proj w.

(** What the main program depends on and may change outside the process:
    the clock and the file at [path]. *)
Definition watch (path : string) (w : world) : Q * option file :=
  (clock w, files w !! path).

(** A Hoare triple: from a world in [P], the outcome and the final world of
    [m] are in [Q]. *)
Definition triple {A} (P : world -> Prop) (m : M A) (Q : outcome A -> world -> Prop) : Prop :=
  forall w, P w -> Q (result m w) (exec m w).

(** ** Sample tables and runs *)

(** The table of the specification's example: a time column and four other
    columns over five rows. *)
Definition spec_table : DataFrame :=
  mkDataFrame 5
    [("TimeStep", [0; 1; 2; 3; 4]);
     ("Deer", [10; 12; 9; 11; 13]);
     ("Wildflowers", [50; 48; 51; 47; 52]);
     ("Fox", [2; 3; 3; 2; 4]);
     ("UnknownCritter", [1; 0; 0; 2; 1])].

(** Two producers, listed in the table in the order opposite to that of the
    fixed list. *)
Definition order_table : DataFrame :=
  mkDataFrame 2
    [("TimeStep", [0; 1]); ("Spruce", [7; 8]); ("Wildflowers", [5; 6])].

(** A table whose time column is spelled in lower case. *)
Definition lowercase_table : DataFrame :=
  mkDataFrame 2 [("timestep", [0; 1]); ("Deer", [10; 12])].

(** A header without rows. *)
Definition empty_table : DataFrame :=
  mkDataFrame 0 [("TimeStep", []); ("Deer", [])].

(** One row with a count of 2^53 + 1, which no float equals. *)
Definition large_count_table : DataFrame :=
  mkDataFrame 1 [("TimeStep", [0]); ("Aspen", [9007199254740993])].

(** One row with two counts of 2^62, whose sum is no int64. *)
Definition overflow_table : DataFrame :=
  mkDataFrame 1
    [("TimeStep", [0]); ("Aspen", [4611686018427387904]); ("Spruce", [4611686018427387904])].

(** A table with a column whose name starts with an underscore. *)
Definition hidden_table : DataFrame :=
  mkDataFrame 2 [("TimeStep", [0; 1]); ("_hidden", [1; 2]); ("Deer", [3; 4])].

(** Twenty rows of a column that sums to 3. *)
Definition sparse_table : DataFrame :=
  mkDataFrame 20
    [("TimeStep", [0; 1; 2; 3; 4; 5; 6; 7; 8; 9; 10; 11; 12; 13; 14; 15; 16; 17; 18; 19]);
     ("Fox", [1; 0; 0; 0; 0; 0; 1; 0; 0; 0; 0; 0; 0; 1; 0; 0; 0; 0; 0; 0])].

(** A fresh process holding one table, at reference 0. *)
Definition world_of (t : DataFrame) : world := mkWorld [t] [] [] ∅ 0.

(** A parser for the sample runs: the text [first] is the table of the
    specification's example, any other text the table [order_table]. *)
Definition sample_parser (text : string) : option DataFrame :=
  if String.eqb text "first" then Some spec_table else Some order_table.

(** A fresh process started at time [now] next to a data file with [text]
    and the files [old]. *)
Definition start (old : gmap string file) (text : string) (now : Q) : world :=
  mkWorld [] [] [] (<["ecosystem_data.csv" := TextFile text]> old) now.

(** Two runs of the program within one second: the first at 1700000000.25
    on the data [first], the second, half a second later, on the data
    [second], next to the files the first run left. *)
Definition first_run_start : world := start ∅ "first" (6800000001 # 4).
Definition first_run_end : world := exec (main sample_parser) first_run_start.
Definition second_run_start : world :=
  start (files first_run_end) "second" (6800000003 # 4).
Definition second_run_end : world := exec (main sample_parser) second_run_start.

(** ** The outputs as values *)

(** The line the loader prints for a table: its number of rows and its
    number of columns less one. *)
Definition loaded_line (t : DataFrame) : fstring :=
  [Lit "Loaded "; Fmt (VNum (SInt (Z.of_nat (df_len t)))) ""; Lit " timesteps with ";
   Fmt (VNum (SInt (Z.of_nat (length (col_names t)) - 1))) ""; Lit " species"].

(** The line a plotting operation prints after it saved its chart. *)
Definition saved_line (output : string) : fstring :=
  [Lit "Saved: "; Fmt (VStr output) ""].

(** The all-populations chart with the series [lines]: one axes with its
    title, axis labels, legend and grid. *)
Definition all_populations_figure (lines : list line2d) : figure :=
  mkFigure (14 # 1, 8 # 1)%Q
    [mkAxes lines (Some "Ecosystem Population Dynamics (All Species)")
       (Some "Time Step") (Some "Population Count") (Some "upper left") true].

(** A panel of the trophic-levels chart. *)
Definition panel (title : string) (xlabel : option string) (lines : list line2d) : axes :=
  mkAxes lines (Some title) xlabel (Some "Population") (Some "upper left") true.

(** The trophic-levels chart with the series of its three panels; only the
    bottom panel has an x-axis label. *)
Definition trophic_figure (l0 l1 l2 : list line2d) : figure :=
  mkFigure (12 # 1, 10 # 1)%Q
    [panel "Producers (Plants)" None l0;
     panel "Primary Consumers (Herbivores)" None l1;
     panel "Predators (Carnivores & Omnivores)" (Some "Time Step") l2].

(** The series of the all-populations chart of a table, and of a panel of
    its trophic-levels chart. *)
Definition population_series (t : DataFrame) (ts : Series) : list line2d :=
  map (series_of ts)
      (members t (List.filter (fun c => negb (String.eqb c "TimeStep")) (col_names t))).

Definition group_series (t : DataFrame) (ts : Series) (group : list string) : list line2d :=
  map (series_of ts) (members t group).




(** A table with a single row. *)
Definition single_row_table : DataFrame :=
  mkDataFrame 1 [("TimeStep", [0]); ("Deer", [10]); ("Fox", [2])].

(** A table with no column of the three fixed lists, and whose time column
    is spelled [timestep]. *)
Definition unlisted_table : DataFrame :=
  mkDataFrame 2 [("timestep", [0; 1]); ("UnknownCritter", [3; 4])].

(** A parser that rejects every text. *)
Definition reject_parser (text : string) : option DataFrame := None.

(** A parser that delivers [t] for every text. *)
Definition constant_parser (t : DataFrame) (text : string) : option DataFrame := Some t.

(** * Proofs *)

Local Arguments String.eqb : simpl never.

(** ** Floats of small integers *)

Lemma digits2_size p : digits2_pos p = Pos.size p.
Proof. induction p as [p IH|p IH|]; simpl; congruence. Qed.

Lemma digits2_log2 p : Z.pos (digits2_pos p) = Z.log2 (Z.pos p) + 1.
Proof.
  rewrite digits2_size. destruct p as [p|p|]; simpl; try reflexivity; lia.
Qed.

Lemma iter_xO_pow2 m d : Z.pos (Pos.iter xO m d) = Z.pos m * 2 ^ Z.pos d.
Proof.
  revert m. induction d as [|d IH] using Pos.peano_ind; intros m.
  - simpl. lia.
  - rewrite Pos.iter_succ, Pos2Z.inj_succ, Z.pow_succ_r by lia.
    rewrite Pos2Z.inj_xO, IH. lia.
Qed.

Lemma iter_pos_iter {A} (f : A -> A) n x : @SpecFloat.iter_pos A f n x = Pos.iter f x n.
Proof.
  revert x. induction n as [n IH|n IH|]; intros x; simpl.
  - rewrite !IH. now rewrite <- !Pos.iter_swap.
  - now rewrite !IH.
  - reflexivity.
Qed.

Lemma shr_exact n p :
  @SpecFloat.iter_pos shr_record shr_1 n (Build_shr_record (Z.pos (Pos.iter xO p n)) false false) =
  Build_shr_record (Z.pos p) false false.
Proof.
  rewrite iter_pos_iter. revert p.
  induction n as [|n IH] using Pos.peano_ind; intros p; [reflexivity|].
  rewrite !Pos.iter_succ, <- (Pos.iter_swap n positive xO), IH.
  reflexivity.
Qed.

(** A mantissa of 53 digits with an exponent in range is left as it is. *)
Lemma round_canonical s p e :
  Z.pos (digits2_pos p) = 53 -> -1074 <= e <= 971 ->
  binary_round_aux 53 1024 s (Z.pos p) e loc_Exact = S754_finite s p e.
Proof.
  intros Hd He. unfold binary_round_aux, shr_fexp. cbn [Zdigits2 shr_record_of_loc].
  rewrite Hd. unfold fexp, emin.
  replace (Z.max (53 + e - 53) (3 - 1024 - 53) - e) with 0 by lia.
  cbn [shr shr_m loc_of_shr_record round_nearest_even Zdigits2 shr_record_of_loc].
  rewrite Hd.
  replace (Z.max (53 + e - 53) (3 - 1024 - 53) - e) with 0 by lia.
  cbn [shr shr_m]. destruct (Z.leb_spec e (1024 - 53)); [reflexivity | lia].
Qed.

Lemma size_bounds c : Z.pos c < 2 ^ 53 -> 1 <= Z.pos (Pos.size c) <= 53.
Proof.
  intros Hc. split; [lia|].
  destruct (Z.le_gt_cases (Z.pos (Pos.size c)) 53) as [|Hgt]; [assumption|].
  exfalso. pose proof (digits2_log2 c) as Hd. rewrite digits2_size in Hd.
  assert (53 <= Z.log2 (Z.pos c)) by lia.
  assert (Z.log2 (Z.pos c) < 53) by (apply Z.log2_lt_pow2; lia).
  lia.
Qed.

Lemma digits_shift c k :
  0 <= k -> Z.log2 (Z.pos c * 2 ^ k) + 1 = Z.pos (Pos.size c) + k.
Proof.
  intros Hk. rewrite Z.log2_mul_pow2 by lia.
  pose proof (digits2_log2 c) as Hd. rewrite digits2_size in Hd. lia.
Qed.

Lemma round_exact s M e c :
  e <= 0 -> Z.pos M = Z.pos c * 2 ^ (- e) -> Z.pos c < 2 ^ 53 ->
  binary_round 53 1024 s M e = canonical s c.
Proof.
  intros He HM Hc. pose proof (size_bounds c Hc) as Hsz.
  set (dc := Z.pos (Pos.size c)) in *.
  assert (HdM : Z.pos (digits2_pos M) = dc - e).
  { rewrite digits2_log2, HM, digits_shift by lia. fold dc. lia. }
  assert (Hp : 0 < Z.pos c * 2 ^ (53 - dc)) by (apply Z.mul_pos_pos; [lia | apply Z.pow_pos_nonneg; lia]).
  set (p := Z.to_pos (Z.pos c * 2 ^ (53 - dc))).
  assert (Hpz : Z.pos p = Z.pos c * 2 ^ (53 - dc)) by (unfold p; rewrite Z2Pos.id; lia).
  assert (Hdp : Z.pos (digits2_pos p) = 53).
  { rewrite digits2_log2, Hpz, digits_shift by lia. fold dc. lia. }
  unfold canonical. fold dc. fold p.
  unfold binary_round. rewrite HdM.
  replace (fexp 53 1024 (dc - e + e)) with (dc - 53) by (unfold fexp, emin; lia).
  unfold shl_align. destruct (dc - 53 - e) as [|n|d] eqn:Hn.
  - assert (M = p) as ->.
    { apply Pos2Z.inj. rewrite HM, Hpz. f_equal. f_equal. lia. }
    replace e with (dc - 53) by lia. apply round_canonical; [exact Hdp | lia].
  - assert (HMp : M = Pos.iter xO p n).
    { apply Pos2Z.inj. rewrite iter_xO_pow2, HM, Hpz, <- Hn, <- Z.mul_assoc, <- Z.pow_add_r by lia.
      f_equal. f_equal. lia. }
    unfold binary_round_aux, shr_fexp. cbn [Zdigits2 shr_record_of_loc].
    rewrite HdM.
    replace (fexp 53 1024 (dc - e + e) - e) with (Z.pos n) by (unfold fexp, emin; lia).
    cbn [shr]. rewrite HMp, shr_exact.
    cbn [shr_m loc_of_shr_record round_nearest_even Zdigits2 shr_record_of_loc].
    rewrite Hdp.
    replace (fexp 53 1024 (53 + (e + Z.pos n)) - (e + Z.pos n)) with 0
      by (unfold fexp, emin; lia).
    cbn [shr shr_m]. replace (e + Z.pos n) with (dc - 53) by lia.
    destruct (Z.leb_spec (dc - 53) (1024 - 53)); [reflexivity | lia].
  - assert (Pos.iter xO M d = p) as ->.
    { apply Pos2Z.inj. rewrite iter_xO_pow2, HM, Hpz, <- Z.mul_assoc, <- Z.pow_add_r by lia.
      f_equal. f_equal. lia. }
    apply round_canonical; [exact Hdp | lia].
Qed.

(** Rounding the integer [z] written as [M * 2 ^ e] gives the float of
    [z], whatever the exponent [e <= 0]. *)
Lemma normalize_exact z M e :
  e <= 0 -> M = z * 2 ^ (- e) -> Z.abs z < 2 ^ 53 ->
  binary_normalize 53 1024 M e false = float_of_int z.
Proof.
  intros He HM Hz. assert (Hpow : 0 < 2 ^ (- e)) by (apply Z.pow_pos_nonneg; lia).
  unfold float_of_int. destruct z as [|c|c].
  - subst M. reflexivity.
  - destruct M as [|M|M]; try lia.
    cbn [binary_normalize]. rewrite (round_exact false M e c), (round_exact false c 0 c); auto; lia.
  - destruct M as [|M|M]; try lia.
    cbn [binary_normalize]. rewrite (round_exact true M e c), (round_exact true c 0 c); auto; lia.
Qed.

(** The shape of the float of a small integer other than 0. *)
Lemma float_of_int_finite z :
  z <> 0 -> Z.abs z < 2 ^ 53 ->
  exists m e, float_of_int z = S754_finite (z <? 0) m e /\
              -52 <= e <= 0 /\ Z.pos m = Z.abs z * 2 ^ (- e).
Proof.
  intros Hz Hb. unfold float_of_int.
  destruct z as [|c|c]; [congruence| |]; cbn [binary_normalize];
    rewrite (round_exact _ c 0 c) by (simpl; lia);
    pose proof (size_bounds c ltac:(lia)) as Hsz;
    eexists _, _; (split; [reflexivity|]); (split; [lia|]);
    (rewrite Z2Pos.id by (apply Z.mul_pos_pos; [lia | apply Z.pow_pos_nonneg; lia]));
    simpl; f_equal; f_equal; lia.
Qed.

Lemma shl_align_fst m e e' :
  e' <= e -> Z.pos (fst (shl_align m e e')) = Z.pos m * 2 ^ (e - e').
Proof.
  intros He. unfold shl_align. destruct (e' - e) as [|n|d] eqn:Hd; try lia; cbn [fst].
  - replace (e - e') with 0 by lia. lia.
  - rewrite iter_xO_pow2. f_equal. f_equal. lia.
Qed.

Lemma cond_Zopp_ltb z : cond_Zopp (z <? 0) (Z.abs z) = z.
Proof. unfold cond_Zopp. destruct (Z.ltb_spec z 0); lia. Qed.

(** Adding the floats of two small integers whose sum is small is exact. *)
Lemma float_add_exact a b :
  Z.abs a < 2 ^ 53 -> Z.abs b < 2 ^ 53 -> Z.abs (a + b) < 2 ^ 53 ->
  float_add (float_of_int a) (float_of_int b) = float_of_int (a + b).
Proof.
  intros Ha Hb Hab.
  destruct (Z.eq_dec a 0) as [-> | Ha0].
  { rewrite Z.add_0_l. change (float_of_int 0) with (S754_zero false).
    destruct (Z.eq_dec b 0) as [-> | Hb0]; [reflexivity|].
    destruct (float_of_int_finite b Hb0 Hb) as (m & e & Hf & _).
    rewrite Hf. reflexivity. }
  destruct (float_of_int_finite a Ha0 Ha) as (ma & ea & Hfa & Hea & Hma).
  destruct (Z.eq_dec b 0) as [-> | Hb0].
  { rewrite Z.add_0_r, Hfa. reflexivity. }
  destruct (float_of_int_finite b Hb0 Hb) as (mb & eb & Hfb & Heb & Hmb).
  rewrite Hfa, Hfb. unfold float_add. cbn [SFadd].
  apply normalize_exact; [lia | | exact Hab].
  rewrite !shl_align_fst, Hma, Hmb by lia.
  rewrite <- !Z.mul_assoc, <- !Z.pow_add_r by lia.
  replace (- ea + (ea - Z.min ea eb)) with (- Z.min ea eb) by lia.
  replace (- eb + (eb - Z.min ea eb)) with (- Z.min ea eb) by lia.
  rewrite <- (cond_Zopp_ltb a) at 3. rewrite <- (cond_Zopp_ltb b) at 3.
  unfold cond_Zopp. destruct (a <? 0), (b <? 0); lia.
Qed.

Lemma float_add_zero_l s z :
  Z.abs z < 2 ^ 53 -> float_add (S754_zero s) (float_of_int z) = float_of_int z.
Proof.
  intros Hz. destruct (Z.eq_dec z 0) as [-> | Hz0].
  - destruct s; reflexivity.
  - destruct (float_of_int_finite z Hz0 Hz) as (m & e & Hf & _). rewrite Hf. reflexivity.
Qed.

Lemma float_add_zero_r s z :
  Z.abs z < 2 ^ 53 -> float_add (float_of_int z) (S754_zero s) = float_of_int z.
Proof.
  intros Hz. destruct (Z.eq_dec z 0) as [-> | Hz0].
  - destruct s; reflexivity.
  - destruct (float_of_int_finite z Hz0 Hz) as (m & e & Hf & _). rewrite Hf. reflexivity.
Qed.

(** ** Sums *)

Lemma total_app s1 s2 : total (s1 ++ s2) = total s1 + total s2.
Proof. unfold total. induction s1 as [|x s1 IH]; simpl; lia. Qed.

Lemma total_perm s s' : Permutation s s' -> total s = total s'.
Proof. unfold total. induction 1; simpl; lia. Qed.

Lemma magnitude_app s1 s2 : magnitude (s1 ++ s2) = magnitude s1 + magnitude s2.
Proof. unfold magnitude. now rewrite map_app, total_app. Qed.

Lemma magnitude_perm s s' : Permutation s s' -> magnitude s = magnitude s'.
Proof. intros H. unfold magnitude. apply total_perm. now apply Permutation_map. Qed.

Lemma total_magnitude s : Z.abs (total s) <= magnitude s.
Proof. unfold magnitude, total. induction s as [|x s IH]; simpl; lia. Qed.

Lemma magnitude_nonneg s : 0 <= magnitude s.
Proof. pose proof (total_magnitude s). lia. Qed.

(** When the absolute values sum to less than 2^53 no addition rounds:
    every float sum is the float of the exact sum. *)
Lemma float_sum_exact_gen s a :
  float_sum_of s a -> magnitude s < 2 ^ 53 ->
  a = float_of_int (total s) \/ (s = [] /\ a = S754_zero true).
Proof.
  induction 1 as [s0|x|s s1 s2 a b Hp H1 IH1 H2 IH2]; intros Hm.
  - destruct s0; [right | left]; auto.
  - left. unfold total. simpl. now rewrite Z.add_0_r.
  - pose proof (magnitude_perm _ _ Hp) as Hmp. rewrite magnitude_app in Hmp.
    pose proof (total_perm _ _ Hp) as Htp. rewrite total_app in Htp.
    pose proof (magnitude_nonneg s1). pose proof (magnitude_nonneg s2).
    pose proof (total_magnitude s1). pose proof (total_magnitude s2).
    pose proof (total_magnitude s) as Hts.
    destruct (IH1 ltac:(lia)) as [-> | [-> ->]]; destruct (IH2 ltac:(lia)) as [-> | [-> ->]].
    + left. rewrite Htp. apply float_add_exact; lia.
    + left. rewrite Htp. change (total []) with 0. rewrite Z.add_0_r.
      apply float_add_zero_r. lia.
    + left. rewrite Htp. change (total []) with 0. rewrite Z.add_0_l.
      apply float_add_zero_l. lia.
    + right. split; [|reflexivity]. now apply Permutation_nil_r in Hp.
Qed.

Lemma float_sum_exact s a :
  s <> [] -> float_sum_of s a -> magnitude s < 2 ^ 53 -> a = float_of_int (total s).
Proof.
  intros Hs H Hm. destruct (float_sum_exact_gen s a H Hm) as [-> | [-> _]]; congruence.
Qed.

Lemma float_sum_sequential s : float_sum_of s (float_sum s).
Proof.
  unfold float_sum.
  enough (forall s0 a, float_sum_of s0 a ->
            float_sum_of (s0 ++ s) (fold_left (fun a x => float_add a (float_of_int x)) s a))
    as Hgen by exact (Hgen [] _ (sum_nil false)).
  induction s as [|x s IH]; intros s0 a H0; simpl.
  - now rewrite app_nil_r.
  - replace (s0 ++ x :: s) with ((s0 ++ [x]) ++ s) by now rewrite <- app_assoc.
    apply IH. eapply sum_add; [reflexivity | exact H0 | apply sum_one].
Qed.

(** ** Sums in int64 *)

Lemma wrap64_small z : - 2 ^ 63 <= z < 2 ^ 63 -> wrap64 z = z.
Proof. intros Hz. unfold wrap64. rewrite Z.mod_small; lia. Qed.

Lemma wrap64_congr a b : a mod 2 ^ 64 = b mod 2 ^ 64 -> wrap64 a = wrap64 b.
Proof.
  intros H. unfold wrap64. f_equal.
  rewrite (Z.add_mod a), (Z.add_mod b), H by lia. reflexivity.
Qed.

Lemma wrap64_mod z : wrap64 z mod 2 ^ 64 = z mod 2 ^ 64.
Proof.
  unfold wrap64. rewrite Zminus_mod_idemp_l. f_equal. lia.
Qed.

Lemma series_sum_mod s : series_sum s mod 2 ^ 64 = total s mod 2 ^ 64.
Proof.
  unfold series_sum.
  enough (forall a, fold_left (fun a x => wrap64 (a + x)) s a mod 2 ^ 64
                    = (a + total s) mod 2 ^ 64) as H by exact (H 0).
  induction s as [|x s IH]; intros a.
  - unfold total. simpl. now rewrite Z.add_0_r.
  - cbn [fold_left]. rewrite IH. unfold total. cbn [fold_right]. fold (total s).
    rewrite Z.add_mod, wrap64_mod, <- Z.add_mod by lia. f_equal. lia.
Qed.

(** The difference the reporter prints, in exact arithmetic. *)
Lemma wrap64_difference s x :
  wrap64 (series_sum s - x) = wrap64 (total s - x).
Proof.
  apply wrap64_congr. rewrite Zminus_mod, series_sum_mod, <- Zminus_mod. reflexivity.
Qed.

(** ** Formatting of integers *)

Lemma append_nil_r (s : string) : s +:+ "" = s.
Proof. induction s as [|a s IH]; [reflexivity|]. change (String a (s +:+ "") = String a s). now rewrite IH. Qed.

Lemma pretty_sign z : sign (z <? 0) +:+ pretty (Z.abs z) = pretty z.
Proof. destruct z; reflexivity. Qed.

Lemma round_half_even_exact q den : 0 < den -> round_half_even (q * den) den = q.
Proof.
  intros Hd. unfold round_half_even. rewrite Z.mod_mul, Z.div_mul, Z.mul_0_r by lia.
  destruct (Z.compare_spec 0 den); [lia | reflexivity | lia].
Qed.

Lemma format_f_int digits z :
  Z.abs z < 2 ^ 53 ->
  format_f digits (float_of_int z) =
  sign (z <? 0) +:+ fixed digits (Z.abs z * 10 ^ Z.of_nat digits).
Proof.
  intros Hz. destruct (Z.eq_dec z 0) as [-> | Hz0]; [reflexivity|].
  destruct (float_of_int_finite z Hz0 Hz) as (m & e & Hf & He & Hm).
  rewrite Hf. cbn [format_f]. f_equal. f_equal.
  rewrite Hm, (Z.max_r e 0), (Z.max_l (- e) 0) by lia. rewrite Z.mul_1_r.
  replace (Z.abs z * 2 ^ (- e) * 10 ^ Z.of_nat digits)
    with (Z.abs z * 10 ^ Z.of_nat digits * 2 ^ (- e)) by ring.
  apply round_half_even_exact. apply Z.pow_pos_nonneg; lia.
Qed.

(** A small integer under [.0f] is shown as it is. *)
Lemma format_f0_int z : Z.abs z < 2 ^ 53 -> format_f 0 (float_of_int z) = pretty z.
Proof.
  intros Hz. rewrite format_f_int by exact Hz. unfold fixed.
  change (10 ^ Z.of_nat 0) with 1. rewrite Z.mul_1_r, Z.div_1_r.
  rewrite <- (pretty_sign z). f_equal. apply append_nil_r.
Qed.

Lemma float_of_int_digits z :
  z <> 0 -> Z.abs z < 2 ^ 53 ->
  exists m e, float_of_int z = S754_finite (z <? 0) m e /\
              -52 <= e <= 0 /\ Z.pos m = Z.abs z * 2 ^ (- e) /\
              Z.pos (digits2_pos m) = 53.
Proof.
  intros Hz Hb. destruct (float_of_int_finite z Hz Hb) as (m & e & Hf & He & Hm).
  exists m, e. repeat split; try assumption; try lia.
  assert (Hc : exists c, Z.abs z = Z.pos c /\ float_of_int z = canonical (z <? 0) c).
  { unfold float_of_int. destruct z as [|c|c]; [congruence| |]; exists c;
      (split; [reflexivity|]); cbn [binary_normalize]; apply round_exact; simpl; lia. }
  destruct Hc as (c & Hc & Hcan). rewrite Hcan in Hf. unfold canonical in Hf.
  injection Hf as Hm' He'. rewrite Hc in Hm, Hb.
  pose proof (size_bounds c Hb) as Hsz.
  rewrite digits2_log2, Hm, digits_shift by lia. lia.
Qed.

(** Dividing the float of a small integer by the float 1 leaves it. *)
Lemma float_div_one z :
  Z.abs z < 2 ^ 53 -> float_div (float_of_int z) (float_of_int 1) = float_of_int z.
Proof.
  intros Hb. destruct (Z.eq_dec z 0) as [-> | Hz]; [reflexivity|].
  destruct (float_of_int_digits z Hz Hb) as (m & e & Hf & He & Hm & Hd).
  rewrite Hf. change (float_of_int 1) with (S754_finite false 4503599627370496 (-52)).
  unfold float_div. cbn [SFdiv]. unfold SFdiv_core_binary. cbn [Zdigits2].
  rewrite Hd. change (Z.pos (digits2_pos 4503599627370496)) with 53.
  replace (Z.min (fexp 53 1024 (53 + e - (53 + -52))) (e - -52)) with (e - 1)
    by (unfold fexp, emin; lia).
  replace (e - -52 - (e - 1)) with 53 by lia.
  destruct (Z.div_eucl (Z.shiftl (Z.pos m) 53) 4503599627370496) as [q r] eqn:E.
  assert (Hs : Z.shiftl (Z.pos m) 53 = 2 * Z.pos m * 4503599627370496)
    by (rewrite Z.shiftl_mul_pow2 by lia; change (2 ^ 53) with (2 * 4503599627370496); ring).
  assert (Hq : q = 2 * Z.pos m).
  { pose proof (Z.div_mul (2 * Z.pos m) 4503599627370496 ltac:(lia)) as Hdiv.
    rewrite <- Hs in Hdiv. unfold Z.div in Hdiv. now rewrite E in Hdiv. }
  assert (Hr : r = 0).
  { pose proof (Z.mod_mul (2 * Z.pos m) 4503599627370496 ltac:(lia)) as Hmod.
    rewrite <- Hs in Hmod. unfold Z.modulo in Hmod. now rewrite E in Hmod. }
  subst q r. change (new_location 4503599627370496 0) with loc_Exact.
  change (2 * Z.pos m) with (Z.pos (Pos.iter xO m 1)).
  rewrite Bool.xorb_false_r.
  unfold binary_round_aux, shr_fexp. cbn [Zdigits2 shr_record_of_loc].
  assert (Hd2 : Z.pos (digits2_pos (Pos.iter xO m 1)) = 54)
    by (cbn [Pos.iter digits2_pos]; lia).
  rewrite Hd2.
  replace (fexp 53 1024 (54 + (e - 1)) - (e - 1)) with 1 by (unfold fexp, emin; lia).
  cbn [shr]. rewrite shr_exact.
  cbn [shr_m loc_of_shr_record round_nearest_even Zdigits2 shr_record_of_loc].
  rewrite Hd.
  replace (fexp 53 1024 (53 + (e - 1 + 1)) - (e - 1 + 1)) with 0 by (unfold fexp, emin; lia).
  cbn [shr shr_m]. replace (e - 1 + 1) with e by lia.
  destruct (Z.leb_spec e (1024 - 53)); [reflexivity | lia].
Qed.

Lemma append_assoc (s1 s2 s3 : string) : (s1 +:+ s2) +:+ s3 = s1 +:+ s2 +:+ s3.
Proof.
  induction s1 as [|a s1 IH]; [reflexivity|].
  change (String a ((s1 +:+ s2) +:+ s3) = String a (s1 +:+ s2 +:+ s3)). now rewrite IH.
Qed.

(** A small integer under [.1f] is shown with the decimal 0. *)
Lemma format_f1_int z : Z.abs z < 2 ^ 53 -> format_f 1 (float_of_int z) = pretty z +:+ ".0".
Proof.
  intros Hz. rewrite format_f_int by exact Hz. unfold fixed.
  change (10 ^ Z.of_nat 1) with 10. rewrite Z.div_mul, Z.mod_mul by lia.
  rewrite <- (pretty_sign z), append_assoc. reflexivity.
Qed.

(** ** Running the monad *)

Lemma run_bind_ok {A B} (m : M A) (k : A -> M B) w a w' :
  m w = (Ok a, w') -> bind m k w = k a w'.
Proof. intros H. unfold bind. now rewrite H. Qed.

Lemma run_bind_raise {A B} (m : M A) (k : A -> M B) w e w' :
  m w = (Raise e, w') -> bind m k w = (Raise e, w').
Proof. intros H. unfold bind. now rewrite H. Qed.

Lemma run_bind_lift_ok {A B} (a : A) (k : A -> M B) w :
  bind (lift (Ok a)) k w = k a w.
Proof. reflexivity. Qed.

Lemma run_bind_lift_raise {A B} e (k : A -> M B) w :
  bind (lift (Raise e)) k w = (Raise e, w).
Proof. reflexivity. Qed.

Lemma run_print l w : print l w = (Ok tt, out [l] w).
Proof. reflexivity. Qed.

Lemma out_out a b w : out b (out a w) = out (a ++ b) w.
Proof. unfold out. simpl. now rewrite app_assoc. Qed.

Lemma out_nil w : out [] w = w.
Proof. destruct w. unfold out. simpl. now rewrite app_nil_r. Qed.

Lemma run_get_frame data t w :
  heap w !! data = Some t -> get_frame data w = (Ok t, w).
Proof. intros H. unfold get_frame. now rewrite H. Qed.

Lemma run_columns data t w :
  heap w !! data = Some t -> columns data w = (Ok (col_names t), w).
Proof. intros H. unfold columns. now rewrite (run_bind_ok _ _ _ _ _ (run_get_frame _ _ _ H)). Qed.

Lemma run_len data t w :
  heap w !! data = Some t -> len data w = (Ok (Z.of_nat (df_len t)), w).
Proof. intros H. unfold len. now rewrite (run_bind_ok _ _ _ _ _ (run_get_frame _ _ _ H)). Qed.

Lemma run_getitem data t c s w :
  heap w !! data = Some t -> lookup_col c (df_cols t) = Some s ->
  getitem data c w = (Ok s, w).
Proof.
  intros H Hc. unfold getitem.
  rewrite (run_bind_ok _ _ _ _ _ (run_get_frame _ _ _ H)). now rewrite Hc.
Qed.

Lemma run_getitem_missing data t c w :
  heap w !! data = Some t -> lookup_col c (df_cols t) = None ->
  getitem data c w = (Raise (KeyError c), w).
Proof.
  intros H Hc. unfold getitem.
  rewrite (run_bind_ok _ _ _ _ _ (run_get_frame _ _ _ H)). now rewrite Hc.
Qed.

Lemma run_in_columns data t name w :
  heap w !! data = Some t ->
  in_columns data name w = (Ok (existsb (String.eqb name) (col_names t)), w).
Proof. intros H. unfold in_columns. now rewrite (run_bind_ok _ _ _ _ _ (run_columns _ _ _ H)). Qed.

(** ** Preservation *)

Lemma preserves_ret {X A} (proj : world -> X) (a : A) : preserves proj (ret a).
Proof. intros w. reflexivity. Qed.

Lemma preserves_raise {X A} (proj : world -> X) e : preserves proj (@raise A e).
Proof. intros w. reflexivity. Qed.

Lemma preserves_lift {X A} (proj : world -> X) (o : outcome A) : preserves proj (lift o).
Proof. intros w. reflexivity. Qed.

Lemma preserves_bind {X A B} (proj : world -> X) (m : M A) (k : A -> M B) :
  preserves proj m -> (forall a, preserves proj (k a)) -> preserves proj (bind m k).
Proof.
  intros Hm Hk w. unfold exec, bind. specialize (Hm w). unfold exec in Hm.
  destruct (m w) as [[a|e] w'] eqn:E; simpl in *.
  - rewrite <- Hm. apply Hk.
  - exact Hm.
Qed.

Lemma preserves_for {X A} (proj : world -> X) (l : list A) (body : A -> M unit) :
  (forall x, preserves proj (body x)) -> preserves proj (for_ l body).
Proof.
  intros Hb. induction l as [|x l IH]; simpl.
  - apply preserves_ret.
  - apply preserves_bind; auto.
Qed.

Ltac prim :=
  let w := fresh "w" in
  intros w; unfold exec; cbv beta delta
    [get_frame columns len getitem iloc_row in_columns print bind ret raise lift
     plt_close_all plt_close plt_figure plt_subplots ax_update gca_update
     plt_plot plt_title plt_xlabel plt_ylabel plt_legend plt_grid plt_tight_layout
     plt_savefig os_path_exists sys_exit time_time set_figures];
  repeat case_match; simplify_eq/=; try reflexivity.

Ltac preserve :=
  repeat first
    [ apply preserves_ret
    | apply preserves_raise
    | apply preserves_lift
    | apply preserves_bind; [ | intros ? ]
    | apply preserves_for; intros ?
    | match goal with |- preserves _ (if ?b then _ else _) => destruct b end
    | match goal with |- preserves _ (match ?x with _ => _ end) => destruct x end
    | solve [ prim ] ].

Lemma print_statistics_heap data : preserves heap (print_statistics data).
Proof. unfold print_statistics, report_column. preserve. Qed.

Lemma plot_all_populations_heap data output :
  preserves heap (plot_all_populations data output).
Proof. unfold plot_all_populations, plot_column. preserve. Qed.

Lemma plot_trophic_levels_heap data output :
  preserves heap (plot_trophic_levels data output).
Proof. unfold plot_trophic_levels, plot_group, plot_member. preserve. Qed.

(** ** Series *)

Lemma iloc_first (s : Series) v : s !! 0%nat = Some v -> iloc s 0 = Ok v.
Proof.
  intros H. unfold iloc. simpl.
  destruct s as [|x s]; [discriminate|].
  simpl in *. injection H as ->.
  replace (Z.pos (Pos.of_succ_nat (length s)) <=? 0) with false; [reflexivity|].
  symmetry. apply Z.leb_gt. lia.
Qed.

Lemma iloc_last (s : Series) v : last s = Some v -> iloc s (-1) = Ok v.
Proof.
  intros H. unfold iloc.
  assert (Hn : (0 < length s)%nat).
  { destruct s; [discriminate | simpl; lia]. }
  rewrite last_lookup in H.
  replace (-1 <? 0) with true by reflexivity.
  replace (-1 + Z.of_nat (length s) <? 0) with false by (symmetry; apply Z.ltb_ge; lia).
  replace (Z.of_nat (length s) <=? -1 + Z.of_nat (length s)) with false
    by (symmetry; apply Z.leb_gt; lia).
  replace (Z.to_nat (-1 + Z.of_nat (length s))) with (Nat.pred (length s)) by lia.
  cbv zeta. unfold orb. now rewrite H.
Qed.

Lemma iloc_empty i : iloc [] i = Raise IndexError.
Proof.
  unfold iloc. cbv zeta.
  destruct ((if i <? 0 then i + Z.of_nat (length (@nil Z)) else i) <? 0) eqn:E1;
    [reflexivity|].
  destruct (Z.of_nat (length (@nil Z)) <=? (if i <? 0 then i + Z.of_nat (length (@nil Z)) else i)) eqn:E2;
    [reflexivity|].
  exfalso. apply Z.ltb_ge in E1. apply Z.leb_gt in E2. simpl in *.
  destruct (i <? 0) eqn:E; [apply Z.ltb_lt in E | apply Z.ltb_ge in E]; lia.
Qed.

Lemma iloc_not_index_error (s : Series) i :
  s <> [] -> (i = 0 \/ i = -1) -> iloc s i <> Raise IndexError.
Proof.
  intros Hs [-> | ->].
  - destruct s as [|x s]; [congruence|]. now rewrite (iloc_first _ x).
  - destruct (last s) as [v|] eqn:E.
    + now rewrite (iloc_last _ v).
    + apply last_None in E. congruence.
Qed.

Lemma series_mean_spec (s : Series) :
  s <> [] -> exists m, series_mean s = SFloat m /\ is_mean m s.
Proof.
  intros Hs. destruct s as [|x s]; [congruence|].
  eexists. split; [reflexivity|].
  exists (float_sum (x :: s)). split; [apply float_sum_sequential | reflexivity].
Qed.

(** For a column whose absolute values sum to less than 2^53 no addition
    rounds: the mean in double precision is the IEEE quotient of the exact
    sum by the length, in whatever order the sum is taken. *)
Lemma is_mean_double (s : Series) m :
  s <> [] -> magnitude s < 2 ^ 53 -> is_mean m s -> m = double_mean s.
Proof.
  intros Hs Hm (a & Ha & ->). unfold double_mean.
  now rewrite (float_sum_exact s a Hs Ha Hm).
Qed.

Lemma fold_left_max_spec (xs : Series) x :
  is_maximum (fold_left Z.max xs x) (x :: xs).
Proof.
  revert x. induction xs as [|y xs IH]; intros x; simpl.
  - split; [now left | repeat constructor; lia].
  - destruct (IH (Z.max x y)) as [Hin Hall]. split.
    + destruct Hin as [Heq | Hin].
      * rewrite <- Heq. destruct (Z.max_spec x y) as [[_ ->] | [_ ->]]; simpl; auto.
      * simpl; auto.
    + inversion Hall as [|? ? Hm Hrest]; subst.
      constructor; [lia|]. constructor; [lia|]. exact Hrest.
Qed.

Lemma fold_left_min_spec (xs : Series) x :
  is_minimum (fold_left Z.min xs x) (x :: xs).
Proof.
  revert x. induction xs as [|y xs IH]; intros x; simpl.
  - split; [now left | repeat constructor; lia].
  - destruct (IH (Z.min x y)) as [Hin Hall]. split.
    + destruct Hin as [Heq | Hin].
      * rewrite <- Heq. destruct (Z.min_spec x y) as [[_ ->] | [_ ->]]; simpl; auto.
      * simpl; auto.
    + inversion Hall as [|? ? Hm Hrest]; subst.
      constructor; [lia|]. constructor; [lia|]. exact Hrest.
Qed.

Lemma series_max_spec (s : Series) :
  s <> [] -> exists m, series_max s = SInt m /\ is_maximum m s.
Proof.
  intros Hs. destruct s as [|x s]; [congruence|].
  eexists. split; [reflexivity | apply fold_left_max_spec].
Qed.

Lemma series_min_spec (s : Series) :
  s <> [] -> exists m, series_min s = SInt m /\ is_minimum m s.
Proof.
  intros Hs. destruct s as [|x s]; [congruence|].
  eexists. split; [reflexivity | apply fold_left_min_spec].
Qed.

(** ** Columns *)

Lemma lookup_col_In c s cols :
  NoDup (map fst cols) -> In (c, s) cols -> lookup_col c cols = Some s.
Proof.
  induction cols as [|[c' s'] cols IH]; simpl; intros Hnd Hin; [contradiction|].
  apply NoDup_cons in Hnd as [Hnotin Hnd].
  destruct Hin as [Heq | Hin].
  - injection Heq as -> ->. now rewrite String.eqb_refl.
  - destruct (String.eqb_spec c c') as [-> | Hne].
    + exfalso. apply Hnotin. apply list_elem_of_In.
      change c' with (fst (c', s)). now apply in_map.
    + auto.
Qed.

Lemma lookup_col_Some c s cols : lookup_col c cols = Some s -> In (c, s) cols.
Proof.
  induction cols as [|[c' s'] cols IH]; simpl; [discriminate|].
  destruct (String.eqb_spec c c') as [-> | Hne].
  - intros [= ->]. now left.
  - auto.
Qed.

Lemma lookup_col_None c cols : lookup_col c cols = None <-> ~ In c (map fst cols).
Proof.
  induction cols as [|[c' s'] cols IH]; simpl.
  - tauto.
  - destruct (String.eqb_spec c c') as [-> | Hne].
    + split; [discriminate | intros H; exfalso; apply H; now left].
    + rewrite IH. split; [intros H [Heq | Hin]; [congruence | auto] | tauto].
Qed.

Lemma lookup_col_is_Some c cols : In c (map fst cols) -> exists s, lookup_col c cols = Some s.
Proof.
  intros Hin. destruct (lookup_col c cols) as [s|] eqn:E; [eauto|].
  apply lookup_col_None in E. contradiction.
Qed.

Lemma existsb_eqb name (l : list string) :
  existsb (String.eqb name) l = true <-> In name l.
Proof.
  rewrite existsb_exists. split.
  - intros (x & Hin & Heq). apply String.eqb_eq in Heq. now subst.
  - intros Hin. exists name. split; [assumption | apply String.eqb_refl].
Qed.

Lemma loaded_column t c s :
  loaded t -> In (c, s) (df_cols t) ->
  lookup_col c (df_cols t) = Some s /\ length s = df_len t.
Proof.
  intros [Hnd Hlen] Hin. split.
  - now apply lookup_col_In.
  - rewrite Forall_forall in Hlen. apply (Hlen (c, s)). now apply list_elem_of_In.
Qed.

(** ** The report, line by line *)

Lemma species_line_shape column initial final mean maximum minimum :
  is_species_line
    (species_line column initial final (SFloat mean) (SInt maximum) (SInt minimum)) = true.
Proof. reflexivity. Qed.

Lemma species_line_text column initial final mean maximum minimum :
  text (species_line column initial final (SFloat mean) (SInt maximum) (SInt minimum)) =
  Some (species_text column initial final mean maximum minimum).
Proof. reflexivity. Qed.

Lemma report_column_run data t c s w :
  heap w !! data = Some t ->
  lookup_col c (df_cols t) = Some s -> s <> [] -> c <> "TimeStep" ->
  exists l, report_column data c w = (Ok tt, out [l] w) /\
            reports (c, s) l /\ is_species_line l = true.
Proof.
  intros H Hc Hs Hne.
  destruct s as [|x s'] eqn:Es; [congruence|]. rewrite <- Es in *.
  assert (H0 : s !! 0%nat = Some x) by now subst.
  destruct (last s) as [y|] eqn:Hl; [|apply last_None in Hl; congruence].
  destruct (series_mean_spec s Hs) as (q & Hq & Hmean).
  destruct (series_max_spec s Hs) as (mx & Hmx & Hmax).
  destruct (series_min_spec s Hs) as (mn & Hmn & Hmin).
  exists (species_line c x y (SFloat q) (SInt mx) (SInt mn)).
  split; [|split].
  - unfold report_column.
    destruct (String.eqb_spec c "TimeStep") as [|_]; [contradiction|]. unfold negb.
    rewrite (run_bind_ok _ _ _ _ _ (run_getitem _ _ _ _ _ H Hc)).
    rewrite (iloc_first _ _ H0), run_bind_lift_ok.
    rewrite (run_bind_ok _ _ _ _ _ (run_getitem _ _ _ _ _ H Hc)).
    rewrite (iloc_last _ _ Hl), run_bind_lift_ok.
    rewrite !(run_bind_ok _ _ _ _ _ (run_getitem _ _ _ _ _ H Hc)).
    rewrite Hq, Hmx, Hmn. apply run_print.
  - exists x, y, q, mx, mn. split; [reflexivity|]. split; [apply species_line_text|].
    repeat split; try assumption; apply Hmax || apply Hmin.
  - apply species_line_shape.
Qed.

Lemma report_column_time data w : report_column data "TimeStep" w = (Ok tt, w).
Proof. reflexivity. Qed.

Lemma report_loop data t cols : forall w,
  heap w !! data = Some t ->
  (forall c, In c cols -> lookup_col (fst c) (df_cols t) = Some (snd c) /\ snd c <> []) ->
  exists lines,
    for_ (map fst cols) (report_column data) w = (Ok tt, out lines w) /\
    Forall2 reports (filter (fun c => fst c <> "TimeStep") cols) lines /\
    Forall (fun l => is_species_line l = true) lines.
Proof.
  induction cols as [|[c s] cols IH]; intros w H Hcols.
  - exists []. simpl. rewrite out_nil. repeat split; constructor.
  - assert (Hrest : forall c', In c' cols ->
              lookup_col (fst c') (df_cols t) = Some (snd c') /\ snd c' <> [])
      by (intros; apply Hcols; now right).
    destruct (Hcols (c, s) (or_introl eq_refl)) as [Hc Hs]. simpl in Hc, Hs.
    destruct (decide (c = "TimeStep")) as [-> | Hne].
    + destruct (IH w H Hrest) as (lines & Hrun & Hrep & Hshape).
      exists lines. split; [|split; [|assumption]].
      * simpl. now rewrite (run_bind_ok _ _ _ _ _ (report_column_time data w)).
      * rewrite filter_cons_False; [assumption | simpl; tauto].
    + destruct (report_column_run data t c s w H Hc Hs Hne) as (l & Hl & Hrl & Hsl).
      destruct (IH (out [l] w) H Hrest) as (lines & Hrun & Hrep & Hshape).
      exists (l :: lines). split; [|split].
      * simpl. rewrite (run_bind_ok _ _ _ _ _ Hl), Hrun. now rewrite out_out.
      * rewrite filter_cons_True by (simpl; assumption). now constructor.
      * now constructor.
Qed.

(** ** Rows and totals *)

Lemma row_at_values t j :
  loaded t -> (j < df_len t)%nat ->
  exists r, row_at j t = Some r /\ values_at j (df_cols t) r.
Proof.
  intros [_ Hlen] Hj. unfold row_at, values_at.
  assert (Hall : Forall (fun c : string * Series => is_Some (snd c !! j)) (df_cols t)).
  { eapply Forall_impl; [exact Hlen|]. intros c Hc. simpl in Hc.
    apply lookup_lt_is_Some. lia. }
  clear Hlen. induction Hall as [|c cols [v Hv] _ (r & Hr & Hvals)].
  - exists []. split; [reflexivity | constructor].
  - exists (v :: r). split.
    + apply mapM_Some. apply mapM_Some in Hr. now constructor.
    + now constructor.
Qed.

Lemma values_at_species_only j cols r :
  ~ In "TimeStep" (map fst cols) -> values_at j cols r ->
  values_at j (filter (fun c => fst c <> "TimeStep") cols) r.
Proof.
  intros Hno Hvals. induction Hvals as [|c v cols r Hv _ IH]; [constructor|].
  simpl in Hno. rewrite filter_cons_True by tauto.
  constructor; [assumption | apply IH; tauto].
Qed.

Lemma species_total j cols : forall r ts t0,
  NoDup (map fst cols) -> values_at j cols r ->
  lookup_col "TimeStep" cols = Some ts -> ts !! j = Some t0 ->
  exists vs, values_at j (filter (fun c => fst c <> "TimeStep") cols) vs /\
             total r - t0 = total vs.
Proof.
  induction cols as [|[c s] cols IH]; intros r ts t0 Hnd Hvals Hts Ht0; [discriminate|].
  inversion Hvals as [|? v ? r' Hv Hrest]; subst. simpl in Hv.
  simpl in Hnd. apply NoDup_cons in Hnd as [Hnotin Hnd]. simpl in Hts.
  destruct (String.eqb_spec "TimeStep" c) as [<- | Hne].
  - injection Hts as ->. rewrite Ht0 in Hv. injection Hv as <-.
    exists r'. split.
    + rewrite filter_cons_False by (simpl; tauto).
      apply values_at_species_only; [|assumption].
      intros Hin. apply Hnotin. now apply list_elem_of_In.
    + unfold total. simpl. lia.
  - destruct (IH r' ts t0 Hnd Hrest Hts Ht0) as (vs & Hvs & Hsum).
    exists (v :: vs). split.
    + rewrite filter_cons_True by (simpl; congruence). now constructor.
    + unfold total in *. simpl. lia.
Qed.

Lemma run_iloc_row_first data t w :
  heap w !! data = Some t -> loaded t -> (0 < df_len t)%nat ->
  exists r, iloc_row data 0 w = (Ok r, w) /\ values_at 0 (df_cols t) r.
Proof.
  intros H Hl Hn. destruct (row_at_values t 0 Hl Hn) as (r & Hr & Hvals).
  exists r. split; [|assumption].
  unfold iloc_row. rewrite (run_bind_ok _ _ _ _ _ (run_get_frame _ _ _ H)).
  cbv zeta. replace (0 <? 0) with false by reflexivity.
  replace (Z.of_nat (df_len t) <=? 0) with false by (symmetry; apply Z.leb_gt; lia).
  unfold orb. change (Z.to_nat 0) with 0%nat. now rewrite Hr.
Qed.

Lemma run_iloc_row_last data t w :
  heap w !! data = Some t -> loaded t -> (0 < df_len t)%nat ->
  exists r, iloc_row data (-1) w = (Ok r, w) /\
            values_at (Nat.pred (df_len t)) (df_cols t) r.
Proof.
  intros H Hl Hn.
  destruct (row_at_values t (Nat.pred (df_len t)) Hl ltac:(lia)) as (r & Hr & Hvals).
  exists r. split; [|assumption].
  unfold iloc_row. rewrite (run_bind_ok _ _ _ _ _ (run_get_frame _ _ _ H)).
  cbv zeta. replace (-1 <? 0) with true by reflexivity.
  replace (-1 + Z.of_nat (df_len t) <? 0) with false by (symmetry; apply Z.ltb_ge; lia).
  replace (Z.of_nat (df_len t) <=? -1 + Z.of_nat (df_len t)) with false
    by (symmetry; apply Z.leb_gt; lia).
  replace (Z.to_nat (-1 + Z.of_nat (df_len t))) with (Nat.pred (df_len t)) by lia.
  unfold orb. now rewrite Hr.
Qed.

Lemma run_iloc_row_empty data t i w :
  heap w !! data = Some t -> df_len t = 0%nat ->
  iloc_row data i w = (Raise IndexError, w).
Proof.
  intros H Hn. unfold iloc_row. rewrite (run_bind_ok _ _ _ _ _ (run_get_frame _ _ _ H)).
  cbv zeta. rewrite Hn.
  destruct ((if i <? 0 then i + Z.of_nat 0 else i) <? 0) eqn:E1; [reflexivity|].
  destruct (Z.of_nat 0 <=? (if i <? 0 then i + Z.of_nat 0 else i)) eqn:E2; [reflexivity|].
  exfalso. apply Z.ltb_ge in E1. apply Z.leb_gt in E2.
  destruct (i <? 0) eqn:E; [apply Z.ltb_lt in E | apply Z.ltb_ge in E]; lia.
Qed.

(** ** The report as a whole *)

Lemma loaded_nonempty_columns t :
  loaded t -> (0 < df_len t)%nat ->
  forall c, In c (df_cols t) ->
    lookup_col (fst c) (df_cols t) = Some (snd c) /\ snd c <> [].
Proof.
  intros Hl Hn [c s] Hin. simpl.
  destruct (loaded_column t c s Hl Hin) as [Hc Hlen].
  split; [assumption|]. intros ->. simpl in Hlen. lia.
Qed.

Lemma print_statistics_run data t w :
  heap w !! data = Some t -> loaded t -> (0 < df_len t)%nat ->
  exists body tail o,
    print_statistics data w = (o, out (report_banner ++ body ++ tail) w) /\
    Forall2 reports (species_columns t) body /\
    Forall (fun l => is_species_line l = true) body /\
    ((exists ts, lookup_col "TimeStep" (df_cols t) = Some ts) /\ o = Ok tt /\
       (exists vs0 vs1,
          values_at 0 (species_columns t) vs0 /\
          values_at (Nat.pred (df_len t)) (species_columns t) vs1 /\
          tail = [report_rule; report_count (df_len t);
                  total_line "Initial total population: " (wrap64 (total vs0));
                  total_line "Final total population: " (wrap64 (total vs1));
                  report_end])
     \/ lookup_col "TimeStep" (df_cols t) = None /\ o = Raise (KeyError "TimeStep") /\
        tail = [report_rule; report_count (df_len t)]).
Proof.
  intros H Hl Hn.
  assert (H' : forall L, heap (out L w) !! data = Some t) by (intros; exact H).
  unfold print_statistics.
  rewrite !(run_bind_ok _ _ _ _ _ (run_print _ _)), !out_out.
  rewrite (run_bind_ok _ _ _ _ _ (run_columns _ _ _ (H' _))).
  match goal with |- context [out ?L w] =>
    destruct (report_loop data t (df_cols t) (out L w) (H' L)
                (loaded_nonempty_columns t Hl Hn)) as (body & Hrun & Hrep & Hshape)
  end.
  unfold col_names. rewrite (run_bind_ok _ _ _ _ _ Hrun), out_out.
  rewrite (run_bind_ok _ _ _ _ _ (run_print _ _)), out_out.
  rewrite (run_bind_ok _ _ _ _ _ (run_len _ _ _ (H' _))).
  rewrite (run_bind_ok _ _ _ _ _ (run_print _ _)), out_out.
  match goal with |- context [out ?L w] =>
    destruct (run_iloc_row_first data t (out L w) (H' L) Hl Hn) as (r0 & Hr0 & Hv0)
  end.
  rewrite (run_bind_ok _ _ _ _ _ Hr0).
  exists body.
  destruct (lookup_col "TimeStep" (df_cols t)) as [ts|] eqn:Hts.
  - destruct (loaded_column t "TimeStep" ts Hl (lookup_col_Some _ _ _ Hts)) as [_ Hlen].
    destruct (lookup_lt_is_Some_2 ts 0%nat ltac:(lia)) as [t0 Ht0].
    destruct (lookup_lt_is_Some_2 ts (Nat.pred (df_len t)) ltac:(lia)) as [t1 Ht1].
    assert (Hlast : last ts = Some t1) by (rewrite last_lookup, Hlen; exact Ht1).
    destruct (species_total 0 (df_cols t) r0 ts t0 (proj1 Hl) Hv0 Hts Ht0)
      as (vs0 & Hvs0 & Hsum0).
    rewrite (run_bind_ok _ _ _ _ _ (run_getitem _ _ _ _ _ (H' _) Hts)).
    rewrite (iloc_first _ _ Ht0), run_bind_lift_ok.
    rewrite (run_bind_ok _ _ _ _ _ (run_print _ _)), out_out.
    match goal with |- context [out ?L w] =>
      destruct (run_iloc_row_last data t (out L w) (H' L) Hl Hn) as (r1 & Hr1 & Hv1)
    end.
    destruct (species_total _ (df_cols t) r1 ts t1 (proj1 Hl) Hv1 Hts Ht1)
      as (vs1 & Hvs1 & Hsum1).
    rewrite (run_bind_ok _ _ _ _ _ Hr1).
    rewrite (run_bind_ok _ _ _ _ _ (run_getitem _ _ _ _ _ (H' _) Hts)).
    rewrite (iloc_last _ _ Hlast), run_bind_lift_ok.
    rewrite (run_bind_ok _ _ _ _ _ (run_print _ _)), out_out.
    rewrite run_print, out_out.
    rewrite !wrap64_difference, Hsum0, Hsum1.
    eexists _, (Ok tt). split; [|split; [exact Hrep | split; [exact Hshape|]]].
    + f_equal. f_equal. unfold report_banner. rewrite <- !app_assoc. simpl. reflexivity.
    + left. split; [eauto|]. split; [reflexivity|].
      exists vs0, vs1. repeat split; assumption.
  - rewrite (run_bind_raise _ _ _ _ _ (run_getitem_missing _ _ _ _ (H' _) Hts)).
    eexists _, (Raise (KeyError "TimeStep")).
    split; [|split; [exact Hrep | split; [exact Hshape|]]].
    + f_equal. f_equal. unfold report_banner. rewrite <- !app_assoc. simpl. reflexivity.
    + right. repeat split; reflexivity.
Qed.

(** ** The report on a table without rows *)

Lemma report_column_empty data t c w :
  heap w !! data = Some t -> lookup_col c (df_cols t) = Some [] -> c <> "TimeStep" ->
  report_column data c w = (Raise IndexError, w).
Proof.
  intros H Hc Hne. unfold report_column.
  destruct (String.eqb_spec c "TimeStep") as [|_]; [contradiction|]. unfold negb.
  rewrite (run_bind_ok _ _ _ _ _ (run_getitem _ _ _ _ _ H Hc)).
  now rewrite iloc_empty, run_bind_lift_raise.
Qed.

Lemma report_loop_empty data t cols w :
  heap w !! data = Some t ->
  (forall c, In c cols -> lookup_col c (df_cols t) = Some []) ->
  for_ cols (report_column data) w =
  (if existsb (fun c => negb (String.eqb c "TimeStep")) cols
   then Raise IndexError else Ok tt, w).
Proof.
  intros H. induction cols as [|c cols IH]; intros Hcols; [reflexivity|].
  simpl. destruct (String.eqb_spec c "TimeStep") as [-> | Hne]; simpl.
  - rewrite (run_bind_ok _ _ _ _ _ (report_column_time data w)).
    apply IH. intros; apply Hcols; now right.
  - rewrite (run_bind_raise _ _ _ _ _
               (report_column_empty data t c w H (Hcols c (or_introl eq_refl)) Hne)).
    reflexivity.
Qed.

Lemma loaded_empty_columns t :
  loaded t -> df_len t = 0%nat ->
  forall c, In c (col_names t) -> lookup_col c (df_cols t) = Some [].
Proof.
  intros Hl Hn c Hin. unfold col_names in Hin. apply in_map_iff in Hin as ([c' s] & <- & Hin).
  destruct (loaded_column t c' s Hl Hin) as [Hc Hlen]. simpl.
  rewrite Hn in Hlen. apply length_zero_iff_nil in Hlen. now subst.
Qed.

Lemma print_statistics_empty data t w :
  heap w !! data = Some t -> loaded t -> df_len t = 0%nat ->
  exists tail,
    print_statistics data w = (Raise IndexError, out (report_banner ++ tail) w) /\
    ((exists c, has_column t c /\ c <> "TimeStep") -> tail = []).
Proof.
  intros H Hl Hn.
  assert (H' : forall L, heap (out L w) !! data = Some t) by (intros; exact H).
  unfold print_statistics.
  rewrite !(run_bind_ok _ _ _ _ _ (run_print _ _)), !out_out.
  rewrite (run_bind_ok _ _ _ _ _ (run_columns _ _ _ (H' _))).
  match goal with |- context [out ?L w] =>
    pose proof (report_loop_empty data t (col_names t) (out L w) (H' L)
                  (loaded_empty_columns t Hl Hn)) as Hrun
  end.
  destruct (existsb (fun c => negb (c =? "TimeStep")%string) (col_names t)) eqn:E.
  - exists []. rewrite (run_bind_raise _ _ _ _ _ Hrun). split; [|reflexivity].
    now rewrite app_nil_r.
  - rewrite (run_bind_ok _ _ _ _ _ Hrun).
    rewrite (run_bind_ok _ _ _ _ _ (run_print _ _)), out_out.
    rewrite (run_bind_ok _ _ _ _ _ (run_len _ _ _ (H' _))).
    rewrite (run_bind_ok _ _ _ _ _ (run_print _ _)), out_out.
    match goal with |- context [out ?L w] =>
      rewrite (run_bind_raise _ _ _ _ _ (run_iloc_row_empty data t 0 (out L w) (H' L) Hn))
    end.
    exists [report_rule; report_count (df_len t)]. split; [reflexivity|].
    intros (c & Hin & Hne). exfalso.
    assert (Ht : existsb (fun c => negb (c =? "TimeStep")%string) (col_names t) = true).
    { apply existsb_exists. exists c. split; [exact Hin|].
      destruct (String.eqb_spec c "TimeStep"); [contradiction | reflexivity]. }
    congruence.
Qed.

(** ** Columns by name *)

Lemma members_cons_present t name s names :
  lookup_col name (df_cols t) = Some s ->
  members t (name :: names) = (name, s) :: members t names.
Proof. intros H. unfold members. simpl. now rewrite H. Qed.

Lemma members_cons_absent t name names :
  lookup_col name (df_cols t) = None ->
  members t (name :: names) = members t names.
Proof. intros H. unfold members. simpl. now rewrite H. Qed.

Lemma members_In t names c s :
  In (c, s) (members t names) <-> In c names /\ lookup_col c (df_cols t) = Some s.
Proof.
  induction names as [|name names IH].
  - unfold members. simpl. tauto.
  - destruct (lookup_col name (df_cols t)) as [s0|] eqn:E.
    + rewrite (members_cons_present _ _ _ _ E). cbn [In]. rewrite IH. split.
      * intros [[= <- <-] | [? ?]]; auto.
      * intros [[<- | Hin] Hc]; [left; congruence | auto].
    + rewrite (members_cons_absent _ _ _ E), IH. cbn [In]. split.
      * intros [? ?]; auto.
      * intros [[<- | Hin] Hc]; [congruence | auto].
Qed.

Lemma members_names t names :
  map fst (members t names) =
  List.filter (fun c => existsb (String.eqb c) (col_names t)) names.
Proof.
  induction names as [|name names IH]; [reflexivity|]. cbn [List.filter].
  destruct (lookup_col name (df_cols t)) as [s|] eqn:E.
  - rewrite (members_cons_present _ _ _ _ E).
    replace (existsb (String.eqb name) (col_names t)) with true.
    + cbn [map fst]. now rewrite IH.
    + symmetry. apply existsb_eqb. apply lookup_col_Some in E.
      unfold col_names. change name with (fst (name, s)). now apply in_map.
  - rewrite (members_cons_absent _ _ _ E).
    replace (existsb (String.eqb name) (col_names t)) with false; [assumption|].
    symmetry. apply not_true_is_false. rewrite existsb_eqb.
    now apply lookup_col_None.
Qed.

Lemma members_species_gen t cols :
  NoDup (col_names t) -> (forall c, In c cols -> In c (df_cols t)) ->
  members t (List.filter (fun c => negb (String.eqb c "TimeStep")) (map fst cols)) =
  filter (fun c => fst c <> "TimeStep") cols.
Proof.
  intros Hnd. induction cols as [|[c s] cols IH]; intros Hsub; [reflexivity|].
  cbn [map List.filter fst].
  destruct (String.eqb_spec c "TimeStep") as [-> | Hne]; cbn [negb].
  - rewrite filter_cons_False by (simpl; tauto). apply IH. intros; apply Hsub; now right.
  - rewrite filter_cons_True by (simpl; assumption).
    rewrite (members_cons_present t c s).
    + f_equal. apply IH. intros; apply Hsub; now right.
    + apply lookup_col_In; [exact Hnd | apply Hsub; now left].
Qed.

Lemma members_species t :
  loaded t ->
  members t (List.filter (fun c => negb (String.eqb c "TimeStep")) (col_names t)) =
  species_columns t.
Proof. intros [Hnd _]. apply members_species_gen; auto. Qed.

(** ** pyplot, step by step *)

Lemma run_gca_update f w fig figs :
  figures w = fig :: figs -> (length (fig_axes fig) <= 1)%nat ->
  gca_update f w =
  (Ok tt, set_figures (mkFigure (fig_size fig) [f (cur fig)] :: figs) w).
Proof.
  intros Hf Hlen. unfold gca_update. rewrite Hf. unfold cur.
  destruct (fig_axes fig) as [|a [|b axs]]; simpl in *; [reflexivity | reflexivity | lia].
Qed.

Lemma run_gca_update_at f w fig figs :
  (length (fig_axes fig) <= 1)%nat ->
  gca_update f (set_figures (fig :: figs) w) =
  (Ok tt, set_figures (mkFigure (fig_size fig) [f (cur fig)] :: figs) w).
Proof. intros Hlen. exact (run_gca_update f (set_figures (fig :: figs) w) fig figs eq_refl Hlen). Qed.

Lemma run_gca_update_one f w size a figs :
  gca_update f (set_figures (mkFigure size [a] :: figs) w) =
  (Ok tt, set_figures (mkFigure size [f a] :: figs) w).
Proof. reflexivity. Qed.

Lemma run_plt_savefig_at output dpi w fig figs :
  plt_savefig output dpi (set_figures (fig :: figs) w) =
  (Ok tt, mkWorld (heap w) (stdout w) (fig :: figs)
            (<[output := ImageFile fig dpi]> (files w)) (clock w)).
Proof. reflexivity. Qed.

Lemma run_ax_update_at ax f w size axs figs :
  ax_update ax f (set_figures (mkFigure size axs :: figs) w) =
  (Ok tt, set_figures (mkFigure size (alter f ax axs) :: figs) w).
Proof. reflexivity. Qed.

Lemma add_lines_nil a : add_lines [] a = a.
Proof. destruct a. unfold add_lines. simpl. now rewrite app_nil_r. Qed.

Lemma add_lines_app l1 l2 a : add_lines l2 (add_lines l1 a) = add_lines (l1 ++ l2) a.
Proof. unfold add_lines. simpl. now rewrite app_assoc. Qed.

(** ** The all-populations chart *)

Lemma run_plot_column data t ts c s w fig figs :
  heap w !! data = Some t -> lookup_col "TimeStep" (df_cols t) = Some ts ->
  figures w = fig :: figs -> (length (fig_axes fig) <= 1)%nat ->
  lookup_col c (df_cols t) = Some s -> c <> "TimeStep" ->
  plot_column data c w =
  (Ok tt, set_figures
            (mkFigure (fig_size fig) [add_lines [series_of ts (c, s)] (cur fig)] :: figs) w).
Proof.
  intros H Hts Hf Hlen Hc Hne. unfold plot_column.
  destruct (String.eqb_spec c "TimeStep") as [|_]; [contradiction|]. unfold negb.
  rewrite (run_bind_ok _ _ _ _ _ (run_getitem _ _ _ _ _ H Hts)).
  rewrite (run_bind_ok _ _ _ _ _ (run_getitem _ _ _ _ _ H Hc)).
  unfold plt_plot. now rewrite (run_gca_update _ _ _ _ Hf Hlen).
Qed.

Lemma plot_column_time data w : plot_column data "TimeStep" w = (Ok tt, w).
Proof. reflexivity. Qed.

Lemma plot_loop data t ts names : forall w fig figs,
  heap w !! data = Some t -> lookup_col "TimeStep" (df_cols t) = Some ts ->
  figures w = fig :: figs -> (length (fig_axes fig) <= 1)%nat ->
  (forall c, In c names -> In c (col_names t)) ->
  exists fig',
    for_ names (plot_column data) w = (Ok tt, set_figures (fig' :: figs) w) /\
    fig_size fig' = fig_size fig /\
    (length (fig_axes fig') <= 1)%nat /\
    ax_lines (cur fig') =
    ax_lines (cur fig) ++
    map (series_of ts)
        (members t (List.filter (fun c => negb (String.eqb c "TimeStep")) names)).
Proof.
  induction names as [|c names IH]; intros w fig figs H Hts Hf Hlen Hsub.
  - exists fig. repeat split; try assumption.
    + simpl. unfold ret. f_equal. destruct w. unfold set_figures. simpl in *. now rewrite Hf.
    + unfold members. simpl. now rewrite app_nil_r.
  - assert (Hrest : forall c', In c' names -> In c' (col_names t))
      by (intros; apply Hsub; now right).
    cbn [for_ List.filter].
    destruct (String.eqb_spec c "TimeStep") as [-> | Hne]; cbn [negb].
    + rewrite (run_bind_ok _ _ _ _ _ (plot_column_time data w)).
      now apply IH.
    + destruct (lookup_col_is_Some c (df_cols t) (Hsub c (or_introl eq_refl))) as [s Hc].
      rewrite (run_bind_ok _ _ _ _ _ (run_plot_column _ _ _ _ _ _ _ _ H Hts Hf Hlen Hc Hne)).
      destruct (IH (set_figures
                      (mkFigure (fig_size fig) [add_lines [series_of ts (c, s)] (cur fig)]
                       :: figs) w)
                   (mkFigure (fig_size fig) [add_lines [series_of ts (c, s)] (cur fig)])
                   figs H Hts eq_refl (le_n 1) Hrest)
        as (fig' & Hrun & Hsize & Hlen' & Hlines).
      exists fig'. split; [exact Hrun|]. split; [exact Hsize|]. split; [exact Hlen'|].
      rewrite Hlines, (members_cons_present _ _ _ _ Hc). simpl.
      now rewrite <- app_assoc.
Qed.

Lemma plot_loop_no_time data t names w :
  heap w !! data = Some t -> lookup_col "TimeStep" (df_cols t) = None ->
  names <> [] -> (forall c, In c names -> In c (col_names t)) ->
  for_ names (plot_column data) w = (Raise (KeyError "TimeStep"), w).
Proof.
  intros H Hts Hne Hsub. destruct names as [|c names]; [congruence|].
  cbn [for_]. apply run_bind_raise. unfold plot_column.
  destruct (String.eqb_spec c "TimeStep") as [-> | _].
  - exfalso. apply lookup_col_None in Hts. apply Hts. apply Hsub. now left.
  - unfold negb. apply run_bind_raise. now apply (run_getitem_missing data t).
Qed.

Lemma plot_all_populations_run data t ts output w :
  heap w !! data = Some t -> lookup_col "TimeStep" (df_cols t) = Some ts ->
  exists a,
    plot_all_populations data output w =
    (Ok tt, mkWorld (heap w) (stdout w ++ [[Lit "Saved: "; Fmt (VStr output) ""]]) []
              (<[output := ImageFile (mkFigure (14 # 1, 8 # 1)%Q [a]) 150]> (files w))
              (clock w)) /\
    ax_lines a =
    map (series_of ts)
        (members t (List.filter (fun c => negb (String.eqb c "TimeStep")) (col_names t))) /\
    ax_legend a = Some "upper left".
Proof.
  intros H Hts. unfold plot_all_populations.
  unfold plt_close_all at 1. unfold bind at 1.
  unfold plt_figure at 1. unfold bind at 1.
  set (w1 := set_figures _ (set_figures [] w)).
  assert (H1 : heap w1 !! data = Some t) by exact H.
  rewrite (run_bind_ok _ _ _ _ _ (run_columns _ _ _ H1)).
  destruct (plot_loop data t ts (col_names t) w1 (mkFigure (14 # 1, 8 # 1)%Q []) []
              H1 Hts eq_refl (le_0_n 1) (fun c Hc => Hc))
    as (fig' & Hrun & Hsize & Hlen & Hlines).
  rewrite (run_bind_ok _ _ _ _ _ Hrun).
  unfold plt_title, plt_xlabel, plt_ylabel, plt_legend, plt_grid, plt_tight_layout.
  change (set_figures [fig'] w1) with (set_figures [fig'] w).
  rewrite (run_bind_ok _ _ _ _ _ (run_gca_update_at _ _ _ _ Hlen)).
  rewrite !(run_bind_ok _ _ _ _ _ (run_gca_update_one _ _ _ _ _)).
  unfold ret at 1. unfold bind at 1.
  rewrite (run_bind_ok _ _ _ _ _ (run_plt_savefig_at _ _ _ _ _)).
  unfold plt_close at 1. unfold bind at 1.
  rewrite run_print. cbn [cur fig_axes hd fig_size]. rewrite Hsize.
  eexists. split; [reflexivity|]. split; [|reflexivity].
  simpl. rewrite Hlines. reflexivity.
Qed.

Lemma plot_all_populations_no_time data t output w :
  heap w !! data = Some t -> lookup_col "TimeStep" (df_cols t) = None ->
  col_names t <> [] ->
  plot_all_populations data output w =
  (Raise (KeyError "TimeStep"),
   set_figures [mkFigure (14 # 1, 8 # 1)%Q []] w).
Proof.
  intros H Hts Hne. unfold plot_all_populations.
  unfold plt_close_all at 1. unfold bind at 1.
  unfold plt_figure at 1. unfold bind at 1.
  set (w1 := set_figures _ (set_figures [] w)).
  assert (H1 : heap w1 !! data = Some t) by exact H.
  rewrite (run_bind_ok _ _ _ _ _ (run_columns _ _ _ H1)).
  rewrite (run_bind_raise _ _ _ _ _
             (plot_loop_no_time data t (col_names t) w1 H1 Hts Hne (fun c Hc => Hc))).
  reflexivity.
Qed.

(** ** The trophic-levels chart *)

Lemma alter_add_lines l1 l2 i (axs : list axes) :
  alter (add_lines l2) i (alter (add_lines l1) i axs) = alter (add_lines (l1 ++ l2)) i axs.
Proof.
  revert i. induction axs as [|a axs IH]; intros [|i]; simpl; try reflexivity.
  - now rewrite add_lines_app.
  - f_equal. apply IH.
Qed.

Lemma run_plot_member_present data t ts axs i name s w size panels figs :
  heap w !! data = Some t -> lookup_col "TimeStep" (df_cols t) = Some ts ->
  index axs i = Ok i -> lookup_col name (df_cols t) = Some s ->
  plot_member data axs i name (set_figures (mkFigure size panels :: figs) w) =
  (Ok tt, set_figures
            (mkFigure size (alter (add_lines [series_of ts (name, s)]) i panels) :: figs) w).
Proof.
  intros H Hts Hi Hc. unfold plot_member.
  assert (H1 : heap (set_figures (mkFigure size panels :: figs) w) !! data = Some t)
    by exact H.
  rewrite (run_bind_ok _ _ _ _ _ (run_in_columns _ _ _ _ H1)).
  replace (existsb (String.eqb name) (col_names t)) with true.
  - rewrite Hi, run_bind_lift_ok.
    rewrite (run_bind_ok _ _ _ _ _ (run_getitem _ _ _ _ _ H1 Hts)).
    rewrite (run_bind_ok _ _ _ _ _ (run_getitem _ _ _ _ _ H1 Hc)).
    apply run_ax_update_at.
  - symmetry. apply existsb_eqb. apply lookup_col_Some in Hc.
    unfold col_names. change name with (fst (name, s)). now apply in_map.
Qed.

Lemma run_plot_member_absent data t axs i name w :
  heap w !! data = Some t -> lookup_col name (df_cols t) = None ->
  plot_member data axs i name w = (Ok tt, w).
Proof.
  intros H Hc. unfold plot_member.
  rewrite (run_bind_ok _ _ _ _ _ (run_in_columns _ _ _ _ H)).
  replace (existsb (String.eqb name) (col_names t)) with false; [reflexivity|].
  symmetry. apply not_true_is_false. rewrite existsb_eqb. now apply lookup_col_None.
Qed.

Lemma group_loop data t ts axs i group : forall w size panels figs,
  heap w !! data = Some t -> lookup_col "TimeStep" (df_cols t) = Some ts ->
  index axs i = Ok i ->
  plot_group data axs i group (set_figures (mkFigure size panels :: figs) w) =
  (Ok tt, set_figures
            (mkFigure size
               (alter (add_lines (map (series_of ts) (members t group))) i panels)
             :: figs) w).
Proof.
  unfold plot_group.
  induction group as [|name group IH]; intros w size panels figs H Hts Hi.
  - simpl. unfold ret. do 4 f_equal.
    symmetry. apply list_alter_id. intros a. apply add_lines_nil.
  - cbn [for_]. destruct (lookup_col name (df_cols t)) as [s|] eqn:Hc.
    + rewrite (run_bind_ok _ _ _ _ _
                 (run_plot_member_present _ _ _ _ _ _ _ _ _ _ _ H Hts Hi Hc)).
      rewrite (IH _ _ _ _ H Hts Hi).
      rewrite alter_add_lines, (members_cons_present _ _ _ _ Hc). reflexivity.
    + rewrite (run_bind_ok _ _ _ _ _
                 (run_plot_member_absent data t axs i name
                    (set_figures (mkFigure size panels :: figs) w) H Hc)).
      rewrite (IH _ _ _ _ H Hts Hi), (members_cons_absent _ _ _ Hc). reflexivity.
Qed.

Lemma run_method i f w size panels figs :
  (i < 3)%nat ->
  bind (lift (index (seq 0 3) i)) (fun ax => ax_update ax f)
       (set_figures (mkFigure size panels :: figs) w) =
  (Ok tt, set_figures (mkFigure size (alter f i panels) :: figs) w).
Proof.
  intros Hi. destruct i as [|[|[|i]]]; try lia; reflexivity.
Qed.

Lemma plot_trophic_levels_run data t ts output w :
  heap w !! data = Some t -> lookup_col "TimeStep" (df_cols t) = Some ts ->
  exists a0 a1 a2,
    plot_trophic_levels data output w =
    (Ok tt, mkWorld (heap w) (stdout w ++ [[Lit "Saved: "; Fmt (VStr output) ""]]) []
              (<[output := ImageFile (mkFigure (12 # 1, 10 # 1)%Q [a0; a1; a2]) 150]>
                 (files w))
              (clock w)) /\
    ax_lines a0 = map (series_of ts) (members t producers) /\
    ax_lines a1 = map (series_of ts) (members t herbivores) /\
    ax_lines a2 = map (series_of ts) (members t predators) /\
    ax_legend a0 = Some "upper left" /\
    ax_legend a1 = Some "upper left" /\
    ax_legend a2 = Some "upper left".
Proof.
  intros H Hts. unfold plot_trophic_levels.
  unfold plt_close_all at 1. unfold bind at 1.
  unfold plt_subplots at 1. unfold bind at 1.
  change (set_figures (?f :: figures (set_figures [] w)) (set_figures [] w))
    with (set_figures [f] w).
  rewrite (run_bind_ok _ _ _ _ _ (group_loop data t ts (seq 0 3) 0%nat producers _ _ _ _ H Hts eq_refl)).
  rewrite !(run_bind_ok _ _ _ _ _ (run_method 0 _ _ _ _ _ ltac:(lia))).
  rewrite (run_bind_ok _ _ _ _ _ (group_loop data t ts (seq 0 3) 1%nat herbivores _ _ _ _ H Hts eq_refl)).
  rewrite !(run_bind_ok _ _ _ _ _ (run_method 1 _ _ _ _ _ ltac:(lia))).
  rewrite (run_bind_ok _ _ _ _ _ (group_loop data t ts (seq 0 3) 2%nat predators _ _ _ _ H Hts eq_refl)).
  rewrite !(run_bind_ok _ _ _ _ _ (run_method 2 _ _ _ _ _ ltac:(lia))).
  unfold plt_tight_layout, ret at 1. unfold bind at 1.
  rewrite (run_bind_ok _ _ _ _ _ (run_plt_savefig_at _ _ _ _ _)).
  unfold plt_close at 1. unfold bind at 1.
  rewrite run_print.
  do 3 eexists. split; [reflexivity|].
  repeat split; reflexivity.
Qed.

(** ** What was printed *)

Lemma printed_run {A} (m : M A) w o ls :
  m w = (o, out ls w) -> printed m w = ls.
Proof.
  intros H. unfold printed, exec. rewrite H. simpl. apply drop_app_length.
Qed.

Lemma result_run {A} (m : M A) w o w' : m w = (o, w') -> result m w = o.
Proof. intros H. unfold result. now rewrite H. Qed.

Lemma exec_run {A} (m : M A) w o w' : m w = (o, w') -> exec m w = w'.
Proof. intros H. unfold exec. now rewrite H. Qed.

Lemma species_lines_app l1 l2 :
  species_lines (l1 ++ l2) = species_lines l1 ++ species_lines l2.
Proof. apply List.filter_app. Qed.

Lemma species_lines_all ls :
  Forall (fun l => is_species_line l = true) ls -> species_lines ls = ls.
Proof.
  induction 1 as [|l ls Hl _ IH]; [reflexivity|].
  unfold species_lines in *. simpl. now rewrite Hl, IH.
Qed.

Lemma species_line_not_label label l :
  is_species_line l = true -> starts_with label l = false.
Proof. destruct l as [|[s|v spec] l]; simpl; congruence. Qed.

Lemma filter_label_body label ls :
  Forall (fun l => is_species_line l = true) ls ->
  List.filter (starts_with label) ls = [].
Proof.
  induction 1 as [|l ls Hl _ IH]; [reflexivity|].
  simpl. now rewrite (species_line_not_label label l Hl).
Qed.

Lemma has_column_lookup t c :
  has_column t c <-> exists s, lookup_col c (df_cols t) = Some s.
Proof.
  unfold has_column, col_names. split.
  - apply lookup_col_is_Some.
  - intros [s Hs]. apply lookup_col_Some in Hs.
    change c with (fst (c, s)). now apply in_map.
Qed.

Lemma species_lines_report t body tail :
  Forall (fun l => is_species_line l = true) body ->
  (exists x y, tail = [report_rule; report_count (df_len t);
                       total_line "Initial total population: " x;
                       total_line "Final total population: " y; report_end]) \/
  tail = [report_rule; report_count (df_len t)] ->
  species_lines (report_banner ++ body ++ tail) = body.
Proof.
  intros Hbody Htail. rewrite !species_lines_app, (species_lines_all body Hbody).
  replace (species_lines report_banner) with (@nil fstring) by reflexivity.
  replace (species_lines tail) with (@nil fstring).
  - simpl. apply app_nil_r.
  - destruct Htail as [(x & y & ->) | ->]; reflexivity.
Qed.

Lemma report_body data t w :
  heap w !! data = Some t -> loaded t -> (0 < df_len t)%nat ->
  Forall2 reports (species_columns t) (species_lines (printed (print_statistics data) w)).
Proof.
  intros H Hl Hn.
  destruct (print_statistics_run data t w H Hl Hn)
    as (body & tail & o & Hrun & Hrep & Hshape & Htail).
  rewrite (printed_run _ _ _ _ Hrun).
  rewrite (species_lines_report t body tail Hshape); [exact Hrep|].
  destruct Htail as [(_ & _ & vs0 & vs1 & _ & _ & ->) | (_ & _ & ->)]; eauto.
Qed.

(** * The claims *)

Lemma reports_double c l :
  reports c l -> magnitude (snd c) < 2 ^ 53 ->
  exists initial final maximum minimum,
    text l = Some (species_text (fst c) initial final (double_mean (snd c))
                     maximum minimum) /\
    snd c !! 0%nat = Some initial /\ last (snd c) = Some final /\
    is_maximum maximum (snd c) /\ is_minimum minimum (snd c).
Proof.
  intros (i & f & m & mx & mn & _ & Htext & Hi & Hf & Hm & Hmx & Hmn) Hb.
  assert (Hs : snd c <> []) by (intros E; rewrite E in Hi; discriminate).
  rewrite (is_mean_double _ _ Hs Hb Hm) in Htext.
  exists i, f, mx, mn. auto.
Qed.

(** C1, as the code has it.  For a loaded table of 64-bit counts with at
    least one row, the per-species lines of the report are, in number and in
    order, the columns other than the time column: there are exactly K of
    them for K such columns.  The line of a column shows, each in its field,
    the name, the value in the first row, the value in the last row, a mean
    of the column computed in double precision and printed with one decimal
    (the decimal nearest to the float, ties to even), and the true maximum
    and minimum.  For a column whose absolute values sum to less than 2^53
    the mean shown is the IEEE quotient of the exact sum of the column by
    the number of rows. *)
Theorem report_lines_correct data t w :
  heap w !! data = Some t -> loaded t -> int64_table t -> (0 < df_len t)%nat ->
  length (species_lines (printed (print_statistics data) w)) = length (species_columns t) /\
  Forall2 reports (species_columns t) (species_lines (printed (print_statistics data) w)) /\
  Forall2 (fun c l =>
             magnitude (snd c) < 2 ^ 53 ->
             exists initial final maximum minimum,
               text l = Some (species_text (fst c) initial final (double_mean (snd c))
                                maximum minimum) /\
               snd c !! 0%nat = Some initial /\ last (snd c) = Some final /\
               is_maximum maximum (snd c) /\ is_minimum minimum (snd c))
          (species_columns t) (species_lines (printed (print_statistics data) w)).
Proof.
  intros H Hl _ Hn. pose proof (report_body data t w H Hl Hn) as Hrep.
  split; [symmetry; eapply Forall2_length; exact Hrep|]. split; [exact Hrep|].
  eapply Forall2_impl; [exact Hrep|]. intros c l Hr. now apply reports_double.
Qed.

(** C1, as stated, fails: the one count of the column Aspen of
    [large_count_table] is 2^53 + 1, which is its arithmetic mean, and the
    report shows the mean 9007199254740992.0: the count is no float, and the
    nearest float is 2^53. *)
Lemma mean_rounding_counterexample :
  loaded large_count_table /\ int64_table large_count_table /\
  species_columns large_count_table = [("Aspen", [9007199254740993])] /\
  map text (species_lines (printed (print_statistics 0%nat) (world_of large_count_table))) =
    [Some (species_text "Aspen" 9007199254740993 9007199254740993
             (float_of_int 9007199254740992) 9007199254740993 9007199254740993)] /\
  format_f 1 (float_of_int 9007199254740992) = "9007199254740992.0" /\
  decimal_mean [9007199254740993] = "9007199254740993.0" /\
  format_f 1 (float_of_int 9007199254740992) <> decimal_mean [9007199254740993].
Proof.
  split; [apply (bool_decide_unpack _); vm_compute; reflexivity|].
  split; [apply (bool_decide_unpack _); vm_compute; reflexivity|].
  split; [reflexivity|].
  split; [vm_compute; reflexivity|].
  split; [vm_compute; reflexivity|].
  split; [vm_compute; reflexivity | vm_compute; discriminate].
Qed.

Lemma total_line_text label x :
  Z.abs x < 2 ^ 53 -> text (total_line label (wrap64 x)) = Some (label +:+ pretty x).
Proof.
  intros Hx. rewrite wrap64_small by lia.
  unfold text, total_line. cbn [mapM render].
  change (format (VNum (SInt x)) ".0f") with (Some (format_f 0 (float_of_int x))).
  rewrite (format_f0_int x Hx). reflexivity.
Qed.

(** C2, as the code has it.  For a loaded table of 64-bit counts with a
    time column and at least one row, the report has one "Initial total
    population" line and one "Final total population" line.  The figure of
    the first is the sum of the values of the columns other than the time
    column in the first row, taken in 64-bit arithmetic, under the format
    [.0f]; whenever that sum is below 2^53 in absolute value the line shows
    the sum itself.  The same holds of the second and the last row. *)
Theorem total_population_correct data t w :
  heap w !! data = Some t -> loaded t -> int64_table t -> (0 < df_len t)%nat ->
  has_column t "TimeStep" ->
  exists vs0 vs1,
    values_at 0 (species_columns t) vs0 /\
    values_at (Nat.pred (df_len t)) (species_columns t) vs1 /\
    List.filter (starts_with "Initial total population: ")
                (printed (print_statistics data) w) =
    [total_line "Initial total population: " (wrap64 (total vs0))] /\
    List.filter (starts_with "Final total population: ")
                (printed (print_statistics data) w) =
    [total_line "Final total population: " (wrap64 (total vs1))] /\
    (Z.abs (total vs0) < 2 ^ 53 ->
       map text (List.filter (starts_with "Initial total population: ")
                             (printed (print_statistics data) w)) =
       [Some ("Initial total population: " +:+ pretty (total vs0))]) /\
    (Z.abs (total vs1) < 2 ^ 53 ->
       map text (List.filter (starts_with "Final total population: ")
                             (printed (print_statistics data) w)) =
       [Some ("Final total population: " +:+ pretty (total vs1))]).
Proof.
  intros H Hl _ Hn Hts. apply has_column_lookup in Hts as [ts Hts].
  destruct (print_statistics_run data t w H Hl Hn)
    as (body & tail & o & Hrun & Hrep & Hshape & Htail).
  rewrite (printed_run _ _ _ _ Hrun).
  destruct Htail as [(_ & _ & vs0 & vs1 & Hv0 & Hv1 & ->) | (Hno & _)]; [|congruence].
  exists vs0, vs1. split; [exact Hv0|]. split; [exact Hv1|].
  assert (Hi : List.filter (starts_with "Initial total population: ")
                 (report_banner ++ body ++
                  [report_rule; report_count (df_len t);
                   total_line "Initial total population: " (wrap64 (total vs0));
                   total_line "Final total population: " (wrap64 (total vs1)); report_end]) =
               [total_line "Initial total population: " (wrap64 (total vs0))])
    by (rewrite !List.filter_app, !(filter_label_body _ body Hshape); reflexivity).
  assert (Hf : List.filter (starts_with "Final total population: ")
                 (report_banner ++ body ++
                  [report_rule; report_count (df_len t);
                   total_line "Initial total population: " (wrap64 (total vs0));
                   total_line "Final total population: " (wrap64 (total vs1)); report_end]) =
               [total_line "Final total population: " (wrap64 (total vs1))])
    by (rewrite !List.filter_app, !(filter_label_body _ body Hshape); reflexivity).
  rewrite Hi, Hf. cbn [map].
  split; [reflexivity|]. split; [reflexivity|].
  split; intros Hb; now rewrite (total_line_text _ _ Hb).
Qed.

(** C2, as stated, fails: in the one row of [overflow_table] the two
    columns other than the time column hold 2^62 each, their sum is 2^63,
    and the report shows the total -9223372036854775808. *)
Lemma total_overflow_counterexample :
  loaded overflow_table /\ int64_table overflow_table /\
  values_at 0 (species_columns overflow_table) [4611686018427387904; 4611686018427387904] /\
  total [4611686018427387904; 4611686018427387904] = 9223372036854775808 /\
  map text (List.filter (starts_with "Initial total population: ")
                        (printed (print_statistics 0%nat) (world_of overflow_table))) =
    [Some "Initial total population: -9223372036854775808"] /\
  pretty 9223372036854775808 <> "-9223372036854775808".
Proof.
  split; [apply (bool_decide_unpack _); vm_compute; reflexivity|].
  split; [apply (bool_decide_unpack _); vm_compute; reflexivity|].
  split; [repeat constructor|].
  split; [reflexivity|].
  split; [vm_compute; reflexivity | vm_compute; discriminate].
Qed.

(** C8.  The reporter and the two plotting operations leave every table of
    the heap as it was, whatever their outcome, and so does their sequence. *)
Theorem table_unchanged data output1 output2 w :
  heap (exec (print_statistics data) w) = heap w /\
  heap (exec (plot_all_populations data output1) w) = heap w /\
  heap (exec (plot_trophic_levels data output2) w) = heap w /\
  heap (exec (print_statistics data ;;;
              plot_all_populations data output1 ;;;
              plot_trophic_levels data output2) w) = heap w.
Proof.
  pose proof (print_statistics_heap data) as H1.
  pose proof (plot_all_populations_heap data output1) as H2.
  pose proof (plot_trophic_levels_heap data output2) as H3.
  split; [apply H1|]. split; [apply H2|]. split; [apply H3|].
  apply (preserves_bind heap); [exact H1 | intros _].
  apply (preserves_bind heap); [exact H2 | intros _; exact H3].
Qed.

(** C9.  On a loaded table without rows every first-row and last-row
    lookup of the reporter raises the out-of-bounds error, and with at least
    one column other than the time column the reporter ends with that error
    at the first of them, before any per-species line.  On a loaded table
    with at least one row none of these lookups raises it and the reporter
    does not end with it. *)
Theorem report_needs_rows data t w :
  heap w !! data = Some t -> loaded t ->
  (df_len t = 0%nat ->
     (forall c s, In (c, s) (df_cols t) ->
        iloc s 0 = Raise IndexError /\ iloc s (-1) = Raise IndexError) /\
     result (iloc_row data 0) w = Raise IndexError /\
     result (iloc_row data (-1)) w = Raise IndexError /\
     ((exists c, has_column t c /\ c <> "TimeStep") ->
        result (print_statistics data) w = Raise IndexError /\
        printed (print_statistics data) w = report_banner)) /\
  ((0 < df_len t)%nat ->
     (forall c s, In (c, s) (df_cols t) ->
        iloc s 0 <> Raise IndexError /\ iloc s (-1) <> Raise IndexError) /\
     result (iloc_row data 0) w <> Raise IndexError /\
     result (iloc_row data (-1)) w <> Raise IndexError /\
     result (print_statistics data) w <> Raise IndexError).
Proof.
  intros H Hl. split; intros Hn.
  - split; [|split; [|split]].
    + intros c s Hin. destruct (loaded_column t c s Hl Hin) as [_ Hlen].
      rewrite Hn in Hlen. apply length_zero_iff_nil in Hlen. subst s.
      split; apply iloc_empty.
    + apply (result_run _ _ _ _ (run_iloc_row_empty data t 0 w H Hn)).
    + apply (result_run _ _ _ _ (run_iloc_row_empty data t (-1) w H Hn)).
    + intros Hsp. destruct (print_statistics_empty data t w H Hl Hn) as (tail & Hrun & Htail).
      rewrite (Htail Hsp), app_nil_r in Hrun.
      split; [apply (result_run _ _ _ _ Hrun) | apply (printed_run _ _ _ _ Hrun)].
  - split; [|split; [|split]].
    + intros c s Hin.
      destruct (loaded_nonempty_columns t Hl Hn (c, s) Hin) as [_ Hs]. simpl in Hs.
      split; apply iloc_not_index_error; auto.
    + destruct (run_iloc_row_first data t w H Hl Hn) as (r & Hr & _).
      now rewrite (result_run _ _ _ _ Hr).
    + destruct (run_iloc_row_last data t w H Hl Hn) as (r & Hr & _).
      now rewrite (result_run _ _ _ _ Hr).
    + destruct (print_statistics_run data t w H Hl Hn)
        as (body & tail & o & Hrun & _ & _ & Htail).
      rewrite (result_run _ _ _ _ Hrun).
      destruct Htail as [(_ & -> & _) | (_ & -> & _)]; discriminate.
Qed.

(** ** Filters, as the code writes them and as the claims read them *)

Lemma filter_bool {A} (f : A -> bool) (P : A -> Prop) `{!forall x, Decision (P x)} l :
  (forall x, f x = true <-> P x) -> List.filter f l = filter P l.
Proof.
  intros Hf. induction l as [|x l IH]; [reflexivity|].
  simpl. rewrite filter_cons. destruct (decide (P x)) as [Hp | Hp].
  - apply Hf in Hp. now rewrite Hp, IH.
  - destruct (f x) eqn:E; [apply Hf in E; contradiction | exact IH].
Qed.

Lemma filter_in_columns t (l : list string) :
  List.filter (fun c => existsb (String.eqb c) (col_names t)) l = filter (has_column t) l.
Proof. apply filter_bool. intros c. apply existsb_eqb. Qed.

Lemma species_names t :
  map fst (species_columns t) = filter (fun c => c <> "TimeStep") (col_names t).
Proof.
  unfold species_columns, col_names.
  induction (df_cols t) as [|[c s] cols IH]; [reflexivity|].
  simpl. rewrite !filter_cons. simpl.
  destruct (decide (c <> "TimeStep")); simpl; now rewrite IH.
Qed.

Lemma labels_series_of ts cols : map ln_label (map (series_of ts) cols) = map fst cols.
Proof. induction cols as [|c cols IH]; simpl; [reflexivity | now rewrite IH]. Qed.

Lemma reports_names cols lines :
  Forall2 reports cols lines -> map line_name lines = map Some (map fst cols).
Proof.
  induction 1 as [|c l cols lines Hr _ IH]; [reflexivity|].
  destruct Hr as (? & ? & ? & ? & ? & -> & _). simpl. now rewrite IH.
Qed.

(** ** The trophic-levels chart without a time column *)

Lemma run_plot_member_no_time data t axs i name w :
  heap w !! data = Some t -> lookup_col "TimeStep" (df_cols t) = None ->
  index axs i = Ok i ->
  plot_member data axs i name w =
  (if existsb (String.eqb name) (col_names t)
   then Raise (KeyError "TimeStep") else Ok tt, w).
Proof.
  intros H Hts Hi. unfold plot_member.
  rewrite (run_bind_ok _ _ _ _ _ (run_in_columns _ _ _ _ H)).
  destruct (existsb (String.eqb name) (col_names t)); [|reflexivity].
  rewrite Hi, run_bind_lift_ok.
  apply run_bind_raise. now apply (run_getitem_missing data t).
Qed.

Lemma group_loop_no_time data t axs i group w :
  heap w !! data = Some t -> lookup_col "TimeStep" (df_cols t) = None ->
  index axs i = Ok i ->
  plot_group data axs i group w =
  (if existsb (fun name => existsb (String.eqb name) (col_names t)) group
   then Raise (KeyError "TimeStep") else Ok tt, w).
Proof.
  intros H Hts Hi. unfold plot_group.
  induction group as [|name group IH]; [reflexivity|].
  cbn [for_ existsb].
  pose proof (run_plot_member_no_time data t axs i name w H Hts Hi) as Hm.
  destruct (existsb (String.eqb name) (col_names t)); cbn [orb].
  - now rewrite (run_bind_raise _ _ _ _ _ Hm).
  - now rewrite (run_bind_ok _ _ _ _ _ Hm).
Qed.

Lemma plot_trophic_levels_no_time data t output w :
  heap w !! data = Some t -> lookup_col "TimeStep" (df_cols t) = None ->
  (exists c, In c (producers ++ herbivores ++ predators) /\ has_column t c) ->
  result (plot_trophic_levels data output) w = Raise (KeyError "TimeStep").
Proof.
  intros H Hts (c & Hin & Hc). unfold result, plot_trophic_levels.
  unfold plt_close_all at 1. unfold bind at 1.
  unfold plt_subplots at 1. unfold bind at 1.
  change (set_figures (?f :: figures (set_figures [] w)) (set_figures [] w))
    with (set_figures [f] w).
  assert (Hex : forall g, In c g ->
            existsb (fun name => existsb (String.eqb name) (col_names t)) g = true).
  { intros g Hg. apply existsb_exists. exists c. split; [exact Hg | now apply existsb_eqb]. }
  match goal with |- context [bind (plot_group _ _ _ producers) _ ?W] =>
    pose proof (group_loop_no_time data t (seq 0 3) 0%nat producers W H Hts eq_refl) as G0
  end.
  destruct (existsb _ producers) eqn:E0;
    [now rewrite (run_bind_raise _ _ _ _ _ G0) | rewrite (run_bind_ok _ _ _ _ _ G0)].
  rewrite !(run_bind_ok _ _ _ _ _ (run_method 0 _ _ _ _ _ ltac:(lia))).
  match goal with |- context [bind (plot_group _ _ _ herbivores) _ ?W] =>
    pose proof (group_loop_no_time data t (seq 0 3) 1%nat herbivores W H Hts eq_refl) as G1
  end.
  destruct (existsb _ herbivores) eqn:E1;
    [now rewrite (run_bind_raise _ _ _ _ _ G1) | rewrite (run_bind_ok _ _ _ _ _ G1)].
  rewrite !(run_bind_ok _ _ _ _ _ (run_method 1 _ _ _ _ _ ltac:(lia))).
  match goal with |- context [bind (plot_group _ _ _ predators) _ ?W] =>
    pose proof (group_loop_no_time data t (seq 0 3) 2%nat predators W H Hts eq_refl) as G2
  end.
  destruct (existsb _ predators) eqn:E2;
    [now rewrite (run_bind_raise _ _ _ _ _ G2) |].
  exfalso. apply in_app_or in Hin as [Hin | Hin]; [|apply in_app_or in Hin as [Hin | Hin]].
  - rewrite (Hex _ Hin) in E0. discriminate.
  - rewrite (Hex _ Hin) in E1. discriminate.
  - rewrite (Hex _ Hin) in E2. discriminate.
Qed.

Lemma In_series_of ts (cols : list (string * Series)) ln :
  In ln (map (series_of ts) cols) <-> exists c s, In (c, s) cols /\ ln = series_of ts (c, s).
Proof.
  rewrite in_map_iff. split.
  - intros ([c s] & <- & Hin). eauto.
  - intros (c & s & Hin & ->). eauto.
Qed.

Lemma panel_lines t ts group ln :
  In ln (map (series_of ts) (members t group)) <->
  exists c s, In c group /\ lookup_col c (df_cols t) = Some s /\ ln = series_of ts (c, s).
Proof.
  rewrite In_series_of. split.
  - intros (c & s & Hin & ->). apply members_In in Hin as [? ?]. eauto.
  - intros (c & s & Hg & Hc & ->). exists c, s. split; [|reflexivity].
    apply members_In. auto.
Qed.

Lemma panel_labels t ts group c :
  In c (map ln_label (map (series_of ts) (members t group))) <->
  In c group /\ has_column t c.
Proof.
  rewrite labels_series_of, has_column_lookup, in_map_iff. split.
  - intros ([c' s] & <- & Hin). apply members_In in Hin as [? ?]. eauto.
  - intros (Hg & s & Hs). exists (c, s). split; [reflexivity|].
    apply members_In. auto.
Qed.

(** C4.  For a table with a time column, the trophic-levels chart is saved
    without error with three panels, and in each panel a series is drawn for
    a name exactly when the name is in the fixed list of the panel and names
    a column of the table; the series has the time column as x values and the
    named column as y values.  A column whose name is in none of the three
    lists is drawn in no panel. *)
Theorem trophic_panels data t ts output w :
  heap w !! data = Some t -> lookup_col "TimeStep" (df_cols t) = Some ts ->
  result (plot_trophic_levels data output) w = Ok tt /\
  exists a0 a1 a2 size,
    files (exec (plot_trophic_levels data output) w) !! output =
      Some (ImageFile (mkFigure size [a0; a1; a2]) 150) /\
    (forall c, In c (labels a0) <-> In c producers /\ has_column t c) /\
    (forall c, In c (labels a1) <-> In c herbivores /\ has_column t c) /\
    (forall c, In c (labels a2) <-> In c predators /\ has_column t c) /\
    (forall ln, In ln (ax_lines a0) <->
       exists c s, In c producers /\ lookup_col c (df_cols t) = Some s /\
                   ln = mkLine ts s c 2) /\
    (forall ln, In ln (ax_lines a1) <->
       exists c s, In c herbivores /\ lookup_col c (df_cols t) = Some s /\
                   ln = mkLine ts s c 2) /\
    (forall ln, In ln (ax_lines a2) <->
       exists c s, In c predators /\ lookup_col c (df_cols t) = Some s /\
                   ln = mkLine ts s c 2) /\
    (forall c, has_column t c ->
       ~ In c producers -> ~ In c herbivores -> ~ In c predators ->
       ~ In c (labels a0) /\ ~ In c (labels a1) /\ ~ In c (labels a2)).
Proof.
  intros H Hts.
  destruct (plot_trophic_levels_run data t ts output w H Hts)
    as (a0 & a1 & a2 & Hrun & H0 & H1 & H2 & _).
  split; [apply (result_run _ _ _ _ Hrun)|].
  exists a0, a1, a2, (12 # 1, 10 # 1)%Q.
  rewrite (exec_run _ _ _ _ Hrun). cbn [files]. unfold labels. rewrite H0, H1, H2.
  split; [apply lookup_insert_eq|].
  split; [intros c; apply panel_labels|].
  split; [intros c; apply panel_labels|].
  split; [intros c; apply panel_labels|].
  split; [intros ln; apply panel_lines|].
  split; [intros ln; apply panel_lines|].
  split; [intros ln; apply panel_lines|].
  intros c _ N0 N1 N2. rewrite !panel_labels. tauto.
Qed.

Lemma filter_all {A} (f : A -> bool) (l : list A) :
  Forall (fun x => f x = true) l -> List.filter f l = l.
Proof.
  induction 1 as [|x l Hx _ IH]; [reflexivity|]. simpl. now rewrite Hx, IH.
Qed.

(** C5, as the code has it.  For a loaded table with a time column, the
    all-populations chart is saved without error with one axes whose series
    are, one for one and in order, the columns other than the time column:
    the time column gives the x values, the column its y values and its name
    the label.  The legend has an entry for every series whose label
    matplotlib admits to a legend, those that are not empty and do not start
    with an underscore: one entry per series when every column name is such.
    For the columns TimeStep, Deer, Wildflowers, Fox, UnknownCritter that
    makes 4 series and 4 entries. *)
Theorem all_populations_series data t ts output w :
  heap w !! data = Some t -> loaded t ->
  lookup_col "TimeStep" (df_cols t) = Some ts ->
  result (plot_all_populations data output) w = Ok tt /\
  exists a size,
    files (exec (plot_all_populations data output) w) !! output =
      Some (ImageFile (mkFigure size [a]) 150) /\
    ax_lines a = map (fun c => mkLine ts (snd c) (fst c) 2) (species_columns t) /\
    length (ax_lines a) = length (species_columns t) /\
    legend_entries a = List.filter in_legend (map fst (species_columns t)) /\
    (Forall (fun c => in_legend (fst c) = true) (species_columns t) ->
       legend_entries a = map fst (species_columns t) /\
       length (legend_entries a) = length (ax_lines a)) /\
    (col_names t = ["TimeStep"; "Deer"; "Wildflowers"; "Fox"; "UnknownCritter"] ->
     length (ax_lines a) = 4%nat /\ length (legend_entries a) = 4%nat).
Proof.
  intros H Hl Hts.
  destruct (plot_all_populations_run data t ts output w H Hts) as (a & Hrun & Hlines & Hleg).
  rewrite (members_species t Hl) in Hlines.
  split; [apply (result_run _ _ _ _ Hrun)|].
  exists a, (14 # 1, 8 # 1)%Q.
  rewrite (exec_run _ _ _ _ Hrun). cbn [files].
  assert (Hlegend : legend_entries a = List.filter in_legend (map fst (species_columns t))).
  { unfold legend_entries. rewrite Hleg, Hlines. f_equal. apply labels_series_of. }
  split; [apply lookup_insert_eq|].
  split; [exact Hlines|].
  split; [rewrite Hlines; apply length_map|].
  split; [exact Hlegend|].
  split.
  - intros Hall.
    assert (Hfull : legend_entries a = map fst (species_columns t)).
    { rewrite Hlegend. apply filter_all. now apply Forall_map. }
    split; [exact Hfull|]. rewrite Hfull, Hlines, !length_map. reflexivity.
  - intros Hcols. rewrite Hlegend, Hlines, length_map.
    rewrite <- (length_map fst), species_names, Hcols. split; reflexivity.
Qed.

(** C5, as stated, fails: [hidden_table] has two columns other than the
    time column, the chart has two series, and its legend has the one entry
    Deer: matplotlib leaves the label [_hidden] out. *)
Lemma hidden_label_counterexample :
  loaded hidden_table /\
  col_names hidden_table = ["TimeStep"; "_hidden"; "Deer"] /\
  exists a size,
    files (exec (plot_all_populations 0%nat "population_dynamics.png")
                (world_of hidden_table)) !! "population_dynamics.png" =
      Some (ImageFile (mkFigure size [a]) 150) /\
    labels a = ["_hidden"; "Deer"] /\
    legend_entries a = ["Deer"] /\
    length (legend_entries a) <> length (ax_lines a).
Proof.
  split; [apply (bool_decide_unpack _); vm_compute; reflexivity|].
  split; [reflexivity|].
  destruct (plot_all_populations_run 0%nat hidden_table [0; 1] "population_dynamics.png"
              (world_of hidden_table) eq_refl eq_refl) as (a & Hrun & Hlines & Hleg).
  exists a, (14 # 1, 8 # 1)%Q.
  rewrite (exec_run _ _ _ _ Hrun). cbn [files].
  split; [apply lookup_insert_eq|].
  unfold labels, legend_entries. rewrite Hleg, Hlines.
  split; [reflexivity|]. split; [reflexivity|].
  vm_compute. discriminate.
Qed.

Lemma Forall2_In_left {A B} (R : A -> B -> Prop) xs ys x :
  Forall2 R xs ys -> In x xs -> exists y, In y ys /\ R x y.
Proof.
  induction 1 as [|x' y' xs ys Hr _ IH]; simpl; [contradiction|].
  intros [-> | Hin].
  - exists y'. auto.
  - destruct (IH Hin) as (y & Hy & Hxy). exists y. auto.
Qed.

Lemma species_columns_In t c s :
  In (c, s) (species_columns t) <-> In (c, s) (df_cols t) /\ c <> "TimeStep".
Proof.
  unfold species_columns. rewrite <- !list_elem_of_In, list_elem_of_filter. simpl. tauto.
Qed.

(** C6, as the code has it.  The per-species lines of the report and the
    series of the all-populations chart follow the order of the columns of
    the table; the series of each panel of the trophic-levels chart follow
    the order of the fixed list of the panel. *)
Theorem output_order data t ts output1 output2 w :
  heap w !! data = Some t -> loaded t -> (0 < df_len t)%nat ->
  lookup_col "TimeStep" (df_cols t) = Some ts ->
  map line_name (species_lines (printed (print_statistics data) w)) =
    map Some (filter (fun c => c <> "TimeStep") (col_names t)) /\
  (exists a size,
     files (exec (plot_all_populations data output1) w) !! output1 =
       Some (ImageFile (mkFigure size [a]) 150) /\
     labels a = filter (fun c => c <> "TimeStep") (col_names t)) /\
  (exists a0 a1 a2 size,
     files (exec (plot_trophic_levels data output2) w) !! output2 =
       Some (ImageFile (mkFigure size [a0; a1; a2]) 150) /\
     labels a0 = filter (has_column t) producers /\
     labels a1 = filter (has_column t) herbivores /\
     labels a2 = filter (has_column t) predators).
Proof.
  intros H Hl Hn Hts. split; [|split].
  - pose proof (report_body data t w H Hl Hn) as Hrep.
    now rewrite (reports_names _ _ Hrep), species_names.
  - destruct (plot_all_populations_run data t ts output1 w H Hts) as (a & Hrun & Hlines & _).
    exists a, (14 # 1, 8 # 1)%Q. rewrite (exec_run _ _ _ _ Hrun). cbn [files].
    split; [apply lookup_insert_eq|].
    unfold labels. rewrite Hlines, labels_series_of, (members_species t Hl).
    apply species_names.
  - destruct (plot_trophic_levels_run data t ts output2 w H Hts)
      as (a0 & a1 & a2 & Hrun & H0 & H1 & H2 & _).
    exists a0, a1, a2, (12 # 1, 10 # 1)%Q. rewrite (exec_run _ _ _ _ Hrun). cbn [files].
    split; [apply lookup_insert_eq|]. unfold labels.
    rewrite H0, H1, H2, !labels_series_of, !members_names, !filter_in_columns.
    repeat split; reflexivity.
Qed.

(** C6, as stated, fails: in the table [order_table] the column Spruce comes
    before the column Wildflowers, and the producers panel draws Wildflowers
    before Spruce. *)
Lemma trophic_order_counterexample :
  loaded order_table /\
  col_names order_table = ["TimeStep"; "Spruce"; "Wildflowers"] /\
  exists a0 a1 a2 size,
    files (exec (plot_trophic_levels 0%nat "trophic_levels.png") (world_of order_table))
      !! "trophic_levels.png" = Some (ImageFile (mkFigure size [a0; a1; a2]) 150) /\
    labels a0 = ["Wildflowers"; "Spruce"] /\
    labels a0 <> filter (fun c => c ∈ producers) (col_names order_table).
Proof.
  split; [apply (bool_decide_unpack _); vm_compute; reflexivity|].
  split; [reflexivity|].
  destruct (plot_trophic_levels_run 0%nat order_table [0; 1] "trophic_levels.png"
              (world_of order_table) eq_refl eq_refl)
    as (a0 & a1 & a2 & Hrun & H0 & _).
  exists a0, a1, a2, (12 # 1, 10 # 1)%Q.
  rewrite (exec_run _ _ _ _ Hrun). cbn [files].
  split; [apply lookup_insert_eq|].
  unfold labels. rewrite H0. split; [reflexivity|].
  vm_compute. discriminate.
Qed.

(** C10.  The time column is the column named exactly [TimeStep].  A column
    with any other name has its line in the report (of a table of 64-bit
    counts: with its first and last values, a mean in double precision,
    its maximum and its minimum) and, when the table has a time column, its
    series in the all-populations chart.  When the table
    has other columns but none named exactly [TimeStep], the all-populations
    chart ends with the key error for [TimeStep], and so does the
    trophic-levels chart as soon as a column of one of its lists is present.
    When the table has a column named [TimeStep], both charts end without
    error. *)
Theorem time_column_by_exact_name data t output w :
  heap w !! data = Some t ->
  (loaded t ->
   forall c s, In (c, s) (df_cols t) -> c <> "TimeStep" ->
     ((0 < df_len t)%nat -> int64_table t ->
        exists l, In l (species_lines (printed (print_statistics data) w)) /\
                  reports (c, s) l) /\
     (forall ts, lookup_col "TimeStep" (df_cols t) = Some ts ->
        exists a size,
          files (exec (plot_all_populations data output) w) !! output =
            Some (ImageFile (mkFigure size [a]) 150) /\
          In (mkLine ts s c 2) (ax_lines a)) /\
     (forall ts, lookup_col "TimeStep" (df_cols t) = Some ts ->
        In c (producers ++ herbivores ++ predators) ->
        exists a0 a1 a2 size,
          files (exec (plot_trophic_levels data output) w) !! output =
            Some (ImageFile (mkFigure size [a0; a1; a2]) 150) /\
          In (mkLine ts s c 2) (ax_lines a0 ++ ax_lines a1 ++ ax_lines a2))) /\
  (~ has_column t "TimeStep" -> (exists c, has_column t c /\ c <> "TimeStep") ->
     result (plot_all_populations data output) w = Raise (KeyError "TimeStep")) /\
  (~ has_column t "TimeStep" ->
   (exists c, In c (producers ++ herbivores ++ predators) /\ has_column t c) ->
     result (plot_trophic_levels data output) w = Raise (KeyError "TimeStep")) /\
  (has_column t "TimeStep" ->
     result (plot_all_populations data output) w = Ok tt /\
     result (plot_trophic_levels data output) w = Ok tt).
Proof.
  intros H. split; [|split; [|split]].
  - intros Hl c s Hin Hne.
    assert (Hsp : In (c, s) (species_columns t)) by (apply species_columns_In; auto).
    split; [|split].
    + intros Hn _. pose proof (report_body data t w H Hl Hn) as Hrep.
      apply (Forall2_In_left _ _ _ _ Hrep Hsp).
    + intros ts Hts.
      destruct (plot_all_populations_run data t ts output w H Hts) as (a & Hrun & Hlines & _).
      exists a, (14 # 1, 8 # 1)%Q. rewrite (exec_run _ _ _ _ Hrun). cbn [files].
      split; [apply lookup_insert_eq|].
      rewrite Hlines, (members_species t Hl).
      apply In_series_of. eauto.
    + intros ts Hts Hgrp.
      destruct (plot_trophic_levels_run data t ts output w H Hts)
        as (a0 & a1 & a2 & Hrun & H0 & H1 & H2 & _).
      exists a0, a1, a2, (12 # 1, 10 # 1)%Q. rewrite (exec_run _ _ _ _ Hrun). cbn [files].
      split; [apply lookup_insert_eq|].
      destruct (loaded_column t c s Hl Hin) as [Hc _].
      rewrite H0, H1, H2, !in_app_iff, !panel_lines.
      apply in_app_or in Hgrp as [Hg | Hg]; [|apply in_app_or in Hg as [Hg | Hg]];
        [left | right; left | right; right]; exists c, s; auto.
  - intros Hno (c & Hc & _).
    assert (Hts : lookup_col "TimeStep" (df_cols t) = None) by now apply lookup_col_None.
    assert (Hne : col_names t <> []).
    { intros E. unfold has_column in Hc. rewrite E in Hc. contradiction. }
    apply (result_run _ _ _ _ (plot_all_populations_no_time data t output w H Hts Hne)).
  - intros Hno Hex. apply (plot_trophic_levels_no_time data t output w H); [|exact Hex].
    now apply lookup_col_None.
  - intros Hts. apply has_column_lookup in Hts as [ts Hts]. split.
    + destruct (plot_all_populations_run data t ts output w H Hts) as (a & Hrun & _).
      apply (result_run _ _ _ _ Hrun).
    + destruct (plot_trophic_levels_run data t ts output w H Hts)
        as (a0 & a1 & a2 & Hrun & _).
      apply (result_run _ _ _ _ Hrun).
Qed.

(** ** Triples *)

Lemma triple_bind {A B} P (m : M A) (k : A -> M B) Q1 Q :
  triple P m Q1 ->
  (forall e w, Q1 (Raise e) w -> Q (Raise e) w) ->
  (forall a, triple (Q1 (Ok a)) (k a) Q) ->
  triple P (bind m k) Q.
Proof.
  intros Hm He Hk w Hw. specialize (Hm w Hw). unfold result, exec, bind in *.
  destruct (m w) as [[a|e] w']; simpl in Hm.
  - apply (Hk a w' Hm).
  - simpl. now apply He.
Qed.

Lemma triple_preserves {X A} (proj : world -> X) (m : M A) x :
  preserves proj m -> triple (fun w => proj w = x) m (fun _ w => proj w = x).
Proof. intros Hm w Hw. now rewrite Hm. Qed.

Lemma triple_time P : triple P time_time (fun o w => o = Ok (clock w) /\ P w).
Proof. intros w Hw. split; [reflexivity | exact Hw]. Qed.

(** ** What the functions leave alone *)

Ltac prim_files :=
  let w := fresh "w" in
  intros w; unfold exec, watch; cbv beta delta
    [get_frame columns len getitem iloc_row in_columns print bind ret raise lift
     plt_close_all plt_close plt_figure plt_subplots ax_update gca_update
     plt_plot plt_title plt_xlabel plt_ylabel plt_legend plt_grid plt_tight_layout
     plt_savefig os_path_exists sys_exit time_time set_figures pd_read_csv];
  repeat case_match; simplify_eq/=; rewrite ?lookup_insert_ne by congruence;
  try reflexivity.

Ltac preserve_files :=
  repeat first
    [ apply preserves_ret
    | apply preserves_raise
    | apply preserves_lift
    | apply preserves_bind; [ | intros ? ]
    | apply preserves_for; intros ?
    | match goal with |- preserves _ (if ?b then _ else _) => destruct b end
    | match goal with |- preserves _ (match ?x with _ => _ end) => destruct x end
    | solve [ prim_files ] ].

Lemma print_statistics_watch path data : preserves (watch path) (print_statistics data).
Proof. unfold print_statistics, report_column. preserve_files. Qed.

Lemma load_data_watch parse_csv path filename :
  preserves (watch path) (load_data parse_csv filename).
Proof. unfold load_data. preserve_files. Qed.

Lemma plot_all_populations_watch path data output :
  path <> output -> preserves (watch path) (plot_all_populations data output).
Proof. intros Hne. unfold plot_all_populations, plot_column. preserve_files. Qed.

Lemma plot_trophic_levels_watch path data output :
  path <> output -> preserves (watch path) (plot_trophic_levels data output).
Proof. intros Hne. unfold plot_trophic_levels, plot_group, plot_member. preserve_files. Qed.

Lemma main_watch parse_csv path x :
  path <> population_dynamics_png (int_of_float (fst x)) ->
  path <> trophic_levels_png (int_of_float (fst x)) ->
  triple (fun w => watch path w = x) (main parse_csv) (fun _ w => watch path w = x).
Proof.
  intros Hp Ht. unfold main.
  apply (triple_bind _ _ _ (fun _ w => watch path w = x));
    [apply triple_preserves; preserve_files | auto | intros _].
  apply (triple_bind _ _ _ (fun _ w => watch path w = x));
    [apply triple_preserves; preserve_files | auto | intros _].
  apply (triple_bind _ _ _ (fun _ w => watch path w = x));
    [apply triple_preserves, load_data_watch | auto | intros data].
  apply (triple_bind _ _ _ (fun _ w => watch path w = x));
    [apply triple_preserves, print_statistics_watch | auto | intros _].
  apply (triple_bind _ _ _ (fun o w => o = Ok (clock w) /\ watch path w = x));
    [apply triple_time | intros e w [_ Hw]; exact Hw | intros now].
  intros w [Hnow Hw]. injection Hnow as ->.
  assert (Hclock : clock w = fst x) by (rewrite <- Hw; reflexivity).
  rewrite Hclock. revert w Hw Hclock.
  intros w Hw _. revert w Hw. apply triple_preserves.
  apply preserves_bind; [preserve_files | intros _].
  apply preserves_bind; [now apply plot_all_populations_watch | intros _].
  apply preserves_bind; [now apply plot_trophic_levels_watch | intros _].
  preserve_files.
Qed.

(** ** The loader *)

Lemma lookup_snoc (l : list DataFrame) t : (l ++ [t]) !! length l = Some t.
Proof. now apply list_lookup_middle. Qed.

Lemma run_os_path_exists filename w :
  os_path_exists filename w = (Ok (bool_decide (is_Some (files w !! filename))), w).
Proof. reflexivity. Qed.

Lemma run_ret {A} (a : A) w : ret a w = (Ok a, w).
Proof. reflexivity. Qed.

Lemma load_data_missing parse_csv filename w :
  files w !! filename = None ->
  load_data parse_csv filename w =
  (Raise (SystemExit 1),
   out [[Lit "Error: "; Fmt (VStr filename) ""; Lit " not found"]] w).
Proof.
  intros Hf. unfold load_data.
  rewrite (run_bind_ok _ _ _ _ _ (run_os_path_exists _ _)), Hf.
  replace (bool_decide (is_Some (@None file))) with false.
  - cbn [negb]. apply run_bind_raise.
    now rewrite (run_bind_ok _ _ _ _ _ (run_print _ _)).
  - symmetry. apply bool_decide_eq_false. intros [x Hx]. discriminate.
Qed.

Lemma load_data_ok parse_csv filename w text t :
  files w !! filename = Some (TextFile text) -> parse_csv text = Some t ->
  load_data parse_csv filename w =
  (Ok (length (heap w)),
   mkWorld (heap w ++ [t])
     (stdout w ++ [[Lit "Loaded "; Fmt (VNum (SInt (Z.of_nat (df_len t)))) "";
                    Lit " timesteps with ";
                    Fmt (VNum (SInt (Z.of_nat (length (col_names t)) - 1))) "";
                    Lit " species"]])
     (figures w) (files w) (clock w)).
Proof.
  intros Hf Hp. unfold load_data.
  rewrite (run_bind_ok _ _ _ _ _ (run_os_path_exists _ _)).
  rewrite (bool_decide_eq_true_2 _ (ex_intro _ _ Hf : is_Some (files w !! filename))).
  cbn [negb]. rewrite (run_bind_ok _ _ _ _ _ (run_ret _ _)).
  assert (Hread : pd_read_csv parse_csv filename w =
                  (Ok (length (heap w)),
                   mkWorld (heap w ++ [t]) (stdout w) (figures w) (files w) (clock w)))
    by (unfold pd_read_csv; now rewrite Hf, Hp).
  rewrite (run_bind_ok _ _ _ _ _ Hread).
  assert (H1 : heap (mkWorld (heap w ++ [t]) (stdout w) (figures w) (files w) (clock w))
               !! length (heap w) = Some t) by exact (lookup_snoc _ _).
  rewrite (run_bind_ok _ _ _ _ _ (run_len _ _ _ H1)).
  rewrite (run_bind_ok _ _ _ _ _ (run_columns _ _ _ H1)).
  now rewrite (run_bind_ok _ _ _ _ _ (run_print _ _)).
Qed.

Lemma load_data_found parse_csv filename w :
  is_Some (files w !! filename) ->
  forall code, result (load_data parse_csv filename) w <> Raise (SystemExit code).
Proof.
  intros Hf code.
  destruct (files w !! filename) as [[text | fig dpi]|] eqn:E;
    [destruct (parse_csv text) as [t|] eqn:Hp | | destruct Hf; discriminate].
  - now rewrite (result_run _ _ _ _ (load_data_ok parse_csv filename w text t E Hp)).
  - unfold result, load_data.
    rewrite (run_bind_ok _ _ _ _ _ (run_os_path_exists _ _)), E.
    rewrite (bool_decide_eq_true_2 _ Hf).
    cbn [negb]. rewrite (run_bind_ok _ _ _ _ _ (run_ret _ _)).
    assert (Hread : pd_read_csv parse_csv filename w = (Raise ParserError, w))
      by (unfold pd_read_csv; now rewrite E, Hp).
    now rewrite (run_bind_raise _ _ _ _ _ Hread).
  - unfold result, load_data.
    rewrite (run_bind_ok _ _ _ _ _ (run_os_path_exists _ _)), E.
    rewrite (bool_decide_eq_true_2 _ Hf).
    cbn [negb]. rewrite (run_bind_ok _ _ _ _ _ (run_ret _ _)).
    assert (Hread : pd_read_csv parse_csv filename w = (Raise ParserError, w))
      by (unfold pd_read_csv; now rewrite E).
    now rewrite (run_bind_raise _ _ _ _ _ Hread).
Qed.

(** ** The main program *)

Lemma main_missing parse_csv w :
  files w !! "ecosystem_data.csv" = None ->
  main parse_csv w =
  (Raise (SystemExit 1),
   out [[Lit "Ecosystem Data Visualization Tool"]; [Lit (str_mul "=" 50)];
        [Lit "Error: "; Fmt (VStr "ecosystem_data.csv") ""; Lit " not found"]] w).
Proof.
  intros Hf. unfold main.
  rewrite !(run_bind_ok _ _ _ _ _ (run_print _ _)), out_out.
  match goal with |- context [out ?L w] =>
    rewrite (run_bind_raise _ _ _ _ _
               (load_data_missing parse_csv "ecosystem_data.csv" (out L w) Hf))
  end.
  now rewrite out_out.
Qed.

Lemma main_run parse_csv w text t ts :
  files w !! "ecosystem_data.csv" = Some (TextFile text) ->
  parse_csv text = Some t -> loaded t -> (0 < df_len t)%nat ->
  lookup_col "TimeStep" (df_cols t) = Some ts ->
  exists a a0 a1 a2,
    result (main parse_csv) w = Ok tt /\
    files (exec (main parse_csv) w) =
    <[trophic_levels_png (int_of_float (clock w)) :=
        ImageFile (mkFigure (12 # 1, 10 # 1)%Q [a0; a1; a2]) 150]>
      (<[population_dynamics_png (int_of_float (clock w)) :=
           ImageFile (mkFigure (14 # 1, 8 # 1)%Q [a]) 150]> (files w)) /\
    ax_lines a = map (series_of ts) (species_columns t) /\
    ax_lines a0 = map (series_of ts) (members t producers) /\
    ax_lines a1 = map (series_of ts) (members t herbivores) /\
    ax_lines a2 = map (series_of ts) (members t predators).
Proof.
  intros Hf Hp Hl Hn Hts. unfold result, exec.
  destruct (main parse_csv w) as [o W] eqn:E. cbn [fst snd]. unfold main in E.
  rewrite !(run_bind_ok _ _ _ _ _ (run_print _ _)), out_out in E.
  match type of E with context [out ?L w] =>
    pose proof (load_data_ok parse_csv "ecosystem_data.csv" (out L w) text t Hf Hp) as Hload
  end.
  rewrite (run_bind_ok _ _ _ _ _ Hload) in E. clear Hload.
  match type of E with context [bind (print_statistics ?d) _ ?w2] =>
    assert (H2 : heap w2 !! d = Some t) by exact (lookup_snoc _ _);
    destruct (print_statistics_run d t w2 H2 Hl Hn)
      as (body & tail & o' & Hrun & _ & _ & Htail)
  end.
  destruct Htail as [(_ & -> & _) | (Hno & _)]; [|congruence].
  rewrite (run_bind_ok _ _ _ _ _ Hrun) in E. clear Hrun.
  unfold time_time at 1 in E. unfold bind at 1 in E.
  rewrite (run_bind_ok _ _ _ _ _ (run_print _ _)) in E.
  match type of E with context [bind (plot_all_populations ?d ?o1) _ ?w3] =>
    destruct (plot_all_populations_run d t ts o1 w3 H2 Hts) as (a & Hrun1 & Hlines & _);
    rewrite (run_bind_ok _ _ _ _ _ Hrun1) in E; clear Hrun1
  end.
  match type of E with context [bind (plot_trophic_levels ?d ?o2) _ ?w4] =>
    destruct (plot_trophic_levels_run d t ts o2 w4 H2 Hts)
      as (a0 & a1 & a2 & Hrun2 & H0 & H1 & H3 & _);
    rewrite (run_bind_ok _ _ _ _ _ Hrun2) in E; clear Hrun2
  end.
  rewrite (run_bind_ok _ _ _ _ _ (run_print _ _)), run_print in E.
  injection E as <- <-.
  rewrite (members_species t Hl) in Hlines.
  exists a, a0, a1, a2. repeat split; try assumption; reflexivity.
Qed.

(** ** File names *)

Lemma length_append s1 s2 :
  String.length (s1 +:+ s2) = (String.length s1 + String.length s2)%nat.
Proof. induction s1 as [|c s1 IH]; simpl; [reflexivity | now rewrite IH]. Qed.

Lemma append_inj_r s x : forall y, x +:+ s = y +:+ s -> x = y.
Proof.
  induction x as [|a x IH]; intros [|b y] H.
  - reflexivity.
  - exfalso. apply (f_equal String.length) in H.
    rewrite !length_append in H. cbn [String.length] in H. lia.
  - exfalso. apply (f_equal String.length) in H.
    rewrite !length_append in H. cbn [String.length] in H. lia.
  - cbn [String.append] in H. injection H as -> H. f_equal. now apply IH.
Qed.

Lemma population_dynamics_png_inj ts1 ts2 :
  population_dynamics_png ts1 = population_dynamics_png ts2 -> ts1 = ts2.
Proof.
  unfold population_dynamics_png, str_of_int. intros H.
  apply (inj (String.append "population_dynamics_")) in H.
  apply append_inj_r in H. now apply (inj pretty) in H.
Qed.

Lemma trophic_levels_png_inj ts1 ts2 :
  trophic_levels_png ts1 = trophic_levels_png ts2 -> ts1 = ts2.
Proof.
  unfold trophic_levels_png, str_of_int. intros H.
  apply (inj (String.append "trophic_levels_")) in H.
  apply append_inj_r in H. now apply (inj pretty) in H.
Qed.

Lemma chart_names_apart ts1 ts2 : population_dynamics_png ts1 <> trophic_levels_png ts2.
Proof. unfold population_dynamics_png, trophic_levels_png. simpl. discriminate. Qed.

(** * The claims, continued *)

(** C3.  When no file exists at the path, the loader prints the message
    that names the path and raises the exit with code 1, which is the exit
    status of the process, and no file is written; the main program, whose
    data file is missing, ends the same way with the files as they were.
    When a file exists at the path, the loader does not raise an exit. *)
Theorem missing_file_exits parse_csv filename w :
  (files w !! filename = None ->
     result (load_data parse_csv filename) w = Raise (SystemExit 1) /\
     exit_code (result (load_data parse_csv filename) w) = 1 /\
     printed (load_data parse_csv filename) w =
       [[Lit "Error: "; Fmt (VStr filename) ""; Lit " not found"]] /\
     files (exec (load_data parse_csv filename) w) = files w) /\
  (files w !! "ecosystem_data.csv" = None ->
     exit_code (result (main parse_csv) w) = 1 /\
     files (exec (main parse_csv) w) = files w) /\
  (is_Some (files w !! filename) ->
     forall code, result (load_data parse_csv filename) w <> Raise (SystemExit code)).
Proof.
  split; [|split].
  - intros Hf. pose proof (load_data_missing parse_csv filename w Hf) as Hrun.
    rewrite (result_run _ _ _ _ Hrun), (printed_run _ _ _ _ Hrun), (exec_run _ _ _ _ Hrun).
    repeat split; reflexivity.
  - intros Hf. pose proof (main_missing parse_csv w Hf) as Hrun.
    rewrite (result_run _ _ _ _ Hrun), (exec_run _ _ _ _ Hrun).
    split; reflexivity.
  - intros Hf code.
    now apply load_data_found.
Qed.

(** C7, as the code has it.  A run started at clock reading [now] names its
    charts [population_dynamics_<n>.png] and [trophic_levels_<n>.png] for
    [n] the integer part of [now]: a run that succeeds writes these two
    files, and no run writes any other file.  Two timestamps that differ give
    different names, so a run leaves alone the charts of any run whose
    timestamp differs from its own. *)
Theorem chart_files_by_timestamp parse_csv w :
  population_dynamics_png (int_of_float (clock w)) =
    "population_dynamics_" +:+ str_of_int (int_of_float (clock w)) +:+ ".png" /\
  trophic_levels_png (int_of_float (clock w)) =
    "trophic_levels_" +:+ str_of_int (int_of_float (clock w)) +:+ ".png" /\
  (forall text t ts,
     files w !! "ecosystem_data.csv" = Some (TextFile text) ->
     parse_csv text = Some t -> loaded t -> (0 < df_len t)%nat ->
     lookup_col "TimeStep" (df_cols t) = Some ts ->
     result (main parse_csv) w = Ok tt /\
     exists fig1 fig2,
       files (exec (main parse_csv) w) =
       <[trophic_levels_png (int_of_float (clock w)) := ImageFile fig2 150]>
         (<[population_dynamics_png (int_of_float (clock w)) := ImageFile fig1 150]>
            (files w))) /\
  (forall path,
     path <> population_dynamics_png (int_of_float (clock w)) ->
     path <> trophic_levels_png (int_of_float (clock w)) ->
     files (exec (main parse_csv) w) !! path = files w !! path) /\
  (forall n,
     n <> int_of_float (clock w) ->
     population_dynamics_png n <> population_dynamics_png (int_of_float (clock w)) /\
     trophic_levels_png n <> trophic_levels_png (int_of_float (clock w)) /\
     files (exec (main parse_csv) w) !! population_dynamics_png n =
       files w !! population_dynamics_png n /\
     files (exec (main parse_csv) w) !! trophic_levels_png n =
       files w !! trophic_levels_png n).
Proof.
  assert (Hother : forall path,
            path <> population_dynamics_png (int_of_float (clock w)) ->
            path <> trophic_levels_png (int_of_float (clock w)) ->
            files (exec (main parse_csv) w) !! path = files w !! path).
  { intros path Hp Ht.
    pose proof (main_watch parse_csv path (watch path w) Hp Ht w eq_refl) as Hw.
    unfold watch in Hw. now injection Hw. }
  split; [reflexivity|]. split; [reflexivity|]. split; [|split; [exact Hother|]].
  - intros text t ts Hf Hp Hl Hn Hts.
    destruct (main_run parse_csv w text t ts Hf Hp Hl Hn Hts)
      as (a & a0 & a1 & a2 & Hres & Hfiles & _).
    split; [exact Hres|]. eauto.
  - intros n Hn.
    assert (Hp : population_dynamics_png n <> population_dynamics_png (int_of_float (clock w)))
      by (intros E; apply Hn; now apply population_dynamics_png_inj).
    assert (Ht : trophic_levels_png n <> trophic_levels_png (int_of_float (clock w)))
      by (intros E; apply Hn; now apply trophic_levels_png_inj).
    split; [exact Hp|]. split; [exact Ht|]. split.
    + apply Hother; [exact Hp | apply chart_names_apart].
    + apply Hother; [|exact Ht]. intros E. symmetry in E. revert E. apply chart_names_apart.
Qed.

(** C7, as stated, fails: the two runs [first_run_start] and
    [second_run_start] are consecutive, half a second apart within one second;
    both succeed, their charts have the same names, and the second run
    replaces both charts of the first. *)
Lemma same_second_overwrites :
  (clock first_run_start < clock second_run_start)%Q /\
  result (main sample_parser) first_run_start = Ok tt /\
  result (main sample_parser) second_run_start = Ok tt /\
  population_dynamics_png (int_of_float (clock first_run_start)) =
    population_dynamics_png (int_of_float (clock second_run_start)) /\
  trophic_levels_png (int_of_float (clock first_run_start)) =
    trophic_levels_png (int_of_float (clock second_run_start)) /\
  is_Some (files first_run_end !!
             population_dynamics_png (int_of_float (clock first_run_start))) /\
  is_Some (files first_run_end !!
             trophic_levels_png (int_of_float (clock first_run_start))) /\
  files second_run_end !! population_dynamics_png (int_of_float (clock first_run_start)) <>
    files first_run_end !! population_dynamics_png (int_of_float (clock first_run_start)) /\
  files second_run_end !! trophic_levels_png (int_of_float (clock first_run_start)) <>
    files first_run_end !! trophic_levels_png (int_of_float (clock first_run_start)).
Proof.
  split; [reflexivity|].
  split; [vm_compute; reflexivity|].
  split; [vm_compute; reflexivity|].
  split; [vm_compute; reflexivity|].
  split; [vm_compute; reflexivity|].
  split; [vm_compute; eexists; reflexivity|].
  split; [vm_compute; eexists; reflexivity|].
  split; vm_compute; discriminate.
Qed.

(** * The claims at sample inputs *)

Lemma spec_table_loaded : loaded spec_table.
Proof. apply (bool_decide_unpack _). vm_compute. reflexivity. Qed.

Lemma order_table_loaded : loaded order_table.
Proof. apply (bool_decide_unpack _). vm_compute. reflexivity. Qed.

Lemma lowercase_table_loaded : loaded lowercase_table.
Proof. apply (bool_decide_unpack _). vm_compute. reflexivity. Qed.

Lemma empty_table_loaded : loaded empty_table.
Proof. apply (bool_decide_unpack _). vm_compute. reflexivity. Qed.

Lemma sparse_table_loaded : loaded sparse_table.
Proof. apply (bool_decide_unpack _). vm_compute. reflexivity. Qed.

Lemma spec_table_int64 : int64_table spec_table.
Proof. apply (bool_decide_unpack _). vm_compute. reflexivity. Qed.

Lemma sparse_table_int64 : int64_table sparse_table.
Proof. apply (bool_decide_unpack _). vm_compute. reflexivity. Qed.

Lemma lowercase_table_int64 : int64_table lowercase_table.
Proof. apply (bool_decide_unpack _). vm_compute. reflexivity. Qed.

(** The example of the specification: Wildflowers alone in the producers
    panel, Deer alone in the herbivores panel, Fox alone in the predators
    panel, UnknownCritter in none. *)
Example trophic_example :
  exists a0 a1 a2 size,
    files (exec (plot_trophic_levels 0%nat "trophic_levels.png") (world_of spec_table))
      !! "trophic_levels.png" = Some (ImageFile (mkFigure size [a0; a1; a2]) 150) /\
    labels a0 = ["Wildflowers"] /\ labels a1 = ["Deer"] /\ labels a2 = ["Fox"].
Proof.
  destruct (plot_trophic_levels_run 0%nat spec_table [0; 1; 2; 3; 4] "trophic_levels.png"
              (world_of spec_table) eq_refl eq_refl)
    as (a0 & a1 & a2 & Hrun & H0 & H1 & H2 & _).
  exists a0, a1, a2, (12 # 1, 10 # 1)%Q.
  rewrite (exec_run _ _ _ _ Hrun). cbn [files].
  split; [apply lookup_insert_eq|].
  unfold labels. rewrite H0, H1, H2. repeat split; reflexivity.
Qed.

(** C1 at a table of twenty rows whose column Fox sums to 3: the float
    quotient of 3 by 20 lies below 0.15, and the line shows 0.1. *)
Lemma report_lines_correct_witness :
  heap (world_of sparse_table) !! 0%nat = Some sparse_table /\
  loaded sparse_table /\
  int64_table sparse_table /\
  (0 < df_len sparse_table)%nat /\
  length (species_lines (printed (print_statistics 0%nat) (world_of sparse_table))) = 1%nat /\
  Forall2 reports (species_columns sparse_table)
    (species_lines (printed (print_statistics 0%nat) (world_of sparse_table))) /\
  format_f 1 (double_mean [1; 0; 0; 0; 0; 0; 1; 0; 0; 0; 0; 0; 0; 1; 0; 0; 0; 0; 0; 0]) = "0.1".
Proof.
  destruct (report_lines_correct 0%nat sparse_table (world_of sparse_table)
              eq_refl sparse_table_loaded sparse_table_int64 ltac:(simpl; lia))
    as (Hlen & Hrep & _).
  split; [reflexivity|]. split; [exact sparse_table_loaded|].
  split; [exact sparse_table_int64|]. split; [simpl; lia|].
  split; [exact Hlen|]. split; [exact Hrep|]. vm_compute. reflexivity.
Defined.

(** C2 at the table of the specification's example: the totals 63 and 70. *)
Lemma total_population_correct_witness :
  heap (world_of spec_table) !! 0%nat = Some spec_table /\
  loaded spec_table /\
  int64_table spec_table /\
  (0 < df_len spec_table)%nat /\
  has_column spec_table "TimeStep" /\
  exists vs0 vs1,
    values_at 0 (species_columns spec_table) vs0 /\
    values_at (Nat.pred (df_len spec_table)) (species_columns spec_table) vs1 /\
    List.filter (starts_with "Initial total population: ")
                (printed (print_statistics 0%nat) (world_of spec_table)) =
    [total_line "Initial total population: " (wrap64 (total vs0))] /\
    List.filter (starts_with "Final total population: ")
                (printed (print_statistics 0%nat) (world_of spec_table)) =
    [total_line "Final total population: " (wrap64 (total vs1))].
Proof.
  split; [reflexivity|]. split; [exact spec_table_loaded|].
  split; [exact spec_table_int64|]. split; [simpl; lia|].
  split; [left; reflexivity|].
  destruct (total_population_correct 0%nat spec_table (world_of spec_table)
              eq_refl spec_table_loaded spec_table_int64 ltac:(simpl; lia)
              (or_introl eq_refl))
    as (vs0 & vs1 & Hv0 & Hv1 & Hi & Hf & _).
  exists vs0, vs1. auto.
Defined.

(** C3 at a process without the data file, and at one with it. *)
Lemma missing_file_exits_witness :
  files (world_of spec_table) !! "ecosystem_data.csv" = None /\
  result (load_data sample_parser "ecosystem_data.csv") (world_of spec_table) =
    Raise (SystemExit 1) /\
  exit_code (result (main sample_parser) (world_of spec_table)) = 1 /\
  files (exec (main sample_parser) (world_of spec_table)) = files (world_of spec_table) /\
  is_Some (files first_run_start !! "ecosystem_data.csv") /\
  result (load_data sample_parser "ecosystem_data.csv") first_run_start <>
    Raise (SystemExit 1).
Proof.
  destruct (missing_file_exits sample_parser "ecosystem_data.csv" (world_of spec_table))
    as (Hload & Hmain & _).
  destruct (missing_file_exits sample_parser "ecosystem_data.csv" first_run_start)
    as (_ & _ & Hfound).
  assert (Hnone : files (world_of spec_table) !! "ecosystem_data.csv" = None)
    by apply lookup_empty.
  assert (Hsome : is_Some (files first_run_start !! "ecosystem_data.csv"))
    by (eexists; apply lookup_insert_eq).
  split; [exact Hnone|]. split; [apply (Hload Hnone)|].
  split; [apply (Hmain Hnone)|]. split; [apply (Hmain Hnone)|].
  split; [exact Hsome | apply (Hfound Hsome)].
Defined.

(** C4 at the table of the specification's example. *)
Lemma trophic_panels_witness :
  heap (world_of spec_table) !! 0%nat = Some spec_table /\
  lookup_col "TimeStep" (df_cols spec_table) = Some [0; 1; 2; 3; 4] /\
  result (plot_trophic_levels 0%nat "trophic_levels.png") (world_of spec_table) = Ok tt.
Proof.
  split; [reflexivity|]. split; [reflexivity|].
  apply (trophic_panels 0%nat spec_table [0; 1; 2; 3; 4] "trophic_levels.png"
           (world_of spec_table)); reflexivity.
Defined.

(** C5 at the table of the specification's example: four series and their legend. *)
Lemma all_populations_series_witness :
  heap (world_of spec_table) !! 0%nat = Some spec_table /\
  loaded spec_table /\
  lookup_col "TimeStep" (df_cols spec_table) = Some [0; 1; 2; 3; 4] /\
  exists a size,
    files (exec (plot_all_populations 0%nat "population_dynamics.png") (world_of spec_table))
      !! "population_dynamics.png" = Some (ImageFile (mkFigure size [a]) 150) /\
    length (ax_lines a) = 4%nat /\
    legend_entries a = ["Deer"; "Wildflowers"; "Fox"; "UnknownCritter"].
Proof.
  split; [reflexivity|]. split; [exact spec_table_loaded|]. split; [reflexivity|].
  destruct (all_populations_series 0%nat spec_table [0; 1; 2; 3; 4] "population_dynamics.png"
              (world_of spec_table) eq_refl spec_table_loaded eq_refl)
    as (_ & a & size & Hfile & _ & _ & Hleg & _ & Hfour).
  exists a, size. split; [exact Hfile|].
  split; [apply Hfour; reflexivity | exact Hleg].
Defined.

(** C6 at the table [order_table]: the report follows the table, the producers panel its fixed list. *)
Lemma output_order_witness :
  heap (world_of order_table) !! 0%nat = Some order_table /\
  loaded order_table /\
  (0 < df_len order_table)%nat /\
  lookup_col "TimeStep" (df_cols order_table) = Some [0; 1] /\
  map line_name (species_lines (printed (print_statistics 0%nat) (world_of order_table))) =
    [Some "Spruce"; Some "Wildflowers"] /\
  exists a0 a1 a2 size,
    files (exec (plot_trophic_levels 0%nat "trophic_levels.png") (world_of order_table))
      !! "trophic_levels.png" = Some (ImageFile (mkFigure size [a0; a1; a2]) 150) /\
    labels a0 = ["Wildflowers"; "Spruce"].
Proof.
  split; [reflexivity|]. split; [exact order_table_loaded|]. split; [simpl; lia|].
  split; [reflexivity|].
  destruct (output_order 0%nat order_table [0; 1] "population_dynamics.png"
              "trophic_levels.png" (world_of order_table)
              eq_refl order_table_loaded ltac:(simpl; lia) eq_refl)
    as (Hrep & _ & a0 & a1 & a2 & size & Hfile & H0 & _).
  split; [exact Hrep|].
  exists a0, a1, a2, size. split; [exact Hfile | exact H0].
Defined.

(** C7 at the first sample run: it succeeds and leaves alone the charts of the next second. *)
Lemma chart_files_by_timestamp_witness :
  files first_run_start !! "ecosystem_data.csv" = Some (TextFile "first") /\
  sample_parser "first" = Some spec_table /\
  loaded spec_table /\
  (0 < df_len spec_table)%nat /\
  lookup_col "TimeStep" (df_cols spec_table) = Some [0; 1; 2; 3; 4] /\
  result (main sample_parser) first_run_start = Ok tt /\
  1700000001 <> int_of_float (clock first_run_start) /\
  files first_run_end !! population_dynamics_png 1700000001 =
    files first_run_start !! population_dynamics_png 1700000001 /\
  files first_run_end !! trophic_levels_png 1700000001 =
    files first_run_start !! trophic_levels_png 1700000001.
Proof.
  destruct (chart_files_by_timestamp sample_parser first_run_start)
    as (_ & _ & Hrun & _ & Hdiff).
  assert (Hfile : files first_run_start !! "ecosystem_data.csv" = Some (TextFile "first"))
    by apply lookup_insert_eq.
  assert (Hne : 1700000001 <> int_of_float (clock first_run_start))
    by (vm_compute; discriminate).
  split; [exact Hfile|]. split; [reflexivity|]. split; [exact spec_table_loaded|].
  split; [simpl; lia|]. split; [reflexivity|].
  split; [apply (Hrun "first" spec_table [0; 1; 2; 3; 4] Hfile eq_refl spec_table_loaded
                   ltac:(simpl; lia) eq_refl)|].
  split; [exact Hne|].
  split; apply (Hdiff 1700000001 Hne).
Defined.

(** C9 at a header without rows and at the table of the specification's example. *)
Lemma report_needs_rows_witness :
  heap (world_of empty_table) !! 0%nat = Some empty_table /\
  loaded empty_table /\
  df_len empty_table = 0%nat /\
  (exists c, has_column empty_table c /\ c <> "TimeStep") /\
  result (print_statistics 0%nat) (world_of empty_table) = Raise IndexError /\
  heap (world_of spec_table) !! 0%nat = Some spec_table /\
  loaded spec_table /\
  (0 < df_len spec_table)%nat /\
  result (print_statistics 0%nat) (world_of spec_table) <> Raise IndexError.
Proof.
  destruct (report_needs_rows 0%nat empty_table (world_of empty_table)
              eq_refl empty_table_loaded) as (Hzero & _).
  destruct (report_needs_rows 0%nat spec_table (world_of spec_table)
              eq_refl spec_table_loaded) as (_ & Hpos).
  assert (Hcol : exists c, has_column empty_table c /\ c <> "TimeStep").
  { exists "Deer". split; [right; left; reflexivity | discriminate]. }
  split; [reflexivity|]. split; [exact empty_table_loaded|]. split; [reflexivity|].
  split; [exact Hcol|].
  split; [apply (Hzero eq_refl); exact Hcol|].
  split; [reflexivity|]. split; [exact spec_table_loaded|]. split; [simpl; lia|].
  apply (Hpos ltac:(simpl; lia)).
Defined.

(** C10 at a table whose time column is spelled [timestep], and at the table of the specification's example. *)
Lemma time_column_by_exact_name_witness :
  heap (world_of lowercase_table) !! 0%nat = Some lowercase_table /\
  loaded lowercase_table /\
  In ("timestep", [0; 1]) (df_cols lowercase_table) /\
  "timestep" <> "TimeStep" /\
  (0 < df_len lowercase_table)%nat /\
  int64_table lowercase_table /\
  (exists l, In l (species_lines (printed (print_statistics 0%nat) (world_of lowercase_table))) /\
             reports ("timestep", [0; 1]) l) /\
  ~ has_column lowercase_table "TimeStep" /\
  (exists c, has_column lowercase_table c /\ c <> "TimeStep") /\
  result (plot_all_populations 0%nat "population_dynamics.png") (world_of lowercase_table) =
    Raise (KeyError "TimeStep") /\
  result (plot_trophic_levels 0%nat "trophic_levels.png") (world_of lowercase_table) =
    Raise (KeyError "TimeStep") /\
  has_column spec_table "TimeStep" /\
  result (plot_all_populations 0%nat "population_dynamics.png") (world_of spec_table) = Ok tt.
Proof.
  destruct (time_column_by_exact_name 0%nat lowercase_table "population_dynamics.png"
              (world_of lowercase_table) eq_refl) as (Hsp & Hall & _ & _).
  destruct (time_column_by_exact_name 0%nat lowercase_table "trophic_levels.png"
              (world_of lowercase_table) eq_refl) as (_ & _ & Htro & _).
  destruct (time_column_by_exact_name 0%nat spec_table "population_dynamics.png"
              (world_of spec_table) eq_refl) as (_ & _ & _ & Hok).
  assert (Hin : In ("timestep", [0; 1]) (df_cols lowercase_table)) by (left; reflexivity).
  assert (Hne : "timestep" <> "TimeStep") by discriminate.
  assert (Hno : ~ has_column lowercase_table "TimeStep").
  { intros [H | [H | []]]; discriminate. }
  assert (Hcol : exists c, has_column lowercase_table c /\ c <> "TimeStep").
  { exists "Deer". split; [right; left; reflexivity | discriminate]. }
  assert (Hgrp : exists c, In c (producers ++ herbivores ++ predators) /\
                           has_column lowercase_table c).
  { exists "Deer". split; [simpl; tauto | right; left; reflexivity]. }
  split; [reflexivity|]. split; [exact lowercase_table_loaded|].
  split; [exact Hin|]. split; [exact Hne|]. split; [simpl; lia|].
  split; [exact lowercase_table_int64|].
  split; [exact (proj1 (Hsp lowercase_table_loaded _ _ Hin Hne) ltac:(simpl; lia)
                   lowercase_table_int64)|].
  split; [exact Hno|]. split; [exact Hcol|].
  split; [apply (Hall Hno Hcol)|].
  split; [apply (Htro Hno Hgrp)|].
  split; [left; reflexivity|].
  exact (proj1 (Hok (or_introl eq_refl))).
Defined.

(** * Further properties of the script *)

(** ** The charts as values *)

Lemma plot_loop_cur data t ts names : forall w fig figs,
  heap w !! data = Some t -> lookup_col "TimeStep" (df_cols t) = Some ts ->
  figures w = fig :: figs -> (length (fig_axes fig) <= 1)%nat ->
  (forall c, In c names -> In c (col_names t)) ->
  exists fig',
    for_ names (plot_column data) w = (Ok tt, set_figures (fig' :: figs) w) /\
    fig_size fig' = fig_size fig /\
    (length (fig_axes fig') <= 1)%nat /\
    cur fig' =
    add_lines
      (map (series_of ts)
           (members t (List.filter (fun c => negb (String.eqb c "TimeStep")) names)))
      (cur fig).
Proof.
  induction names as [|c names IH]; intros w fig figs H Hts Hf Hlen Hsub.
  - exists fig. repeat split; try assumption.
    + simpl. unfold ret. f_equal. destruct w. unfold set_figures. simpl in *. now rewrite Hf.
    + unfold members. simpl. symmetry. apply add_lines_nil.
  - assert (Hrest : forall c', In c' names -> In c' (col_names t))
      by (intros; apply Hsub; now right).
    cbn [for_ List.filter].
    destruct (String.eqb_spec c "TimeStep") as [-> | Hne]; cbn [negb].
    + rewrite (run_bind_ok _ _ _ _ _ (plot_column_time data w)).
      now apply IH.
    + destruct (lookup_col_is_Some c (df_cols t) (Hsub c (or_introl eq_refl))) as [s Hc].
      rewrite (run_bind_ok _ _ _ _ _ (run_plot_column _ _ _ _ _ _ _ _ H Hts Hf Hlen Hc Hne)).
      destruct (IH (set_figures
                      (mkFigure (fig_size fig) [add_lines [series_of ts (c, s)] (cur fig)]
                       :: figs) w)
                   (mkFigure (fig_size fig) [add_lines [series_of ts (c, s)] (cur fig)])
                   figs H Hts eq_refl (le_n 1) Hrest)
        as (fig' & Hrun & Hsize & Hlen' & Hcur).
      exists fig'. split; [exact Hrun|]. split; [exact Hsize|]. split; [exact Hlen'|].
      rewrite Hcur, (members_cons_present _ _ _ _ Hc).
      change (cur (mkFigure (fig_size fig) [add_lines [series_of ts (c, s)] (cur fig)]))
        with (add_lines [series_of ts (c, s)] (cur fig)).
      now rewrite add_lines_app.
Qed.

Lemma plot_all_populations_image data t ts output w :
  heap w !! data = Some t -> lookup_col "TimeStep" (df_cols t) = Some ts ->
  plot_all_populations data output w =
  (Ok tt, mkWorld (heap w) (stdout w ++ [saved_line output]) []
            (<[output := ImageFile (all_populations_figure (population_series t ts)) 150]>
               (files w))
            (clock w)).
Proof.
  intros H Hts. unfold plot_all_populations.
  unfold plt_close_all at 1. unfold bind at 1.
  unfold plt_figure at 1. unfold bind at 1.
  set (w1 := set_figures _ (set_figures [] w)).
  assert (H1 : heap w1 !! data = Some t) by exact H.
  rewrite (run_bind_ok _ _ _ _ _ (run_columns _ _ _ H1)).
  destruct (plot_loop_cur data t ts (col_names t) w1 (mkFigure (14 # 1, 8 # 1)%Q []) []
              H1 Hts eq_refl (le_0_n 1) (fun c Hc => Hc))
    as (fig' & Hrun & Hsize & Hlen & Hcur).
  rewrite (run_bind_ok _ _ _ _ _ Hrun).
  unfold plt_title, plt_xlabel, plt_ylabel, plt_legend, plt_grid, plt_tight_layout.
  change (set_figures [fig'] w1) with (set_figures [fig'] w).
  rewrite (run_bind_ok _ _ _ _ _ (run_gca_update_at _ _ _ _ Hlen)).
  rewrite !(run_bind_ok _ _ _ _ _ (run_gca_update_one _ _ _ _ _)).
  unfold ret at 1. unfold bind at 1.
  rewrite (run_bind_ok _ _ _ _ _ (run_plt_savefig_at _ _ _ _ _)).
  unfold plt_close at 1. unfold bind at 1.
  rewrite run_print, Hsize, Hcur. reflexivity.
Qed.

Lemma plot_trophic_levels_image data t ts output w :
  heap w !! data = Some t -> lookup_col "TimeStep" (df_cols t) = Some ts ->
  plot_trophic_levels data output w =
  (Ok tt, mkWorld (heap w) (stdout w ++ [saved_line output]) []
            (<[output := ImageFile
                           (trophic_figure (group_series t ts producers)
                              (group_series t ts herbivores)
                              (group_series t ts predators)) 150]>
               (files w))
            (clock w)).
Proof.
  intros H Hts. unfold plot_trophic_levels.
  unfold plt_close_all at 1. unfold bind at 1.
  unfold plt_subplots at 1. unfold bind at 1.
  change (set_figures (?f :: figures (set_figures [] w)) (set_figures [] w))
    with (set_figures [f] w).
  rewrite (run_bind_ok _ _ _ _ _ (group_loop data t ts (seq 0 3) 0%nat producers _ _ _ _ H Hts eq_refl)).
  rewrite !(run_bind_ok _ _ _ _ _ (run_method 0 _ _ _ _ _ ltac:(lia))).
  rewrite (run_bind_ok _ _ _ _ _ (group_loop data t ts (seq 0 3) 1%nat herbivores _ _ _ _ H Hts eq_refl)).
  rewrite !(run_bind_ok _ _ _ _ _ (run_method 1 _ _ _ _ _ ltac:(lia))).
  rewrite (run_bind_ok _ _ _ _ _ (group_loop data t ts (seq 0 3) 2%nat predators _ _ _ _ H Hts eq_refl)).
  rewrite !(run_bind_ok _ _ _ _ _ (run_method 2 _ _ _ _ _ ltac:(lia))).
  unfold plt_tight_layout, ret at 1. unfold bind at 1.
  rewrite (run_bind_ok _ _ _ _ _ (run_plt_savefig_at _ _ _ _ _)).
  unfold plt_close at 1. unfold bind at 1.
  rewrite run_print. reflexivity.
Qed.

Lemma printed_of_stdout {A} (m : M A) w o w' ls :
  m w = (o, w') -> stdout w' = stdout w ++ ls -> printed m w = ls.
Proof.
  intros H Hs. unfold printed, exec. rewrite H. simpl. rewrite Hs. apply drop_app_length.
Qed.

(** X1.  On a table with a time column, [plot_all_populations] returns
    normally; it saves at [output], in place of any file there and leaving
    every other file, the chart with its title, axis labels, legend, grid and
    one series per column other than the time column; it leaves no figure
    open and prints the one line [Saved: <output>]. *)
Theorem all_populations_chart_saved data t ts output w :
  heap w !! data = Some t -> lookup_col "TimeStep" (df_cols t) = Some ts ->
  result (plot_all_populations data output) w = Ok tt /\
  printed (plot_all_populations data output) w = [saved_line output] /\
  figures (exec (plot_all_populations data output) w) = [] /\
  files (exec (plot_all_populations data output) w) =
    <[output := ImageFile (all_populations_figure (population_series t ts)) 150]> (files w) /\
  (loaded t -> population_series t ts = map (series_of ts) (species_columns t)).
Proof.
  intros H Hts. pose proof (plot_all_populations_image data t ts output w H Hts) as Hrun.
  split; [apply (result_run _ _ _ _ Hrun)|].
  split; [exact (printed_of_stdout _ _ _ _ _ Hrun eq_refl)|].
  rewrite (exec_run _ _ _ _ Hrun).
  split; [reflexivity|]. split; [reflexivity|].
  intros Hl. unfold population_series. now rewrite (members_species t Hl).
Qed.

(** X2.  On a table with a time column, [plot_trophic_levels] returns
    normally; it saves at [output], in place of any file there and leaving
    every other file, the chart of three titled panels (only the bottom one
    with an x-axis label) whose series are those of the fixed lists found in
    the table; it leaves no figure open and prints the one line
    [Saved: <output>]. *)
Theorem trophic_chart_saved data t ts output w :
  heap w !! data = Some t -> lookup_col "TimeStep" (df_cols t) = Some ts ->
  result (plot_trophic_levels data output) w = Ok tt /\
  printed (plot_trophic_levels data output) w = [saved_line output] /\
  figures (exec (plot_trophic_levels data output) w) = [] /\
  files (exec (plot_trophic_levels data output) w) =
    <[output := ImageFile
                  (trophic_figure (group_series t ts producers)
                     (group_series t ts herbivores) (group_series t ts predators)) 150]>
      (files w).
Proof.
  intros H Hts. pose proof (plot_trophic_levels_image data t ts output w H Hts) as Hrun.
  split; [apply (result_run _ _ _ _ Hrun)|].
  split; [exact (printed_of_stdout _ _ _ _ _ Hrun eq_refl)|].
  rewrite (exec_run _ _ _ _ Hrun).
  split; reflexivity.
Qed.

Lemma plot_all_populations_twice data t ts output w :
  heap w !! data = Some t -> lookup_col "TimeStep" (df_cols t) = Some ts ->
  (plot_all_populations data output ;;; plot_all_populations data output) w =
  (Ok tt, mkWorld (heap w) ((stdout w ++ [saved_line output]) ++ [saved_line output]) []
            (<[output := ImageFile (all_populations_figure (population_series t ts)) 150]>
               (files w))
            (clock w)).
Proof.
  intros H Hts.
  rewrite (run_bind_ok _ _ _ _ _ (plot_all_populations_image data t ts output w H Hts)).
  cbv beta.
  match goal with |- plot_all_populations _ _ ?W = _ =>
    rewrite (plot_all_populations_image data t ts output W H Hts)
  end.
  cbn [files figures heap clock stdout]. now rewrite insert_insert_eq.
Qed.

Lemma plot_trophic_levels_twice data t ts output w :
  heap w !! data = Some t -> lookup_col "TimeStep" (df_cols t) = Some ts ->
  (plot_trophic_levels data output ;;; plot_trophic_levels data output) w =
  (Ok tt, mkWorld (heap w) ((stdout w ++ [saved_line output]) ++ [saved_line output]) []
            (<[output := ImageFile
                           (trophic_figure (group_series t ts producers)
                              (group_series t ts herbivores)
                              (group_series t ts predators)) 150]>
               (files w))
            (clock w)).
Proof.
  intros H Hts.
  rewrite (run_bind_ok _ _ _ _ _ (plot_trophic_levels_image data t ts output w H Hts)).
  cbv beta.
  match goal with |- plot_trophic_levels _ _ ?W = _ =>
    rewrite (plot_trophic_levels_image data t ts output W H Hts)
  end.
  cbn [files figures heap clock stdout]. now rewrite insert_insert_eq.
Qed.

(** X3.  Neither plotting operation depends on the figures that are open
    when it is called, and on a table with a time column calling one twice
    with the same arguments leaves the files, the figures, the heap and the
    clock as one call does; only the confirmation line is printed twice. *)
Theorem charts_repeatable data t ts output w :
  heap w !! data = Some t -> lookup_col "TimeStep" (df_cols t) = Some ts ->
  (forall figs,
     plot_all_populations data output (set_figures figs w) =
       plot_all_populations data output w /\
     plot_trophic_levels data output (set_figures figs w) =
       plot_trophic_levels data output w) /\
  (let once := exec (plot_all_populations data output) w in
   let twice := exec (plot_all_populations data output ;;;
                      plot_all_populations data output) w in
   files twice = files once /\ figures twice = figures once /\
   heap twice = heap once /\ clock twice = clock once /\
   stdout twice = stdout once ++ [saved_line output]) /\
  (let once := exec (plot_trophic_levels data output) w in
   let twice := exec (plot_trophic_levels data output ;;;
                      plot_trophic_levels data output) w in
   files twice = files once /\ figures twice = figures once /\
   heap twice = heap once /\ clock twice = clock once /\
   stdout twice = stdout once ++ [saved_line output]).
Proof.
  intros H Hts. split; [intros figs; split; reflexivity|]. split; cbv zeta.
  - rewrite (exec_run _ _ _ _ (plot_all_populations_twice data t ts output w H Hts)).
    rewrite (exec_run _ _ _ _ (plot_all_populations_image data t ts output w H Hts)).
    repeat split; reflexivity.
  - rewrite (exec_run _ _ _ _ (plot_trophic_levels_twice data t ts output w H Hts)).
    rewrite (exec_run _ _ _ _ (plot_trophic_levels_image data t ts output w H Hts)).
    repeat split; reflexivity.
Qed.

(** ** Plotting calls that fail *)

Ltac quiet_step x :=
  apply (triple_bind _ _ _ (fun _ w => (files w, stdout w) = x));
  [ apply triple_preserves; solve [preserve]
  | intros ? ? Hq _; exact Hq
  | intros ? ].

Lemma save_and_report_returns output dpi l w :
  result (plt_savefig output dpi ;;; plt_close ;;; print l) w = Ok tt.
Proof. unfold result, bind, plt_savefig. destruct (figures w); reflexivity. Qed.

Lemma plot_all_populations_quiet data output x :
  triple (fun w => (files w, stdout w) = x) (plot_all_populations data output)
         (fun o w => o <> Ok tt -> (files w, stdout w) = x).
Proof.
  unfold plot_all_populations, plot_column.
  repeat quiet_step x.
  intros w _ Hne. exfalso. apply Hne. apply save_and_report_returns.
Qed.

Lemma plot_trophic_levels_quiet data output x :
  triple (fun w => (files w, stdout w) = x) (plot_trophic_levels data output)
         (fun o w => o <> Ok tt -> (files w, stdout w) = x).
Proof.
  unfold plot_trophic_levels, plot_group, plot_member.
  repeat quiet_step x.
  intros w _ Hne. exfalso. apply Hne. apply save_and_report_returns.
Qed.

(** X4.  A plotting call that does not return normally, whatever the
    reason, has written no file and printed nothing: saving and the
    confirmation line are the last steps, reached only when every lookup
    succeeded. *)
Theorem failed_plot_leaves_no_trace data output w :
  (result (plot_all_populations data output) w <> Ok tt ->
     files (exec (plot_all_populations data output) w) = files w /\
     stdout (exec (plot_all_populations data output) w) = stdout w) /\
  (result (plot_trophic_levels data output) w <> Ok tt ->
     files (exec (plot_trophic_levels data output) w) = files w /\
     stdout (exec (plot_trophic_levels data output) w) = stdout w).
Proof.
  split; intros Hne.
  - pose proof (plot_all_populations_quiet data output _ w eq_refl Hne) as Hq.
    injection Hq as Hf Hs. auto.
  - pose proof (plot_trophic_levels_quiet data output _ w eq_refl Hne) as Hq.
    injection Hq as Hf Hs. auto.
Qed.

(** X5.  On a table with columns but none named [TimeStep],
    [plot_all_populations] ends with the key error for [TimeStep] at its
    first column: the figure it opened is still open and empty (the closing
    call is never reached), and nothing else of the world has changed. *)
Theorem all_populations_failure_leaves_figure data t output w :
  heap w !! data = Some t -> ~ has_column t "TimeStep" -> col_names t <> [] ->
  result (plot_all_populations data output) w = Raise (KeyError "TimeStep") /\
  exec (plot_all_populations data output) w =
    set_figures [mkFigure (14 # 1, 8 # 1)%Q []] w.
Proof.
  intros H Hno Hne.
  assert (Hts : lookup_col "TimeStep" (df_cols t) = None) by now apply lookup_col_None.
  pose proof (plot_all_populations_no_time data t output w H Hts Hne) as Hrun.
  split; [apply (result_run _ _ _ _ Hrun) | apply (exec_run _ _ _ _ Hrun)].
Qed.

(** ** The panels of the trophic-levels chart *)

Lemma group_loop_absent data t axs i group w :
  heap w !! data = Some t ->
  (forall c, In c group -> ~ has_column t c) ->
  plot_group data axs i group w = (Ok tt, w).
Proof.
  intros H. unfold plot_group. induction group as [|name group IH]; intros Hno; [reflexivity|].
  cbn [for_].
  assert (Hc : lookup_col name (df_cols t) = None)
    by (apply lookup_col_None, Hno; now left).
  rewrite (run_bind_ok _ _ _ _ _ (run_plot_member_absent data t axs i name w H Hc)).
  apply IH. intros c Hin. apply Hno. now right.
Qed.

(** X6.  The trophic-levels chart looks up the time column only when it
    draws a series: on a table with none of the twelve listed columns,
    with or without a column named [TimeStep], it returns normally and saves
    three titled panels without series. *)
Theorem trophic_without_listed_columns data t output w :
  heap w !! data = Some t ->
  (forall c, In c (producers ++ herbivores ++ predators) -> ~ has_column t c) ->
  result (plot_trophic_levels data output) w = Ok tt /\
  printed (plot_trophic_levels data output) w = [saved_line output] /\
  files (exec (plot_trophic_levels data output) w) =
    <[output := ImageFile (trophic_figure [] [] []) 150]> (files w).
Proof.
  intros H Hno.
  assert (Hrun : plot_trophic_levels data output w =
                 (Ok tt, mkWorld (heap w) (stdout w ++ [saved_line output]) []
                           (<[output := ImageFile (trophic_figure [] [] []) 150]> (files w))
                           (clock w))).
  { unfold plot_trophic_levels.
    unfold plt_close_all at 1. unfold bind at 1.
    unfold plt_subplots at 1. unfold bind at 1.
    change (set_figures (?f :: figures (set_figures [] w)) (set_figures [] w))
      with (set_figures [f] w).
    assert (H0 : forall c, In c producers -> ~ has_column t c)
      by (intros c Hc; apply Hno; apply in_or_app; now left).
    assert (H1 : forall c, In c herbivores -> ~ has_column t c)
      by (intros c Hc; apply Hno; apply in_or_app; right; apply in_or_app; now left).
    assert (H2 : forall c, In c predators -> ~ has_column t c)
      by (intros c Hc; apply Hno; apply in_or_app; right; apply in_or_app; now right).
    match goal with |- context [bind (plot_group _ _ _ producers) _ ?W] =>
      rewrite (run_bind_ok _ _ _ _ _ (group_loop_absent data t (seq 0 3) 0%nat producers W H H0))
    end.
    rewrite !(run_bind_ok _ _ _ _ _ (run_method 0 _ _ _ _ _ ltac:(lia))).
    match goal with |- context [bind (plot_group _ _ _ herbivores) _ ?W] =>
      rewrite (run_bind_ok _ _ _ _ _ (group_loop_absent data t (seq 0 3) 1%nat herbivores W H H1))
    end.
    rewrite !(run_bind_ok _ _ _ _ _ (run_method 1 _ _ _ _ _ ltac:(lia))).
    match goal with |- context [bind (plot_group _ _ _ predators) _ ?W] =>
      rewrite (run_bind_ok _ _ _ _ _ (group_loop_absent data t (seq 0 3) 2%nat predators W H H2))
    end.
    rewrite !(run_bind_ok _ _ _ _ _ (run_method 2 _ _ _ _ _ ltac:(lia))).
    unfold plt_tight_layout, ret at 1. unfold bind at 1.
    rewrite (run_bind_ok _ _ _ _ _ (run_plt_savefig_at _ _ _ _ _)).
    unfold plt_close at 1. unfold bind at 1.
    rewrite run_print. reflexivity. }
  split; [apply (result_run _ _ _ _ Hrun)|].
  split; [exact (printed_of_stdout _ _ _ _ _ Hrun eq_refl)|].
  now rewrite (exec_run _ _ _ _ Hrun).
Qed.

Lemma group_labels t ts group :
  map ln_label (group_series t ts group) = filter (has_column t) group.
Proof. unfold group_series. now rewrite labels_series_of, members_names, filter_in_columns. Qed.

Lemma listed_names_distinct : NoDup (producers ++ herbivores ++ predators).
Proof. apply (bool_decide_unpack _). vm_compute. reflexivity. Qed.

(** X7.  In the saved trophic-levels chart no name labels two series, in
    one panel or in two, and the time column is never drawn: the series of
    the three panels together are the listed names that are columns of the
    table, each once. *)
Theorem trophic_series_distinct data t ts output w :
  heap w !! data = Some t -> lookup_col "TimeStep" (df_cols t) = Some ts ->
  exists a0 a1 a2 size,
    files (exec (plot_trophic_levels data output) w) !! output =
      Some (ImageFile (mkFigure size [a0; a1; a2]) 150) /\
    labels a0 ++ labels a1 ++ labels a2 =
      filter (has_column t) (producers ++ herbivores ++ predators) /\
    NoDup (labels a0 ++ labels a1 ++ labels a2) /\
    ~ In "TimeStep" (labels a0 ++ labels a1 ++ labels a2) /\
    (length (labels a0 ++ labels a1 ++ labels a2) <= 12)%nat.
Proof.
  intros H Hts. pose proof (plot_trophic_levels_image data t ts output w H Hts) as Hrun.
  eexists _, _, _, _. rewrite (exec_run _ _ _ _ Hrun). cbn [files].
  split; [apply lookup_insert_eq|].
  unfold labels, panel. cbn [ax_lines]. rewrite !group_labels, <- !filter_app.
  split; [reflexivity|]. split; [|split].
  - apply NoDup_filter, listed_names_distinct.
  - rewrite <- list_elem_of_In, list_elem_of_filter, list_elem_of_In.
    intros [_ Hin]. revert Hin. simpl.
    intros Hin. repeat (destruct Hin as [Hin | Hin]; [discriminate|]). exact Hin.
  - etransitivity; [apply length_filter|]. reflexivity.
Qed.

(** ** More on the report *)

Lemma species_columns_all t :
  ~ has_column t "TimeStep" -> species_columns t = df_cols t.
Proof.
  unfold has_column, col_names, species_columns.
  induction (df_cols t) as [|[c s] cols IH]; intros Hno; [reflexivity|].
  simpl in Hno. rewrite filter_cons_True by (simpl; intros ->; apply Hno; now left).
  f_equal. apply IH. intros Hin. apply Hno. now right.
Qed.

Lemma printed_report data t w :
  heap w !! data = Some t -> loaded t -> (0 < df_len t)%nat ->
  exists body tail o,
    result (print_statistics data) w = o /\
    printed (print_statistics data) w = report_banner ++ body ++ tail /\
    species_lines (printed (print_statistics data) w) = body /\
    Forall2 reports (species_columns t) body /\
    Forall (fun l => is_species_line l = true) body /\
    ((exists ts, lookup_col "TimeStep" (df_cols t) = Some ts) /\ o = Ok tt /\
       (exists vs0 vs1,
          values_at 0 (species_columns t) vs0 /\
          values_at (Nat.pred (df_len t)) (species_columns t) vs1 /\
          tail = [report_rule; report_count (df_len t);
                  total_line "Initial total population: " (wrap64 (total vs0));
                  total_line "Final total population: " (wrap64 (total vs1));
                  report_end])
     \/ lookup_col "TimeStep" (df_cols t) = None /\ o = Raise (KeyError "TimeStep") /\
        tail = [report_rule; report_count (df_len t)]).
Proof.
  intros H Hl Hn.
  destruct (print_statistics_run data t w H Hl Hn)
    as (body & tail & o & Hrun & Hrep & Hshape & Htail).
  exists body, tail, o. rewrite (result_run _ _ _ _ Hrun), (printed_run _ _ _ _ Hrun).
  split; [reflexivity|]. split; [reflexivity|].
  split; [|split; [exact Hrep | split; [exact Hshape | exact Htail]]].
  apply (species_lines_report t body tail Hshape).
  destruct Htail as [(_ & _ & vs0 & vs1 & _ & _ & ->) | (_ & _ & ->)]; eauto.
Qed.

(** X8.  On a loaded table of 64-bit counts with at least one row and no
    column named [TimeStep], the reporter prints a line for every column and
    the number of rows, and then ends with the key error for [TimeStep]: no
    total is printed, nor the closing rule. *)
Theorem report_without_time_column data t w :
  heap w !! data = Some t -> loaded t -> int64_table t -> (0 < df_len t)%nat ->
  ~ has_column t "TimeStep" ->
  result (print_statistics data) w = Raise (KeyError "TimeStep") /\
  exists body,
    printed (print_statistics data) w =
      report_banner ++ body ++ [report_rule; report_count (df_len t)] /\
    Forall2 reports (df_cols t) body.
Proof.
  intros H Hl _ Hn Hno.
  destruct (printed_report data t w H Hl Hn)
    as (body & tail & o & Hres & Hpr & _ & Hrep & _ & Htail).
  destruct Htail as [([ts Hts] & _) | (_ & -> & ->)].
  - exfalso. apply Hno, has_column_lookup. eauto.
  - split; [exact Hres|]. exists body. split; [exact Hpr|].
    now rewrite <- (species_columns_all t Hno).
Qed.





Lemma species_columns_length t :
  loaded t -> Forall (fun c : string * Series => length (snd c) = df_len t) (species_columns t).
Proof.
  intros [_ Hlen]. unfold species_columns.
  rewrite Forall_forall in Hlen. apply Forall_forall. intros c Hc.
  apply list_elem_of_filter in Hc as [_ Hc]. now apply Hlen.
Qed.


Lemma reports_bounded c l :
  reports c l ->
  exists initial final mean maximum minimum,
    l = species_line (fst c) initial final (SFloat mean) (SInt maximum) (SInt minimum) /\
    minimum <= initial <= maximum /\ minimum <= final <= maximum /\ minimum <= maximum.
Proof.
  intros (i & f & m & mx & mn & -> & _ & Hi & Hf & _ & Hmx & Hmn).
  exists i, f, m, mx, mn. split; [reflexivity|].
  assert (Hin_i : i ∈ snd c) by (eapply list_elem_of_lookup_2; exact Hi).
  assert (Hin_f : f ∈ snd c) by (rewrite last_lookup in Hf; eapply list_elem_of_lookup_2; exact Hf).
  destruct Hmx as [Hmx_in Hmx]. destruct Hmn as [Hmn_in Hmn].
  rewrite Forall_forall in Hmx, Hmn.
  pose proof (Hmx i Hin_i). pose proof (Hmx f Hin_f).
  pose proof (Hmn i Hin_i). pose proof (Hmn f Hin_f).
  lia.
Qed.

(** X11.  On a loaded table with at least one row the integer figures of
    every per-species line of the report are ordered: the minimum is at most
    the initial and the final figure, which are at most the maximum. *)
Theorem report_figures_bounded data t w :
  heap w !! data = Some t -> loaded t -> (0 < df_len t)%nat ->
  Forall (fun l =>
            exists column initial final mean maximum minimum,
              l = species_line column initial final
                    (SFloat mean) (SInt maximum) (SInt minimum) /\
              minimum <= initial <= maximum /\ minimum <= final <= maximum /\
              minimum <= maximum)
         (species_lines (printed (print_statistics data) w)).
Proof.
  intros H Hl Hn. pose proof (report_body data t w H Hl Hn) as Hrep.
  induction Hrep as [|c l cols body Hr _ IH]; constructor; [|exact IH].
  destruct (reports_bounded c l Hr) as (i & f & m & mx & mn & Hline & Hb).
  exists (fst c), i, f, m, mx, mn. auto.
Qed.

Lemma reports_single c l :
  length (snd c) = 1%nat -> reports c l ->
  exists v mean,
    l = species_line (fst c) v v (SFloat mean) (SInt v) (SInt v) /\
    (Z.abs v < 2 ^ 53 ->
       mean = float_of_int v /\
       text l = Some (species_text (fst c) v v (float_of_int v) v v) /\
       format_f 1 (float_of_int v) = pretty v +:+ ".0").
Proof.
  intros Hlen (i & f & m & mx & mn & -> & Htext & Hi & Hf & Hm & [Hmx _] & [Hmn _]).
  destruct (snd c) as [|v [|v' s]] eqn:E; try discriminate.
  injection Hi as <-. injection Hf as <-.
  destruct Hmx as [<- | []]. destruct Hmn as [<- | []].
  exists v, m. split; [reflexivity|]. intros Hb.
  assert (Hmean : m = float_of_int v).
  { rewrite (is_mean_double [v] m ltac:(discriminate)
               ltac:(unfold magnitude, total; simpl; lia) Hm).
    unfold double_mean, total. cbn [fold_right length]. rewrite Z.add_0_r.
    apply (float_div_one v Hb). }
  split; [exact Hmean|]. split; [now rewrite <- Hmean | apply (format_f1_int v Hb)].
Qed.

(** X12.  On a loaded table with a single row the figures of every
    per-species line coincide: initial, final, maximum and minimum are the
    one value of the column, and when that value is below 2^53 in absolute
    value the mean is its float and the line shows it with the decimal 0. *)
Theorem report_single_row data t w :
  heap w !! data = Some t -> loaded t -> int64_table t -> df_len t = 1%nat ->
  Forall (fun l =>
            exists column v mean,
              l = species_line column v v (SFloat mean) (SInt v) (SInt v) /\
              (Z.abs v < 2 ^ 53 ->
                 mean = float_of_int v /\
                 text l = Some (species_text column v v (float_of_int v) v v) /\
                 format_f 1 (float_of_int v) = pretty v +:+ ".0"))
         (species_lines (printed (print_statistics data) w)).
Proof.
  intros H Hl _ Hn.
  pose proof (report_body data t w H Hl ltac:(lia)) as Hrep.
  pose proof (species_columns_length t Hl) as Hlen. rewrite Hn in Hlen.
  induction Hrep as [|c l cols body Hr _ IH]; constructor.
  - apply Forall_cons in Hlen as [Hc _].
    destruct (reports_single c l Hc Hr) as (v & m & Hline & Hm).
    exists (fst c), v, m. auto.
  - apply IH. now apply Forall_cons in Hlen as [_ Hlen].
Qed.

Lemma print_statistics_quiet data :
  preserves (fun w => (files w, figures w, clock w, heap w)) (print_statistics data).
Proof. unfold print_statistics, report_column. preserve. Qed.

(** X13.  Whatever its outcome, the reporter only prints: it writes no
    file, opens and closes no figure, and leaves the clock and the heap as
    they were. *)
Theorem report_only_prints data w :
  files (exec (print_statistics data) w) = files w /\
  figures (exec (print_statistics data) w) = figures w /\
  clock (exec (print_statistics data) w) = clock w /\
  heap (exec (print_statistics data) w) = heap w.
Proof.
  pose proof (print_statistics_quiet data w) as Hq. cbv beta in Hq.
  injection Hq as Hf Hg Hc Hh. auto.
Qed.

(** ** More on the loader *)

Lemma load_data_rejected parse_csv filename w :
  is_Some (files w !! filename) ->
  (forall text, files w !! filename = Some (TextFile text) -> parse_csv text = None) ->
  load_data parse_csv filename w = (Raise ParserError, w).
Proof.
  intros Hf Hbad. unfold load_data.
  rewrite (run_bind_ok _ _ _ _ _ (run_os_path_exists _ _)).
  rewrite (bool_decide_eq_true_2 _ Hf).
  cbn [negb]. rewrite (run_bind_ok _ _ _ _ _ (run_ret _ _)).
  apply run_bind_raise. unfold pd_read_csv.
  destruct (files w !! filename) as [[text | fig dpi]|] eqn:E.
  - now rewrite (Hbad text eq_refl).
  - reflexivity.
  - destruct Hf; discriminate.
Qed.

(** X14.  When the file exists and its text parses to a table, the loader
    returns a reference to a new frame holding that table, after the frames
    already there, which it leaves as they were; it prints the one line with
    the number of rows and the number of columns less one, and changes no
    file, figure or clock. *)
Theorem load_data_success parse_csv filename w text t :
  files w !! filename = Some (TextFile text) -> parse_csv text = Some t ->
  result (load_data parse_csv filename) w = Ok (length (heap w)) /\
  heap (exec (load_data parse_csv filename) w) = heap w ++ [t] /\
  heap (exec (load_data parse_csv filename) w) !! length (heap w) = Some t /\
  printed (load_data parse_csv filename) w = [loaded_line t] /\
  files (exec (load_data parse_csv filename) w) = files w /\
  figures (exec (load_data parse_csv filename) w) = figures w /\
  clock (exec (load_data parse_csv filename) w) = clock w.
Proof.
  intros Hf Hp. pose proof (load_data_ok parse_csv filename w text t Hf Hp) as Hrun.
  split; [apply (result_run _ _ _ _ Hrun)|].
  split; [now rewrite (exec_run _ _ _ _ Hrun)|].
  split; [rewrite (exec_run _ _ _ _ Hrun); apply lookup_snoc|].
  split; [exact (printed_of_stdout _ _ _ _ _ Hrun eq_refl)|].
  rewrite (exec_run _ _ _ _ Hrun). repeat split; reflexivity.
Qed.

(** X15.  When the file exists but is not a text the parser accepts, the
    parser's error leaves the loader as it is: no exit is raised, no frame is
    made and nothing is printed, the world is as it was. *)
Theorem load_data_parse_failure parse_csv filename w :
  is_Some (files w !! filename) ->
  (forall text, files w !! filename = Some (TextFile text) -> parse_csv text = None) ->
  result (load_data parse_csv filename) w = Raise ParserError /\
  exec (load_data parse_csv filename) w = w.
Proof.
  intros Hf Hbad. pose proof (load_data_rejected parse_csv filename w Hf Hbad) as Hrun.
  split; [apply (result_run _ _ _ _ Hrun) | apply (exec_run _ _ _ _ Hrun)].
Qed.

Lemma species_count_with_time cols :
  NoDup (map fst cols) -> In "TimeStep" (map fst cols) ->
  S (length (filter (fun c : string * Series => fst c <> "TimeStep") cols)) = length cols.
Proof.
  induction cols as [|[c s] cols IH]; intros Hnd Hin; [contradiction|].
  simpl in Hnd, Hin. apply NoDup_cons in Hnd as [Hnotin Hnd].
  destruct (decide (c = "TimeStep")) as [-> | Hne].
  - rewrite filter_cons_False by (simpl; tauto). simpl. f_equal.
    clear IH Hin Hnd. induction cols as [|[c' s'] cols IH]; [reflexivity|].
    rewrite filter_cons_True.
    + simpl. f_equal. apply IH. intros Hin. apply Hnotin. simpl. now right.
    + simpl. intros ->. apply Hnotin. simpl. now left.
  - rewrite filter_cons_True by (simpl; assumption). simpl. f_equal.
    apply IH; [exact Hnd|]. destruct Hin as [Heq | Hin]; [congruence | exact Hin].
Qed.

(** X16.  The loader announces the number of columns less one as the
    number of species.  For a loaded table with at least one row and a
    column named [TimeStep] that is the number of per-species lines the
    reporter then prints on the frame the loader returned; for a table
    without such a column the reporter prints one line more than announced. *)
Theorem announced_species_count parse_csv filename w text t :
  files w !! filename = Some (TextFile text) -> parse_csv text = Some t ->
  loaded t -> (0 < df_len t)%nat ->
  printed (load_data parse_csv filename) w =
    [[Lit "Loaded "; Fmt (VNum (SInt (Z.of_nat (df_len t)))) ""; Lit " timesteps with ";
      Fmt (VNum (SInt (Z.of_nat (length (col_names t)) - 1))) ""; Lit " species"]] /\
  (has_column t "TimeStep" ->
     Z.of_nat (length (species_lines
                         (printed (print_statistics (length (heap w)))
                                  (exec (load_data parse_csv filename) w)))) =
     Z.of_nat (length (col_names t)) - 1) /\
  (~ has_column t "TimeStep" ->
     Z.of_nat (length (species_lines
                         (printed (print_statistics (length (heap w)))
                                  (exec (load_data parse_csv filename) w)))) =
     Z.of_nat (length (col_names t))).
Proof.
  intros Hf Hp Hl Hn. pose proof (load_data_ok parse_csv filename w text t Hf Hp) as Hrun.
  split; [exact (printed_of_stdout _ _ _ _ _ Hrun eq_refl)|].
  assert (H : heap (exec (load_data parse_csv filename) w) !! length (heap w) = Some t)
    by (rewrite (exec_run _ _ _ _ Hrun); apply lookup_snoc).
  pose proof (report_body _ t _ H Hl Hn) as Hrep.
  apply Forall2_length in Hrep. rewrite <- Hrep.
  split; intros Hts.
  - pose proof (species_count_with_time (df_cols t) (proj1 Hl) Hts) as Hc.
    unfold species_columns, col_names. rewrite length_map. lia.
  - rewrite (species_columns_all t Hts). unfold col_names. now rewrite length_map.
Qed.

(** ** More on the main program *)

Lemma main_report_raises parse_csv w text t e :
  files w !! "ecosystem_data.csv" = Some (TextFile text) -> parse_csv text = Some t ->
  (forall W, heap W !! length (heap w) = Some t ->
     exists ls, print_statistics (length (heap w)) W = (Raise e, out ls W)) ->
  result (main parse_csv) w = Raise e /\
  files (exec (main parse_csv) w) = files w /\
  figures (exec (main parse_csv) w) = figures w.
Proof.
  intros Hf Hp Hrep. unfold result, exec.
  destruct (main parse_csv w) as [o W] eqn:E. cbn [fst snd]. unfold main in E.
  rewrite !(run_bind_ok _ _ _ _ _ (run_print _ _)), out_out in E.
  match type of E with context [out ?L w] =>
    pose proof (load_data_ok parse_csv "ecosystem_data.csv" (out L w) text t Hf Hp) as Hload
  end.
  rewrite (run_bind_ok _ _ _ _ _ Hload) in E. clear Hload.
  match type of E with context [bind (print_statistics ?d) _ ?w2] =>
    destruct (Hrep w2 (lookup_snoc _ _)) as (ls & Hrun)
  end.
  cbn [heap out] in E.
  rewrite (run_bind_raise _ _ _ _ _ Hrun) in E.
  injection E as <- <-. repeat split; reflexivity.
Qed.

(** X17.  With the data file in place and parsed to a loaded table, the
    outcome of the main program is decided by the table alone.  With at
    least one row and a column named [TimeStep] it returns normally, exit
    status 0.  Without rows it ends with the out-of-bounds error, and with
    rows but no such column with the key error for [TimeStep]; in both cases
    the exit status is 1 and the program stops in the report, before any
    chart: no file is written and no figure opened. *)
Theorem main_outcome parse_csv w text t :
  files w !! "ecosystem_data.csv" = Some (TextFile text) -> parse_csv text = Some t ->
  loaded t ->
  ((0 < df_len t)%nat -> has_column t "TimeStep" ->
     result (main parse_csv) w = Ok tt /\ exit_code (result (main parse_csv) w) = 0) /\
  (df_len t = 0%nat ->
     result (main parse_csv) w = Raise IndexError /\
     exit_code (result (main parse_csv) w) = 1 /\
     files (exec (main parse_csv) w) = files w /\
     figures (exec (main parse_csv) w) = figures w) /\
  ((0 < df_len t)%nat -> ~ has_column t "TimeStep" ->
     result (main parse_csv) w = Raise (KeyError "TimeStep") /\
     exit_code (result (main parse_csv) w) = 1 /\
     files (exec (main parse_csv) w) = files w /\
     figures (exec (main parse_csv) w) = figures w).
Proof.
  intros Hf Hp Hl. split; [|split].
  - intros Hn Hts. apply has_column_lookup in Hts as [ts Hts].
    destruct (main_run parse_csv w text t ts Hf Hp Hl Hn Hts) as (? & ? & ? & ? & Hres & _).
    rewrite Hres. split; reflexivity.
  - intros Hn.
    destruct (main_report_raises parse_csv w text t IndexError Hf Hp) as (Hres & Hfiles & Hfigs).
    + intros W HW. destruct (print_statistics_empty _ t W HW Hl Hn) as (tail & Hrun & _).
      eauto.
    + rewrite Hres. repeat split; assumption.
  - intros Hn Hno.
    destruct (main_report_raises parse_csv w text t (KeyError "TimeStep") Hf Hp)
      as (Hres & Hfiles & Hfigs).
    + intros W HW.
      destruct (print_statistics_run _ t W HW Hl Hn) as (body & tail & o & Hrun & _ & _ & Htail).
      destruct Htail as [([ts Hts] & _) | (_ & -> & _)].
      * exfalso. apply Hno, has_column_lookup. eauto.
      * eauto.
    + rewrite Hres. repeat split; assumption.
Qed.

Lemma main_world parse_csv w text t ts :
  files w !! "ecosystem_data.csv" = Some (TextFile text) ->
  parse_csv text = Some t -> loaded t -> (0 < df_len t)%nat ->
  lookup_col "TimeStep" (df_cols t) = Some ts ->
  exists body tail,
    main parse_csv w =
    (Ok tt,
     mkWorld (heap w ++ [t])
       (stdout w ++
        [[Lit "Ecosystem Data Visualization Tool"]; [Lit (str_mul "=" 50)]; loaded_line t] ++
        (report_banner ++ body ++ tail) ++
        [[Lit "Generating visualizations..."];
         saved_line (population_dynamics_png (int_of_float (clock w)));
         saved_line (trophic_levels_png (int_of_float (clock w)));
         [Lit (nl +:+ "Visualization complete!")];
         [Lit "Check the generated PNG files for plots."]])
       []
       (<[trophic_levels_png (int_of_float (clock w)) :=
            ImageFile (trophic_figure (group_series t ts producers)
                         (group_series t ts herbivores) (group_series t ts predators)) 150]>
          (<[population_dynamics_png (int_of_float (clock w)) :=
               ImageFile (all_populations_figure (population_series t ts)) 150]> (files w)))
       (clock w)) /\
    Forall2 reports (species_columns t) body /\
    Forall (fun l => is_species_line l = true) body /\
    exists x y, tail = [report_rule; report_count (df_len t);
                        total_line "Initial total population: " x;
                        total_line "Final total population: " y; report_end].
Proof.
  intros Hf Hp Hl Hn Hts.
  destruct (main parse_csv w) as [o W] eqn:E. unfold main in E.
  rewrite !(run_bind_ok _ _ _ _ _ (run_print _ _)), out_out in E.
  match type of E with context [out ?L w] =>
    pose proof (load_data_ok parse_csv "ecosystem_data.csv" (out L w) text t Hf Hp) as Hload
  end.
  rewrite (run_bind_ok _ _ _ _ _ Hload) in E. clear Hload.
  cbn [out heap stdout figures files clock] in E.
  match type of E with context [bind (print_statistics ?d) _ ?w2] =>
    assert (H2 : heap w2 !! d = Some t) by exact (lookup_snoc _ _);
    destruct (print_statistics_run d t w2 H2 Hl Hn)
      as (body & tail & o' & Hrun & Hrep & Hshape & Htail)
  end.
  destruct Htail as [(_ & -> & vs0 & vs1 & _ & _ & Htail) | (Hno & _)]; [|congruence].
  rewrite (run_bind_ok _ _ _ _ _ Hrun) in E. clear Hrun.
  cbn [out heap stdout figures files clock] in E.
  unfold time_time at 1 in E. unfold bind at 1 in E.
  rewrite (run_bind_ok _ _ _ _ _ (run_print _ _)) in E.
  cbn [out heap stdout figures files clock] in E.
  match type of E with context [bind (plot_all_populations ?d ?o1) _ ?w3] =>
    rewrite (run_bind_ok _ _ _ _ _ (plot_all_populations_image d t ts o1 w3 H2 Hts)) in E
  end.
  cbn [out heap stdout figures files clock] in E.
  match type of E with context [bind (plot_trophic_levels ?d ?o2) _ ?w4] =>
    rewrite (run_bind_ok _ _ _ _ _ (plot_trophic_levels_image d t ts o2 w4 H2 Hts)) in E
  end.
  cbn [out heap stdout figures files clock] in E.
  rewrite (run_bind_ok _ _ _ _ _ (run_print _ _)), run_print in E.
  cbn [out heap stdout figures files clock] in E.
  exists body, tail. split; [|split; [exact Hrep | split; [exact Hshape | eauto]]].
  rewrite <- E. unfold out. cbn [heap stdout figures files clock]. f_equal. f_equal.
  rewrite <- !app_assoc. reflexivity.
Qed.

(** X18.  From any state of the process (frames already loaded, figures
    left open, files of earlier runs), a run on a data file that parses to a
    loaded table of 64-bit counts with rows and a time column ends with that
    table as the one new frame, no figure open, and the two chart files holding the charts of
    that table and of nothing else; it prints, in this order, its title, the
    loader's line, the report, and the two confirmation lines naming the two
    files between the announcement and the closing lines. *)
Theorem main_success_state parse_csv w text t ts :
  files w !! "ecosystem_data.csv" = Some (TextFile text) ->
  parse_csv text = Some t -> loaded t -> int64_table t -> (0 < df_len t)%nat ->
  lookup_col "TimeStep" (df_cols t) = Some ts ->
  heap (exec (main parse_csv) w) = heap w ++ [t] /\
  figures (exec (main parse_csv) w) = [] /\
  clock (exec (main parse_csv) w) = clock w /\
  files (exec (main parse_csv) w) !! population_dynamics_png (int_of_float (clock w)) =
    Some (ImageFile (all_populations_figure (map (series_of ts) (species_columns t))) 150) /\
  files (exec (main parse_csv) w) !! trophic_levels_png (int_of_float (clock w)) =
    Some (ImageFile (trophic_figure (group_series t ts producers)
                       (group_series t ts herbivores) (group_series t ts predators)) 150) /\
  exists report,
    printed (main parse_csv) w =
      [[Lit "Ecosystem Data Visualization Tool"]; [Lit (str_mul "=" 50)]; loaded_line t] ++
      report ++
      [[Lit "Generating visualizations..."];
       saved_line (population_dynamics_png (int_of_float (clock w)));
       saved_line (trophic_levels_png (int_of_float (clock w)));
       [Lit (nl +:+ "Visualization complete!")];
       [Lit "Check the generated PNG files for plots."]] /\
    Forall2 reports (species_columns t) (species_lines report).
Proof.
  intros Hf Hp Hl _ Hn Hts.
  destruct (main_world parse_csv w text t ts Hf Hp Hl Hn Hts)
    as (body & tail & Hrun & Hrep & Hshape & x & y & Htail).
  rewrite (exec_run _ _ _ _ Hrun). cbn [heap figures clock files].
  split; [reflexivity|]. split; [reflexivity|]. split; [reflexivity|].
  split; [|split].
  - rewrite lookup_insert_ne by (intros E; symmetry in E; revert E; apply chart_names_apart).
    rewrite lookup_insert_eq. unfold population_series. now rewrite (members_species t Hl).
  - apply lookup_insert_eq.
  - exists (report_banner ++ body ++ tail). split.
    + exact (printed_of_stdout _ _ _ _ _ Hrun eq_refl).
    + rewrite (species_lines_report t body tail Hshape); [exact Hrep|].
      left. exists x, y. exact Htail.
Qed.

(** ** The further properties at sample inputs *)

Lemma single_row_table_loaded : loaded single_row_table.
Proof. apply (bool_decide_unpack _). vm_compute. reflexivity. Qed.

Lemma single_row_table_int64 : int64_table single_row_table.
Proof. apply (bool_decide_unpack _). vm_compute. reflexivity. Qed.

Lemma unlisted_table_no_listed :
  forall c, In c (producers ++ herbivores ++ predators) -> ~ has_column unlisted_table c.
Proof.
  intros c Hin [<- | [<- | []]]; simpl in Hin;
    repeat (destruct Hin as [Hin | Hin]; [discriminate|]); exact Hin.
Qed.

Lemma lowercase_table_no_time : ~ has_column lowercase_table "TimeStep".
Proof. intros [H | [H | []]]; discriminate. Qed.

Lemma first_run_file :
  files first_run_start !! "ecosystem_data.csv" = Some (TextFile "first").
Proof. apply lookup_insert_eq. Qed.

Lemma start_file old text now :
  files (start old text now) !! "ecosystem_data.csv" = Some (TextFile text).
Proof. apply lookup_insert_eq. Qed.

(** X1 at the table of the specification's example. *)
Lemma all_populations_chart_saved_witness :
  heap (world_of spec_table) !! 0%nat = Some spec_table /\
  lookup_col "TimeStep" (df_cols spec_table) = Some [0; 1; 2; 3; 4] /\
  result (plot_all_populations 0%nat "population_dynamics.png") (world_of spec_table) = Ok tt /\
  figures (exec (plot_all_populations 0%nat "population_dynamics.png") (world_of spec_table)) = [].
Proof.
  destruct (all_populations_chart_saved 0%nat spec_table [0; 1; 2; 3; 4]
              "population_dynamics.png" (world_of spec_table) eq_refl eq_refl)
    as (Hres & _ & Hfig & _).
  split; [reflexivity|]. split; [reflexivity|]. split; [exact Hres | exact Hfig].
Defined.

(** X2 at the table of the specification's example. *)
Lemma trophic_chart_saved_witness :
  heap (world_of spec_table) !! 0%nat = Some spec_table /\
  lookup_col "TimeStep" (df_cols spec_table) = Some [0; 1; 2; 3; 4] /\
  result (plot_trophic_levels 0%nat "trophic_levels.png") (world_of spec_table) = Ok tt /\
  printed (plot_trophic_levels 0%nat "trophic_levels.png") (world_of spec_table) =
    [saved_line "trophic_levels.png"].
Proof.
  destruct (trophic_chart_saved 0%nat spec_table [0; 1; 2; 3; 4]
              "trophic_levels.png" (world_of spec_table) eq_refl eq_refl)
    as (Hres & Hpr & _).
  split; [reflexivity|]. split; [reflexivity|]. split; [exact Hres | exact Hpr].
Defined.

(** X3 at the table of the specification's example. *)
Lemma charts_repeatable_witness :
  heap (world_of spec_table) !! 0%nat = Some spec_table /\
  lookup_col "TimeStep" (df_cols spec_table) = Some [0; 1; 2; 3; 4] /\
  files (exec (plot_all_populations 0%nat "population_dynamics.png" ;;;
               plot_all_populations 0%nat "population_dynamics.png") (world_of spec_table)) =
  files (exec (plot_all_populations 0%nat "population_dynamics.png") (world_of spec_table)).
Proof.
  destruct (charts_repeatable 0%nat spec_table [0; 1; 2; 3; 4]
              "population_dynamics.png" (world_of spec_table) eq_refl eq_refl)
    as (_ & (Hfiles & _) & _).
  split; [reflexivity|]. split; [reflexivity | exact Hfiles].
Defined.

(** X4 at a table whose time column is spelled [timestep]. *)
Lemma failed_plot_leaves_no_trace_witness :
  result (plot_all_populations 0%nat "population_dynamics.png") (world_of lowercase_table)
    <> Ok tt /\
  files (exec (plot_all_populations 0%nat "population_dynamics.png")
              (world_of lowercase_table)) = files (world_of lowercase_table) /\
  result (plot_trophic_levels 0%nat "trophic_levels.png") (world_of lowercase_table)
    <> Ok tt /\
  stdout (exec (plot_trophic_levels 0%nat "trophic_levels.png")
               (world_of lowercase_table)) = stdout (world_of lowercase_table).
Proof.
  assert (H1 : result (plot_all_populations 0%nat "population_dynamics.png")
                 (world_of lowercase_table) <> Ok tt).
  { rewrite (result_run _ _ _ _
               (plot_all_populations_no_time 0%nat lowercase_table "population_dynamics.png"
                  (world_of lowercase_table) eq_refl eq_refl ltac:(discriminate))).
    discriminate. }
  assert (H2 : result (plot_trophic_levels 0%nat "trophic_levels.png")
                 (world_of lowercase_table) <> Ok tt).
  { rewrite (plot_trophic_levels_no_time 0%nat lowercase_table "trophic_levels.png"
               (world_of lowercase_table) eq_refl eq_refl).
    - discriminate.
    - exists "Deer". split; [simpl; tauto | right; left; reflexivity]. }
  destruct (failed_plot_leaves_no_trace 0%nat "population_dynamics.png"
              (world_of lowercase_table)) as (Hall & _).
  destruct (failed_plot_leaves_no_trace 0%nat "trophic_levels.png"
              (world_of lowercase_table)) as (_ & Htro).
  split; [exact H1|]. split; [apply (Hall H1)|]. split; [exact H2 | apply (Htro H2)].
Defined.

(** X5 at a table whose time column is spelled [timestep]. *)
Lemma all_populations_failure_leaves_figure_witness :
  heap (world_of lowercase_table) !! 0%nat = Some lowercase_table /\
  ~ has_column lowercase_table "TimeStep" /\
  col_names lowercase_table <> [] /\
  figures (exec (plot_all_populations 0%nat "population_dynamics.png")
                (world_of lowercase_table)) = [mkFigure (14 # 1, 8 # 1)%Q []].
Proof.
  destruct (all_populations_failure_leaves_figure 0%nat lowercase_table
              "population_dynamics.png" (world_of lowercase_table)
              eq_refl lowercase_table_no_time ltac:(discriminate)) as (_ & Hexec).
  split; [reflexivity|]. split; [exact lowercase_table_no_time|].
  split; [discriminate|]. rewrite Hexec. reflexivity.
Defined.

(** X6 at a table with none of the listed columns and no time column. *)
Lemma trophic_without_listed_columns_witness :
  heap (world_of unlisted_table) !! 0%nat = Some unlisted_table /\
  ~ has_column unlisted_table "TimeStep" /\
  result (plot_trophic_levels 0%nat "trophic_levels.png") (world_of unlisted_table) = Ok tt.
Proof.
  split; [reflexivity|]. split; [intros [H | [H | []]]; discriminate|].
  apply (trophic_without_listed_columns 0%nat unlisted_table "trophic_levels.png"
           (world_of unlisted_table) eq_refl unlisted_table_no_listed).
Defined.

(** X7 at the table of the specification's example. *)
Lemma trophic_series_distinct_witness :
  heap (world_of spec_table) !! 0%nat = Some spec_table /\
  lookup_col "TimeStep" (df_cols spec_table) = Some [0; 1; 2; 3; 4] /\
  exists a0 a1 a2 size,
    files (exec (plot_trophic_levels 0%nat "trophic_levels.png") (world_of spec_table))
      !! "trophic_levels.png" = Some (ImageFile (mkFigure size [a0; a1; a2]) 150) /\
    labels a0 ++ labels a1 ++ labels a2 = ["Wildflowers"; "Deer"; "Fox"].
Proof.
  split; [reflexivity|]. split; [reflexivity|].
  destruct (trophic_series_distinct 0%nat spec_table [0; 1; 2; 3; 4] "trophic_levels.png"
              (world_of spec_table) eq_refl eq_refl)
    as (a0 & a1 & a2 & size & Hfile & Hlabels & _).
  exists a0, a1, a2, size. split; [exact Hfile | exact Hlabels].
Defined.

(** X8 at a table whose time column is spelled [timestep]. *)
Lemma report_without_time_column_witness :
  heap (world_of lowercase_table) !! 0%nat = Some lowercase_table /\
  loaded lowercase_table /\
  int64_table lowercase_table /\
  (0 < df_len lowercase_table)%nat /\
  ~ has_column lowercase_table "TimeStep" /\
  result (print_statistics 0%nat) (world_of lowercase_table) = Raise (KeyError "TimeStep").
Proof.
  split; [reflexivity|]. split; [exact lowercase_table_loaded|].
  split; [exact lowercase_table_int64|]. split; [simpl; lia|].
  split; [exact lowercase_table_no_time|].
  apply (report_without_time_column 0%nat lowercase_table (world_of lowercase_table)
           eq_refl lowercase_table_loaded lowercase_table_int64 ltac:(simpl; lia)
           lowercase_table_no_time).
Defined.



(** X11 at the table of the specification's example. *)
Lemma report_figures_bounded_witness :
  heap (world_of spec_table) !! 0%nat = Some spec_table /\
  loaded spec_table /\
  (0 < df_len spec_table)%nat /\
  Forall (fun l =>
            exists column initial final mean maximum minimum,
              l = species_line column initial final
                    (SFloat mean) (SInt maximum) (SInt minimum) /\
              minimum <= initial <= maximum /\ minimum <= final <= maximum /\
              minimum <= maximum)
         (species_lines (printed (print_statistics 0%nat) (world_of spec_table))).
Proof.
  split; [reflexivity|]. split; [exact spec_table_loaded|]. split; [simpl; lia|].
  apply (report_figures_bounded 0%nat spec_table (world_of spec_table)
           eq_refl spec_table_loaded ltac:(simpl; lia)).
Defined.

(** X12 at a table with a single row. *)
Lemma report_single_row_witness :
  heap (world_of single_row_table) !! 0%nat = Some single_row_table /\
  loaded single_row_table /\
  int64_table single_row_table /\
  df_len single_row_table = 1%nat /\
  Forall (fun l =>
            exists column v mean,
              l = species_line column v v (SFloat mean) (SInt v) (SInt v) /\
              (Z.abs v < 2 ^ 53 ->
                 mean = float_of_int v /\
                 text l = Some (species_text column v v (float_of_int v) v v) /\
                 format_f 1 (float_of_int v) = pretty v +:+ ".0"))
         (species_lines (printed (print_statistics 0%nat) (world_of single_row_table))).
Proof.
  split; [reflexivity|]. split; [exact single_row_table_loaded|].
  split; [exact single_row_table_int64|]. split; [reflexivity|].
  apply (report_single_row 0%nat single_row_table (world_of single_row_table)
           eq_refl single_row_table_loaded single_row_table_int64 eq_refl).
Defined.

(** X14 at the first sample run. *)
Lemma load_data_success_witness :
  files first_run_start !! "ecosystem_data.csv" = Some (TextFile "first") /\
  sample_parser "first" = Some spec_table /\
  result (load_data sample_parser "ecosystem_data.csv") first_run_start = Ok 0%nat /\
  heap (exec (load_data sample_parser "ecosystem_data.csv") first_run_start) = [spec_table].
Proof.
  destruct (load_data_success sample_parser "ecosystem_data.csv" first_run_start
              "first" spec_table first_run_file eq_refl) as (Hres & Hheap & _).
  split; [exact first_run_file|]. split; [reflexivity|].
  split; [exact Hres | exact Hheap].
Defined.

(** X15 at the first sample run, with a parser that rejects its text. *)
Lemma load_data_parse_failure_witness :
  is_Some (files first_run_start !! "ecosystem_data.csv") /\
  (forall text, files first_run_start !! "ecosystem_data.csv" = Some (TextFile text) ->
                reject_parser text = None) /\
  result (load_data reject_parser "ecosystem_data.csv") first_run_start = Raise ParserError /\
  exec (load_data reject_parser "ecosystem_data.csv") first_run_start = first_run_start.
Proof.
  assert (Hsome : is_Some (files first_run_start !! "ecosystem_data.csv"))
    by (eexists; exact first_run_file).
  assert (Hbad : forall text,
            files first_run_start !! "ecosystem_data.csv" = Some (TextFile text) ->
            reject_parser text = None) by reflexivity.
  split; [exact Hsome|]. split; [exact Hbad|].
  apply (load_data_parse_failure reject_parser "ecosystem_data.csv" first_run_start
           Hsome Hbad).
Defined.

(** X16 at the first sample run: four species announced, four lines. *)
Lemma announced_species_count_witness :
  files first_run_start !! "ecosystem_data.csv" = Some (TextFile "first") /\
  sample_parser "first" = Some spec_table /\
  loaded spec_table /\
  (0 < df_len spec_table)%nat /\
  has_column spec_table "TimeStep" /\
  Z.of_nat (length (species_lines
                      (printed (print_statistics (length (heap first_run_start)))
                               (exec (load_data sample_parser "ecosystem_data.csv")
                                     first_run_start)))) = 4.
Proof.
  destruct (announced_species_count sample_parser "ecosystem_data.csv" first_run_start
              "first" spec_table first_run_file eq_refl spec_table_loaded
              ltac:(simpl; lia)) as (_ & Hwith & _).
  split; [exact first_run_file|]. split; [reflexivity|]. split; [exact spec_table_loaded|].
  split; [simpl; lia|]. split; [left; reflexivity|].
  exact (Hwith (or_introl eq_refl)).
Defined.

(** X17 at three data files: the table of the specification's example, a
    header without rows, and a table whose time column is spelled
    [timestep]. *)
Lemma main_outcome_witness :
  loaded spec_table /\ (0 < df_len spec_table)%nat /\ has_column spec_table "TimeStep" /\
  result (main (constant_parser spec_table)) (start ∅ "data" 0) = Ok tt /\
  loaded empty_table /\ df_len empty_table = 0%nat /\
  result (main (constant_parser empty_table)) (start ∅ "data" 0) = Raise IndexError /\
  loaded lowercase_table /\ (0 < df_len lowercase_table)%nat /\
  ~ has_column lowercase_table "TimeStep" /\
  result (main (constant_parser lowercase_table)) (start ∅ "data" 0) =
    Raise (KeyError "TimeStep") /\
  files (exec (main (constant_parser lowercase_table)) (start ∅ "data" 0)) =
    files (start ∅ "data" 0).
Proof.
  destruct (main_outcome (constant_parser spec_table) (start ∅ "data" 0) "data" spec_table
              (start_file _ _ _) eq_refl spec_table_loaded) as (Hok & _ & _).
  destruct (main_outcome (constant_parser empty_table) (start ∅ "data" 0) "data" empty_table
              (start_file _ _ _) eq_refl empty_table_loaded) as (_ & Hempty & _).
  destruct (main_outcome (constant_parser lowercase_table) (start ∅ "data" 0) "data"
              lowercase_table (start_file _ _ _) eq_refl lowercase_table_loaded)
    as (_ & _ & Hkey).
  split; [exact spec_table_loaded|]. split; [simpl; lia|]. split; [left; reflexivity|].
  split; [exact (proj1 (Hok ltac:(simpl; lia) (or_introl eq_refl)))|].
  split; [exact empty_table_loaded|]. split; [reflexivity|].
  split; [exact (proj1 (Hempty eq_refl))|].
  split; [exact lowercase_table_loaded|]. split; [simpl; lia|].
  split; [exact lowercase_table_no_time|].
  destruct (Hkey ltac:(simpl; lia) lowercase_table_no_time) as (Hres & _ & Hfiles & _).
  split; [exact Hres | exact Hfiles].
Defined.

(** X18 at the first sample run. *)
Lemma main_success_state_witness :
  files first_run_start !! "ecosystem_data.csv" = Some (TextFile "first") /\
  sample_parser "first" = Some spec_table /\
  loaded spec_table /\
  int64_table spec_table /\
  (0 < df_len spec_table)%nat /\
  lookup_col "TimeStep" (df_cols spec_table) = Some [0; 1; 2; 3; 4] /\
  heap first_run_end = [spec_table] /\
  figures first_run_end = [].
Proof.
  destruct (main_success_state sample_parser first_run_start "first" spec_table
              [0; 1; 2; 3; 4] first_run_file eq_refl spec_table_loaded spec_table_int64
              ltac:(simpl; lia) eq_refl) as (Hheap & Hfigs & _).
  split; [exact first_run_file|]. split; [reflexivity|]. split; [exact spec_table_loaded|].
  split; [exact spec_table_int64|].
  split; [simpl; lia|]. split; [reflexivity|].
  split; [exact Hheap | exact Hfigs].
Defined.
